(** * Fase 9 — Redes neuronales: verification of the training and
      scenario-scoring pipeline of [scripts/09_redes_neuronales.py].

    The development embeds the five functions of the script
    ([construir_preprocesador], [construir_modelo_clasificacion],
    [entrenar_modelo_nn], [construir_df_escenarios], [predecir_escenarios])
    together with the part of pandas, scikit-learn and Keras they rely on.

    - A data cell is a [valor]: an integer, a text or the missing value NaN.
      Numbers are integers throughout: that pandas holds the numbers of a
      column with a missing value as floats (and writes them 1.0, not 1) is
      not modelled, and the statements on the names prob_<category> are
      made for categories that are texts.
    - A [DataFrame] is a list of column names and a list of rows, each row a
      finite map from column name to cell (the shape [pd.DataFrame(rows)]
      gives to a list of dicts).
    - Probabilities are rationals; the classifier's inference is a function
      carried by the trained model, its training an oracle of the
      environment.
    - Exceptions are values of [resultado]; writes to disk and calls to the
      external collaborators are recorded, in order, in a trace. *)

From Stdlib Require Import ZArith QArith Lia.
From stdpp Require Import base option list strings gmap sorting pretty.

Open Scope Z_scope.
Open Scope nat_scope.
Open Scope stdpp_scope.

(** ** Cells *)

Inductive valor : Type :=
  | VNum (z : Z)
  | VStr (s : string)
  | VNaN.

#[global] Instance valor_eq_dec : EqDecision valor.
Proof. solve_decision. Defined.

Definition es_nan (v : valor) : bool :=
  match v with VNaN => true | _ => false end.

(** Python's [str(v)], as used by f-strings: the text itself, the decimal
    digits of an integer. *)
Definition str_valor (v : valor) : string :=
  match v with
  | VNum z => pretty z
  | VStr s => s
  | VNaN => "nan"
  end.

(** The order in which pandas ([factorize(sort=True)]) and numpy
    ([np.unique]) arrange distinct values: numbers ascending, texts in
    code-point order, numbers before texts, the missing value last. *)
Definition valor_le (a b : valor) : Prop :=
  match a, b with
  | VNum x, VNum y => (x ≤ y)%Z
  | VNum _, _ => True
  | VStr _, VNum _ => False
  | VStr s, VStr t => String.le s t
  | VStr _, VNaN => True
  | VNaN, VNaN => True
  | VNaN, _ => False
  end.

#[global] Instance valor_le_dec : RelDecision valor_le.
Proof. intros [x|s|] [y|t|]; simpl; apply _. Defined.

#[global] Instance valor_le_total : Total valor_le.
Proof.
  intros [x|s|] [y|t|]; simpl; auto.
  - lia.
  - apply (total String.le).
Qed.

#[global] Instance valor_le_trans : Transitive valor_le.
Proof.
  intros [x|s|] [y|t|] [z|u|]; simpl; try tauto.
  - lia.
  - apply (transitivity (R := String.le)).
Qed.

#[global] Instance valor_le_antisym : AntiSymm (=) valor_le.
Proof.
  intros [x|s|] [y|t|]; simpl; try tauto.
  - intros. f_equal. lia.
  - intros H1 H2. f_equal. by apply (anti_symm String.le).
Qed.

(** [sorted(set(values))]: the distinct values, ascending. *)
Definition unicos_ordenados (vs : list valor) : list valor :=
  merge_sort valor_le (remove_dups vs).

(** ** Exceptions *)

Inductive error : Type :=
  | ValueError (msg : string)
  | KeyError (msg : string)
  | TypeError (msg : string)
  | IndexError (msg : string)
  | OSError (msg : string)
  | RuntimeError (msg : string).

Inductive resultado (A : Type) : Type :=
  | Ok (a : A)
  | Err (e : error).
Arguments Ok {A} a.
Arguments Err {A} e.

Definition res_bind {A B} (r : resultado A) (f : A → resultado B) : resultado B :=
  match r with Ok a => f a | Err e => Err e end.

Notation "'sea' x ':=?' r 'en' k" := (res_bind r (fun x => k))
  (at level 10, x pattern, r at level 100, k at level 200).

Fixpoint res_mapM {A B} (f : A → resultado B) (l : list A) : resultado (list B) :=
  match l with
  | [] => Ok []
  | x :: l' =>
      sea y :=? f x en
      sea ys :=? res_mapM f l' en
      Ok (y :: ys)
  end.

(** ** Python dicts with integer keys, kept in insertion order *)

Fixpoint dict_get {V} (k : Z) (d : list (Z * V)) : option V :=
  match d with
  | [] => None
  | (k', v) :: d' => if decide (k = k') then Some v else dict_get k d'
  end.

Fixpoint enumerate_desde {V} (n : Z) (l : list V) : list (Z * V) :=
  match l with
  | [] => []
  | x :: l' => (n, x) :: enumerate_desde (n + 1)%Z l'
  end.

(** [dict(enumerate(l))] *)
Definition enumerate {V} (l : list V) : list (Z * V) := enumerate_desde 0%Z l.

(** ** Data frames *)

Record DataFrame (A : Type) : Type := mkDF {
  columns : list string;
  filas : list (gmap string A);
}.
Arguments mkDF {A} _ _.
Arguments columns {A} _.
Arguments filas {A} _.

(** A cell of a row; a key the row dict lacks reads as NaN, as in
    [pd.DataFrame(rows)]. *)
Definition celda (r : gmap string valor) (c : string) : valor :=
  default VNaN (r !! c).

(** [df[c]] as a list of values *)
Definition columna (df : DataFrame valor) (c : string) : list valor :=
  map (λ r, celda r c) (filas df).

(** [df[cols]] for columns known to exist *)
Definition seleccionar (cols : list string) (df : DataFrame valor) : DataFrame valor :=
  mkDF cols (map (λ r, filter (λ kv, kv.1 ∈ cols) r) (filas df)).

(** [df.dropna(subset=cols)] *)
Definition dropna (cols : list string) (df : DataFrame valor) : DataFrame valor :=
  mkDF (columns df)
       (filter (λ r, forallb (λ c, negb (es_nan (celda r c))) cols = true) (filas df)).

(** ** Target encoding (pandas categoricals) *)

(** [s.astype("category").cat.categories]: the distinct non-missing values,
    sorted. *)
Definition categorias (vs : list valor) : list valor :=
  unicos_ordenados (filter (λ v, v ≠ VNaN) vs).

Fixpoint posicion (v : valor) (cats : list valor) : option nat :=
  match cats with
  | [] => None
  | c :: cats' =>
      if decide (v = c) then Some 0 else S <$> posicion v cats'
  end.

(** [s.cat.codes]: position of the value among the categories, -1 for a
    value that is not a category (the missing value). *)
Definition codigo (cats : list valor) (v : valor) : Z :=
  match posicion v cats with
  | Some i => Z.of_nat i
  | None => (-1)%Z
  end.

(** Lines 189-191 of [entrenar_modelo_nn]. *)
Definition codificar_target (data_sub : DataFrame valor) (target_col : string)
  : list (Z * valor) * list Z :=
  let y_cat := columna data_sub target_col in
  let class_mapping := enumerate (categorias y_cat) in
  let y := map (codigo (categorias y_cat)) y_cat in
  (class_mapping, y).

(** ** Feature preprocessing (scikit-learn) *)

Inductive manejo_desconocidos : Type := HU_error | HU_ignore.

Inductive estimador : Type :=
  | StandardScaler
  | OneHotEncoder (handle_unknown : manejo_desconocidos).

Record Pipeline : Type := mkPipeline { steps : list (string * estimador) }.

Record ColumnTransformer : Type := mkCT {
  transformers : list (string * Pipeline * list string);
}.

Definition construir_preprocesador (numeric_features categorical_features : list string)
  : ColumnTransformer :=
  let numeric_transformer := mkPipeline [("scaler", StandardScaler)] in
  let categorical_transformer := mkPipeline [("onehot", OneHotEncoder HU_ignore)] in
  mkCT [("num", numeric_transformer, numeric_features);
        ("cat", categorical_transformer, categorical_features)].

(** An entry of the transformed matrix.  [Estandar x muestra] stands for
    [(x - mean muestra) / std muestra], the standardised value of [x]
    against the sample the scaler was fitted on; its floating-point value is
    not computed.  [Ind b] is a one-hot indicator (1.0 or 0.0). *)
Inductive entrada : Type :=
  | Estandar (x : Z) (muestra : list Z)
  | EntNaN
  | Ind (b : bool).

#[global] Instance entrada_eq_dec : EqDecision entrada.
Proof. solve_decision. Defined.

Definition matriz : Type := list (list entrada).

(** What fitting stores for one input column. *)
Inductive columna_ajustada : Type :=
  | ScalerAj (muestra : list Z)
  | OneHotAj (handle_unknown : manejo_desconocidos) (categories_ : list valor).

Record ColumnTransformerAj : Type := mkCTAj {
  transformers_ : list (string * list (string * columna_ajustada));
}.

Definition es_num (v : valor) : bool := match v with VNum _ => true | _ => false end.
Definition es_str (v : valor) : bool := match v with VStr _ => true | _ => false end.

(** The error numpy raises for a text where a float is expected. *)
Definition no_es_float (s : string) : error :=
  ValueError ("could not convert string to float: '" +:+ s +:+ "'").

(** The numbers of a column, missing values skipped; a text cannot be
    converted to float.  (A text that spells a number, which numpy would
    convert, is not told apart from the other texts.) *)
Fixpoint numeros (vs : list valor) : resultado (list Z) :=
  match vs with
  | [] => Ok []
  | VNum z :: vs' => sea zs :=? numeros vs' en Ok (z :: zs)
  | VNaN :: vs' => numeros vs'
  | VStr s :: vs' => Err (no_es_float s)
  end.

(** The dtype pandas gives a column: [object] as soon as one of its cells is
    a text, a numeric dtype when it holds numbers and missing values only. *)
Definition dtype_numerico (vs : list valor) : bool :=
  forallb (λ v, negb (es_str v)) vs.

(** The estimators validate their input with [check_array], which asks for
    one row at least. *)
Definition sin_muestras : error :=
  ValueError "Found array with 0 sample(s) while a minimum of 1 is required".

Definition fit_columna (e : estimador) (vs : list valor) : resultado columna_ajustada :=
  match e with
  | StandardScaler => sea zs :=? numeros vs en Ok (ScalerAj zs)
  | OneHotEncoder hu =>
      if existsb es_num vs && existsb es_str vs
      then Err (TypeError "Encoders require their input argument must be uniformly strings or numbers.")
      else Ok (OneHotAj hu (unicos_ordenados vs))
  end.

(** One cell through its fitted column.  What the encoder checks on the
    column as a whole, before it looks at any cell, is [revisar_dtype]
    below. *)
Definition transform_celda (a : columna_ajustada) (c : string) (v : valor)
  : resultado (list entrada) :=
  match a with
  | ScalerAj muestra =>
      match v with
      | VNum x => Ok [Estandar x muestra]
      | VNaN => Ok [EntNaN]
      | VStr s => Err (no_es_float s)
      end
  | OneHotAj hu cats =>
      if decide (v ∈ cats) then Ok (map (λ cat, Ind (bool_decide (cat = v))) cats)
      else match hu with
           | HU_ignore => Ok (map (λ _, Ind false) cats)
           | HU_error => Err (ValueError ("Found unknown categories in column " +:+ c))
           end
  end.

(** Number of output columns a fitted input column contributes. *)
Definition ancho_columna (a : columna_ajustada) : nat :=
  match a with
  | ScalerAj _ => 1
  | OneHotAj _ cats => length cats
  end.

Definition faltan_en (cols : list string) (df : DataFrame valor) : list string :=
  filter (λ c, c ∉ columns df) cols.

(** Fitting one [(name, pipeline, columns)] entry.  The pipelines of this
    program have a single step. *)
Definition fit_transformador (X : DataFrame valor) (t : string * Pipeline * list string)
  : resultado (string * list (string * columna_ajustada)) :=
  let '(nombre, pipe, cols) := t in
  match steps pipe with
  | [(_, e)] =>
      sea ajustadas :=? res_mapM (λ c, sea a :=? fit_columna e (columna X c) en Ok (c, a)) cols en
      Ok (nombre, ajustadas)
  | _ => Err (RuntimeError "pipeline with other than one step")
  end.

Definition columnas_requeridas (ct : ColumnTransformer) : list string :=
  concat (map (λ t, t.2) (transformers ct)).

Definition fit (ct : ColumnTransformer) (X : DataFrame valor) : resultado ColumnTransformerAj :=
  match faltan_en (columnas_requeridas ct) X with
  | [] =>
      if decide (filas X = [] ∧ columnas_requeridas ct ≠ []) then Err sin_muestras
      else sea ts :=? res_mapM (fit_transformador X) (transformers ct) en Ok (mkCTAj ts)
  | _ :: _ => Err (ValueError "A given column is not a column of the dataframe")
  end.

Definition columnas_ajustadas (pp : ColumnTransformerAj) : list (string * columna_ajustada) :=
  concat (map (λ t, t.2) (transformers_ pp)).

Definition transform_fila (pp : ColumnTransformerAj) (r : gmap string valor)
  : resultado (list entrada) :=
  sea bloques :=? res_mapM (λ ca, transform_celda ca.2 ca.1 (celda r ca.1)) (columnas_ajustadas pp) en
  Ok (concat bloques).

(** The check the one-hot encoder makes on a whole column before encoding
    it: the values of a column of numeric dtype cannot be compared with
    fitted categories that are texts, and the comparison raises, whatever
    [handle_unknown] says.  (The text of the message is not numpy's.) *)
Definition revisar_dtype (X : DataFrame valor) (ca : string * columna_ajustada)
  : resultado unit :=
  match ca.2 with
  | ScalerAj _ => Ok tt
  | OneHotAj _ cats =>
      if dtype_numerico (columna X ca.1) && existsb es_str cats
      then Err (TypeError "'<' not supported between instances of 'str' and 'float'")
      else Ok tt
  end.

(** [preprocessor.transform(X)].  The checks come in the order of a
    preprocessor whose numeric transformer is the first, as
    [construir_preprocesador] builds it: the columns, the number of rows,
    the conversion of the numeric block to floats, the dtypes of the
    categorical columns. *)
Definition transform (pp : ColumnTransformerAj) (X : DataFrame valor) : resultado matriz :=
  match faltan_en (map fst (columnas_ajustadas pp)) X with
  | [] =>
      if decide (filas X = [] ∧ columnas_ajustadas pp ≠ []) then Err sin_muestras
      else
        sea m :=? res_mapM (transform_fila pp) (filas X) en
        sea _ :=? res_mapM (revisar_dtype X) (columnas_ajustadas pp) en
        Ok m
  | _ :: _ => Err (ValueError "columns are missing")
  end.

Definition fit_transform (ct : ColumnTransformer) (X : DataFrame valor)
  : resultado (ColumnTransformerAj * matriz) :=
  sea pp :=? fit ct X en
  sea m :=? transform pp X en
  Ok (pp, m).

(** [X_proc.shape[1]] *)
Definition ancho (pp : ColumnTransformerAj) : nat :=
  sum_list (map (λ ca, ancho_columna ca.2) (columnas_ajustadas pp)).

(** ** The classifier (Keras) *)

Inductive capa : Type :=
  | Input (shape : nat) (name : string)
  | Dense (units : nat) (activation : string) (name : string)
  | Dropout (rate : Q) (name : string).

Record Sequential : Type := mkSequential {
  nombre : string;
  capas : list capa;
  optimizer : option string;
  loss : option string;
  metrics : list string;
}.

Definition Sequential_vacio (name : string) : Sequential :=
  mkSequential name [] None None [].

(** [model.add(layer)] *)
Definition add (l : capa) (m : Sequential) : Sequential :=
  mkSequential (nombre m) (capas m ++ [l]) (optimizer m) (loss m) (metrics m).

(** [model.compile(optimizer=..., loss=..., metrics=...)] *)
Definition compile (o l : string) (ms : list string) (m : Sequential) : Sequential :=
  mkSequential (nombre m) (capas m) (Some o) (Some l) ms.

(** The network as the script assembles it.  Keras refuses a layer of zero
    units and a name it cannot use as a scope; the class counts and the
    names of this program are not of that sort, and the refusal is not
    modelled. *)
Definition construir_modelo_clasificacion (input_dim n_classes : nat) (model_name : string)
  : Sequential :=
  let model := Sequential_vacio model_name in
  let model := add (Input input_dim "input_layer") model in
  let model := add (Dense 32 "relu" "dense_1") model in
  let model := add (Dropout (2 # 10) "dropout_1") model in
  let model := add (Dense 16 "relu" "dense_2") model in
  if decide (n_classes = 2) then
    let model := add (Dense 1 "sigmoid" "output") model in
    compile "adam" "binary_crossentropy" ["accuracy"] model
  else
    let model := add (Dense n_classes "softmax" "output") model in
    compile "adam" "sparse_categorical_crossentropy" ["accuracy"] model.

(** The layer that produces the network's output. *)
Definition capa_salida (m : Sequential) : option capa := last (capas m).

Definition unidades_salida (m : Sequential) : nat :=
  match capa_salida m with
  | Some (Dense u _ _) => u
  | _ => 0
  end.

(** A two-dimensional array of probabilities: [shape1] is [shape[1]], every
    row of [datos] has [shape1] entries. *)
Record ndarray : Type := mkArray {
  shape1 : nat;
  datos : list (list Q);
}.

(** A trained network: its architecture and its inference pass. *)
Record ModeloEntrenado : Type := mkModelo {
  red : Sequential;
  inferencia : matriz → list (list Q);
}.

(** [model.predict(X)]: one row per input row, one column per output unit. *)
Definition predict (m : ModeloEntrenado) (X : matriz) : ndarray :=
  mkArray (unidades_salida (red m)) (inferencia m X).

(** [a[:, i]]; a negative index counts from the end. *)
Definition columna_nd (a : ndarray) (i : Z) : resultado (list Q) :=
  let j := if decide (i < 0)%Z then (i + Z.of_nat (shape1 a))%Z else i in
  if decide (0 ≤ j < Z.of_nat (shape1 a))%Z
  then Ok (map (λ r, nth (Z.to_nat j) r 0%Q) (datos a))
  else Err (IndexError "index is out of bounds for axis 1").

(** Position of the first maximum of a non-empty row, the row's head being
    the running maximum [m] found at position [im]. *)
Fixpoint argmax_desde (m : Q) (im i : nat) (r : list Q) : nat :=
  match r with
  | [] => im
  | x :: r' =>
      if Qle_bool x m then argmax_desde m im (S i) r'
      else argmax_desde x i (S i) r'
  end.

Definition argmax_fila (r : list Q) : nat :=
  match r with
  | [] => 0
  | x :: r' => argmax_desde x 0 1 r'
  end.

(** [np.argmax(a, axis=1)] *)
Definition argmax_filas (a : ndarray) : resultado (list Z) :=
  if decide (shape1 a = 0)
  then Err (ValueError "attempt to get argmax of an empty sequence")
  else Ok (map (λ r, Z.of_nat (argmax_fila r)) (datos a)).

(** ** Scenario tables *)

(** [pd.DataFrame(rows)] for a list of dicts.  The order of the columns of
    the frame is that of the finite set of keys; [construir_df_escenarios]
    reindexes the frame at once, so this order is never observed. *)
Definition DataFrame_de_dicts (rows : list (gmap string valor)) : DataFrame valor :=
  mkDF (elements (⋃ (dom <$> rows) : gset string)) rows.

(** [df[cols]]: every requested column has to exist. *)
Definition indexar (cols : list string) (df : DataFrame valor) : resultado (DataFrame valor) :=
  match faltan_en cols df with
  | [] => Ok (seleccionar cols df)
  | _ :: _ => Err (KeyError "not in index")
  end.

(** The dict comprehension [{p: valores.get(p, np.nan) for p in predictors}]. *)
Definition fila_escenario (predictors : list string) (valores : gmap string valor)
  : gmap string valor :=
  foldl (λ fila p, <[p := default VNaN (valores !! p)]> fila) ∅ predictors.

Definition construir_df_escenarios (predictors : list string)
    (escenarios_dict : list (string * gmap string valor)) : resultado (DataFrame valor) :=
  let rows := map (λ '(nombre_esc, valores),
                     let fila := fila_escenario predictors valores in
                     <["escenario" := VStr nombre_esc]> fila) escenarios_dict in
  let df_esc := DataFrame_de_dicts rows in
  let cols := "escenario" :: predictors in
  indexar cols df_esc.

(** ** Scoring *)

(** A cell of the predictions table: a data cell or a probability. *)
Inductive salida : Type :=
  | SVal (v : valor)
  | SProb (q : Q).

(** [df.copy()], seen as a predictions table. *)
Definition copiar (df : DataFrame valor) : DataFrame salida :=
  mkDF (columns df) (map (fmap SVal) (filas df)).

(** [df[c] = vals]: an existing column is replaced in place, a new one is
    appended; the values have to be as many as the rows. *)
Definition asignar (c : string) (vals : list salida) (df : DataFrame salida)
  : resultado (DataFrame salida) :=
  if decide (length vals = length (filas df)) then
    Ok (mkDF (if decide (c ∈ columns df) then columns df else columns df ++ [c])
             (zip_with (λ r v, <[c := v]> r) (filas df) vals))
  else Err (ValueError "Length of values does not match length of index").

(** [df.drop(columns=[c])] *)
Definition drop_columna (c : string) (df : DataFrame valor) : DataFrame valor :=
  mkDF (filter (λ c', c' ≠ c) (columns df)) (map (delete c) (filas df)).

(** [class_mapping.get(c, str(c))] *)
Definition etiqueta (class_mapping : list (Z * valor)) (c : Z) : valor :=
  default (VStr (pretty c)) (dict_get c class_mapping).

(** The loop [for idx, cat in class_mapping.items(): df_out[f"prob_{cat}"] = y_proba[:, idx]]. *)
Fixpoint agregar_probabilidades (items : list (Z * valor)) (y_proba : ndarray)
    (df_out : DataFrame salida) : resultado (DataFrame salida) :=
  match items with
  | [] => Ok df_out
  | (idx, cat) :: items' =>
      let col_name := "prob_" +:+ str_valor cat in
      sea col :=? columna_nd y_proba idx en
      sea df_out :=? asignar col_name (map SProb col) df_out en
      agregar_probabilidades items' y_proba df_out
  end.

(** Lines 346-359 of [predecir_escenarios], the binary case: a single
    probability per row, that of the positive class. *)
Definition prediccion_binaria (class_mapping : list (Z * valor)) (y_proba : ndarray)
    (df_esc : DataFrame valor) : resultado (DataFrame salida) :=
  sea col0 :=? columna_nd y_proba 0 en
  let y_pred_class := map (λ p, if Qle_bool (1 # 2) p then 1%Z else 0%Z) col0 in
  let y_pred_label := map (etiqueta class_mapping) y_pred_class in
  let df_out := copiar df_esc in
  sea df_out :=? asignar "clase_predicha_cod" (map (λ c, SVal (VNum c)) y_pred_class) df_out en
  sea df_out :=? asignar "clase_predicha" (map SVal y_pred_label) df_out en
  asignar "prob_clase_positiva" (map SProb col0) df_out.

(** Lines 361-372 of [predecir_escenarios], the multi-class case. *)
Definition prediccion_multiclase (class_mapping : list (Z * valor)) (y_proba : ndarray)
    (df_esc : DataFrame valor) : resultado (DataFrame salida) :=
  sea y_pred_class :=? argmax_filas y_proba en
  let y_pred_label := map (etiqueta class_mapping) y_pred_class in
  let df_out := copiar df_esc in
  sea df_out :=? asignar "clase_predicha_cod" (map (λ c, SVal (VNum c)) y_pred_class) df_out en
  sea df_out :=? asignar "clase_predicha" (map SVal y_pred_label) df_out en
  agregar_probabilidades class_mapping y_proba df_out.

(** Lines 345-372 of [predecir_escenarios]: from the classifier's output to
    the predictions table, by the width of the output. *)
Definition tabla_predicciones (class_mapping : list (Z * valor)) (y_proba : ndarray)
    (df_esc : DataFrame valor) : resultado (DataFrame salida) :=
  if decide (shape1 y_proba = 1)
  then prediccion_binaria class_mapping y_proba df_esc
  else prediccion_multiclase class_mapping y_proba df_esc.

(** ** Effects: the trace of a run *)

Inductive contenido : Type :=
  | Figura (titulo : string)
  | ModeloKeras (m : Sequential)
  | Tabla (df : DataFrame salida).

(** What a run does to the outside, in order: the calls to the external
    collaborators and the files written. *)
Inductive evento : Type :=
  | Llamada (funcion : string)
  | Escritura (ruta : string) (c : contenido).

Record History : Type := mkHistory {
  h_accuracy : list Q;
  h_val_accuracy : list Q;
  h_loss : list Q;
  h_val_loss : list Q;
}.

(** The collaborators the script does not define: the seeded shuffle of
    [train_test_split], the fitting and evaluation of the network, and the
    file system (whether a write to a path succeeds). *)
Record Entorno : Type := mkEntorno {
  barajar : list Z → list nat * list nat;
  keras_fit : Sequential → matriz → list Z → resultado (History * (matriz → list (list Q)));
  keras_evaluate : ModeloEntrenado → matriz → list Z → resultado (Q * Q);
  disco : string → bool;
}.

Definition M (A : Type) : Type := list evento → resultado A * list evento.

Definition mret {A} (a : A) : M A := λ t, (Ok a, t).

Definition mbind {A B} (m : M A) (f : A → M B) : M B :=
  λ t, match m t with
       | (Ok a, t') => f a t'
       | (Err e, t') => (Err e, t')
       end.

Definition raise {A} (e : error) : M A := λ t, (Err e, t).

Definition lift {A} (r : resultado A) : M A := λ t, (r, t).

Definition llamar (f : string) : M unit := λ t, (Ok tt, t ++ [Llamada f]).

Definition escribir (env : Entorno) (ruta : string) (c : contenido) : M unit :=
  λ t, if disco env ruta then (Ok tt, t ++ [Escritura ruta c])
       else (Err (OSError ruta), t).

Notation "'hacer' x ← m ;; k" := (mbind m (fun x => k))
  (at level 10, x pattern, m at level 99, k at level 200).
Notation "'ejecutar' m ;; k" := (mbind m (fun _ => k))
  (at level 10, m at level 99, k at level 200).

(** The files a trace has written, in order. *)
Definition escritos (t : list evento) : list string :=
  omap (λ e, match e with Escritura ruta _ => Some ruta | Llamada _ => None end) t.

(** ** Paths *)

Definition DIR_REPORTS : string := "reports/redes_neuronales".

(** [dir / nombre] *)
Definition ruta (dir nombre : string) : string := dir +:+ "/" +:+ nombre.

(** ** The stratified split (scikit-learn) *)

(** [", ".join(l)] *)
Fixpoint join (sep : string) (l : list string) : string :=
  match l with
  | [] => ""
  | [x] => x
  | x :: l' => x +:+ sep +:+ join sep l'
  end.

Definition contar (c : Z) (y : list Z) : nat := length (filter (λ c', c' = c) y).

(** The rows of [l] at the positions [idx]. *)
Definition tomar {A} (idx : list nat) (l : list A) : list A :=
  omap (λ i, l !! i) idx.

(** [train_test_split(X, y, test_size=0.3, random_state=1234, stratify=y)]:
    the sizes and the checks of the stratified shuffle, in scikit-learn's
    order and with its class of error (its messages are shortened), then
    the environment's seeded permutation. *)
Definition train_test_split (env : Entorno) (X : DataFrame valor) (y : list Z)
  : resultado (DataFrame valor * DataFrame valor * list Z * list Z) :=
  let n_samples := length y in
  let n_test := (3 * n_samples + 9) / 10 in
  let n_train := n_samples - n_test in
  if decide (n_train = 0) then
    Err (ValueError "the resulting train set will be empty")
  else
    let classes := remove_dups y in
    if existsb (λ c, contar c y <? 2) classes then
      Err (ValueError "The least populated class in y has only 1 member, which is too few.")
    else if decide (n_train < length classes) then
      Err (ValueError "The train_size should be greater or equal to the number of classes")
    else if decide (n_test < length classes) then
      Err (ValueError "The test_size should be greater or equal to the number of classes")
    else
      let '(i_train, i_test) := barajar env y in
      Ok (mkDF (columns X) (tomar i_train (filas X)),
          mkDF (columns X) (tomar i_test (filas X)),
          tomar i_train y, tomar i_test y).

(** ** Training *)

Record InfoModelo : Type := mkInfo {
  model : ModeloEntrenado;
  preprocessor : ColumnTransformerAj;
  X_train : DataFrame valor;
  X_test : DataFrame valor;
  y_train : list Z;
  y_test : list Z;
  class_mapping : list (Z * valor);
  test_accuracy : Q;
}.

Definition entrenar_modelo_nn (env : Entorno) (df : DataFrame valor) (target_col : string)
    (predictors numeric_features categorical_features : list string)
    (model_id dir_reports : string) : M InfoModelo :=
  (* Verificar columnas disponibles *)
  let cols_necesarias := target_col :: predictors in
  let faltantes := filter (λ c, c ∉ columns df) cols_necesarias in
  match faltantes with
  | _ :: _ =>
      raise (ValueError ("Las siguientes columnas requeridas no existen en el dataset: "
                         +:+ join ", " faltantes))
  | [] =>
      (* Subconjunto *)
      let data_sub := seleccionar cols_necesarias df in
      (* Eliminar filas con NA en target o predictores *)
      ejecutar llamar "dropna" ;;
      let data_sub := dropna cols_necesarias data_sub in
      let '(class_mapping, y) := codificar_target data_sub target_col in
      let X := seleccionar predictors data_sub in
      (* Train/test split *)
      ejecutar llamar "train_test_split" ;;
      hacer (X_train, X_test, y_train, y_test) ← lift (train_test_split env X y) ;;
      (* Preprocesador *)
      let preprocessor := construir_preprocesador numeric_features categorical_features in
      ejecutar llamar "fit_transform" ;;
      hacer (preprocessor, X_train_proc) ← lift (fit_transform preprocessor X_train) ;;
      ejecutar llamar "transform" ;;
      hacer X_test_proc ← lift (transform preprocessor X_test) ;;
      let input_dim := ancho preprocessor in
      let n_classes := length (remove_dups y_train) in
      (* Construcción del modelo *)
      let model := construir_modelo_clasificacion input_dim n_classes model_id in
      (* Entrenamiento *)
      ejecutar llamar "model.fit" ;;
      hacer (history, pesos) ← lift (keras_fit env model X_train_proc y_train) ;;
      let model := mkModelo model pesos in
      (* Evaluación en test *)
      ejecutar llamar "model.evaluate" ;;
      hacer (test_loss, test_acc) ← lift (keras_evaluate env model X_test_proc y_test) ;;
      (* Gráficas de entrenamiento vs validación *)
      let ruta_acc := ruta DIR_REPORTS (model_id +:+ "_accuracy.png") in
      ejecutar escribir env ruta_acc (Figura ("Accuracy entrenamiento/validación - " +:+ model_id)) ;;
      let ruta_loss := ruta DIR_REPORTS (model_id +:+ "_loss.png") in
      ejecutar escribir env ruta_loss (Figura ("Loss entrenamiento/validación - " +:+ model_id)) ;;
      (* Guardar modelo *)
      let ruta_model := ruta DIR_REPORTS (model_id +:+ "_model.keras") in
      ejecutar escribir env ruta_model (ModeloKeras (red model)) ;;
      mret (mkInfo model preprocessor X_train X_test y_train y_test class_mapping test_acc)
  end.

Definition predecir_escenarios (env : Entorno) (info_modelo : InfoModelo)
    (predictors : list string) (escenarios_dict : list (string * gmap string valor))
    (model_id dir_reports : string) : M unit :=
  hacer df_esc ← lift (construir_df_escenarios predictors escenarios_dict) ;;
  (* Separar columna escenario *)
  let X_esc := drop_columna "escenario" df_esc in
  (* Transformar con el preprocesador ajustado *)
  ejecutar llamar "transform" ;;
  hacer X_esc_proc ← lift (transform (preprocessor info_modelo) X_esc) ;;
  (* Predicciones *)
  ejecutar llamar "model.predict" ;;
  let y_proba := predict (model info_modelo) X_esc_proc in
  hacer df_out ← lift (tabla_predicciones (class_mapping info_modelo) y_proba df_esc) ;;
  let ruta_csv := ruta dir_reports (model_id +:+ "_predicciones_escenarios.csv") in
  escribir env ruta_csv (Tabla df_out).

(** One model of the driver: training, then scenario scoring with the
    trained model (sections 3, 4 and 5 of the script). *)
Definition pipeline_modelo (env : Entorno) (df : DataFrame valor) (target_col : string)
    (predictors numeric_features categorical_features : list string)
    (escenarios_dict : list (string * gmap string valor))
    (model_id : string) : M unit :=
  hacer info ← entrenar_modelo_nn env df target_col predictors numeric_features
           categorical_features model_id DIR_REPORTS ;;
  predecir_escenarios env info predictors escenarios_dict model_id DIR_REPORTS.
(** ** Auxiliary definitions used in the statements *)

(** The probability columns the loop over the label mapping adds to a row. *)
Definition con_probabilidades (items : list (Z * valor)) (probs : list Q)
    (r : gmap string salida) : gmap string salida :=
  foldl (λ r '(idx, cat),
           <["prob_" +:+ str_valor cat := SProb (nth (Z.to_nat idx) probs 0%Q)]> r)
        r items.

(** The one-hot block of a value over the fitted categories, and the scaled
    entry of a numeric cell. *)
Definition bloque_onehot (cats : list valor) (v : valor) : list entrada :=
  map (λ cat, Ind (bool_decide (cat = v))) cats.

Definition escalada (muestra : list Z) (v : valor) : entrada :=
  match v with
  | VNum x => Estandar x muestra
  | _ => EntNaN
  end.

(** A row of the transformed matrix: the scaled numeric cells in the order
    of the numeric columns, then one one-hot block per categorical column,
    in the order of the categorical columns, each block laid out along the
    sorted distinct values of the column in the fitting rows. *)
Definition fila_transformada (X : DataFrame valor) (nums cats : list string)
    (muestras : list (list Z)) (r : gmap string valor) : list entrada :=
  zip_with (λ c zs, escalada zs (celda r c)) nums muestras ++
  concat (map (λ c, bloque_onehot (unicos_ordenados (columna X c)) (celda r c)) cats).

(** The spec's words for the layout of a one-hot block: the categories in
    the order in which the fitting rows first show them. *)
Fixpoint primeras_vistas_desde (vistas vs : list valor) : list valor :=
  match vs with
  | [] => []
  | v :: vs' =>
      if decide (v ∈ vistas) then primeras_vistas_desde vistas vs'
      else v :: primeras_vistas_desde (v :: vistas) vs'
  end.

Definition primeras_vistas (vs : list valor) : list valor :=
  primeras_vistas_desde [] vs.

(** The scenario's values restricted to the predictors: the keys that are
    not predictors removed. *)
Definition solo_predictores (predictors : list string) (valores : gmap string valor)
  : gmap string valor :=
  filter (λ kv, kv.1 ∈ predictors) valores.

(** The row dict of one scenario. *)
Definition fila_de (predictors : list string) (e : string * gmap string valor)
  : gmap string valor :=
  <["escenario" := VStr e.1]> (fila_escenario predictors e.2).

(** An environment for the examples: the split takes the last rows for
    training, the network gives every class the same probability, writes to
    disk succeed. *)
Definition entorno_ejemplo : Entorno :=
  mkEntorno
    (λ y, let n_test := (3 * length y + 9) / 10 in
          (seq n_test (length y - n_test), seq 0 n_test))
    (λ m X y, Ok (mkHistory [] [] [] [],
                  λ X', map (λ _, replicate (unidades_salida m) (1 # 2)%Q) X'))
    (λ m X y, Ok (0%Q, 1%Q))
    (λ _, true).

(** The files of one model, in the order the pipeline writes them. *)
Definition artefactos (model_id : string) : list string :=
  [ruta DIR_REPORTS (model_id +:+ "_accuracy.png");
   ruta DIR_REPORTS (model_id +:+ "_loss.png");
   ruta DIR_REPORTS (model_id +:+ "_model.keras");
   ruta DIR_REPORTS (model_id +:+ "_predicciones_escenarios.csv")].

(** [escribe_prefijo m arts]: whatever the starting trace, the files the
    computation [m] writes are the first [n] of [arts], in order, and all of
    them when [m] returns normally. *)
Definition escribe_prefijo {A} (m : M A) (arts : list string) : Prop :=
  ∀ t r t', m t = (r, t') →
    ∃ n, n ≤ length arts ∧
         escritos t' = escritos t ++ take n arts ∧
         (∀ a, r = Ok a → n = length arts).

(** A small dataset for the examples: two classes of two households each. *)
Definition df_ejemplo : DataFrame valor :=
  mkDF ["nivel"; "n_personas"; "AREA"]
    [{["nivel" := VStr "alto"; "n_personas" := VNum 3; "AREA" := VStr "urbano"]};
     {["nivel" := VStr "bajo"; "n_personas" := VNum 8; "AREA" := VStr "rural"]};
     {["nivel" := VStr "alto"; "n_personas" := VNum 4; "AREA" := VStr "urbano"]};
     {["nivel" := VStr "bajo"; "n_personas" := VNum 6; "AREA" := VStr "rural"]}].

Definition corrida_ejemplo (escenarios_dict : list (string * gmap string valor))
  : resultado unit * list evento :=
  pipeline_modelo entorno_ejemplo df_ejemplo "nivel" ["n_personas"; "AREA"]
    ["n_personas"] ["AREA"] escenarios_dict "nn1" [].

(** [cols] after the assignment [df[c] = ...]. *)
Definition con_columna (cols : list string) (c : string) : list string :=
  if decide (c ∈ cols) then cols else cols ++ [c].

(** The columns scoring assigns, in order: one probability column in the
    binary case, one per entry of the label mapping otherwise. *)
Definition columnas_prediccion (class_mapping : list (Z * valor)) (y_proba : ndarray)
  : list string :=
  if decide (shape1 y_proba = 1)
  then ["clase_predicha_cod"; "clase_predicha"; "prob_clase_positiva"]
  else ["clase_predicha_cod"; "clase_predicha"] ++
       map (λ it, "prob_" +:+ str_valor it.2) class_mapping.

(** The training run of the examples. *)
Definition entrenamiento_ejemplo : resultado InfoModelo * list evento :=
  entrenar_modelo_nn entorno_ejemplo df_ejemplo "nivel" ["n_personas"; "AREA"]
    ["n_personas"] ["AREA"] "nn1" DIR_REPORTS [].

(** A trained model for the examples: the preprocessor fitted on two rows,
    a binary network that gives every row the probability 0.5. *)
Definition info_ejemplo : InfoModelo :=
  mkInfo
    (mkModelo (construir_modelo_clasificacion 3 2 "nn1")
              (λ X', map (λ _, [(1 # 2)%Q]) X'))
    (mkCTAj [("num", [("n_personas", ScalerAj [3; 5]%Z)]);
             ("cat", [("AREA", OneHotAj HU_ignore [VStr "rural"; VStr "urbano"])])])
    (mkDF ["n_personas"; "AREA"]
       [{["n_personas" := VNum 3; "AREA" := VStr "urbano"]};
        {["n_personas" := VNum 5; "AREA" := VStr "rural"]}])
    (mkDF ["n_personas"; "AREA"] [])
    [0%Z; 1%Z] []
    (enumerate [VStr "alto"; VStr "bajo"])
    1%Q.

(** ** The driver: the first model and its scenarios (section 3 of the script) *)

Definition target_nn1 : string := "indice_calidad_vivienda_cat".

Definition predictors_nn1 : list string :=
  ["PCV2"; "PCV3"; "PCV5";
   "agua_mejorada"; "saneamiento_mejorado"; "electricidad";
   "AREA"; "cluster_k4"].

Definition numeric_nn1 : list string :=
  ["agua_mejorada"; "saneamiento_mejorado"; "electricidad"].

Definition categorical_nn1 : list string :=
  ["PCV2"; "PCV3"; "PCV5"; "AREA"; "cluster_k4"].

(** [l[i]] for a Python sequence: a negative index counts from the end, an
    index out of range raises. *)
Definition indice {A} (l : list A) (i : Z) : resultado A :=
  let j := if decide (i < 0)%Z then (i + Z.of_nat (length l))%Z else i in
  if decide (0 ≤ j)%Z then
    match l !! Z.to_nat j with
    | Some x => Ok x
    | None => Err (IndexError "index out of bounds")
    end
  else Err (IndexError "index out of bounds").

(** [df[c].dropna().astype("category").cat.categories] *)
Definition categorias_de (df : DataFrame valor) (c : string) : resultado (list valor) :=
  if decide (c ∈ columns df) then Ok (categorias (columna df c)) else Err (KeyError c).

(** [df[c].dropna().astype("category").cat.categories[i]] *)
Definition categoria_en (df : DataFrame valor) (c : string) (i : Z) : resultado valor :=
  sea cats :=? categorias_de df c en indice cats i.

(** [categories[min(1, len(categories) - 1)]] for the categories of [df[c]]. *)
Definition categoria_segunda (df : DataFrame valor) (c : string) : resultado valor :=
  sea cats :=? categorias_de df c en
  indice cats (Z.min 1 (Z.of_nat (length cats) - 1)).

(** The dict literal [escenarios_nn1], its values evaluated in the order of
    the source. *)
Definition escenarios_nn1 (df : DataFrame valor)
  : resultado (list (string * gmap string valor)) :=
  sea a2 :=? categoria_en df "PCV2" 0 en
  sea a3 :=? categoria_en df "PCV3" 0 en
  sea a5 :=? categoria_en df "PCV5" 0 en
  sea aa :=? categoria_en df "AREA" 0 en
  sea b2 :=? categoria_segunda df "PCV2" en
  sea b3 :=? categoria_segunda df "PCV3" en
  sea b5 :=? categoria_segunda df "PCV5" en
  sea ba :=? categoria_en df "AREA" 0 en
  sea c2 :=? categoria_en df "PCV2" (-1) en
  sea c3 :=? categoria_en df "PCV3" (-1) en
  sea c5 :=? categoria_en df "PCV5" (-1) en
  sea ca :=? categoria_en df "AREA" (-1) en
  Ok [("esc_1_materiales_muy_precarios_sin_servicios",
       list_to_map [("PCV2", a2); ("PCV3", a3); ("PCV5", a5);
                    ("agua_mejorada", VNum 0); ("saneamiento_mejorado", VNum 0);
                    ("electricidad", VNum 0); ("AREA", aa); ("cluster_k4", VNum 1)]);
      ("esc_2_materiales_intermedios_con_algunos_servicios",
       list_to_map [("PCV2", b2); ("PCV3", b3); ("PCV5", b5);
                    ("agua_mejorada", VNum 1); ("saneamiento_mejorado", VNum 0);
                    ("electricidad", VNum 1); ("AREA", ba); ("cluster_k4", VNum 2)]);
      ("esc_3_materiales_buenos_con_todos_los_servicios",
       list_to_map [("PCV2", c2); ("PCV3", c3); ("PCV5", c5);
                    ("agua_mejorada", VNum 1); ("saneamiento_mejorado", VNum 1);
                    ("electricidad", VNum 1); ("AREA", ca); ("cluster_k4", VNum 3)])].

(** Section 3 of the script: the first model is trained, its scenarios are
    built from the dataset, and scored. *)
Definition modelo_nn1 (env : Entorno) (df : DataFrame valor) : M unit :=
  hacer info_nn1 ← entrenar_modelo_nn env df target_nn1 predictors_nn1 numeric_nn1
                     categorical_nn1 "nn1_indice_calidad_vivienda_cat" DIR_REPORTS ;;
  hacer escenarios ← lift (escenarios_nn1 df) ;;
  predecir_escenarios env info_nn1 predictors_nn1 escenarios
    "nn1_indice_calidad_vivienda_cat" DIR_REPORTS.

(** A dataset for the first model: two quality classes of two dwellings. *)
Definition df_nn1_ejemplo : DataFrame valor :=
  let fila (q p2 p3 p5 : string) (agua san ele : Z) (area : string) (k : Z)
      : gmap string valor :=
    list_to_map
      [("indice_calidad_vivienda_cat", VStr q); ("PCV2", VStr p2); ("PCV3", VStr p3);
       ("PCV5", VStr p5); ("agua_mejorada", VNum agua);
       ("saneamiento_mejorado", VNum san); ("electricidad", VNum ele);
       ("AREA", VStr area); ("cluster_k4", VNum k)] in
  mkDF ["indice_calidad_vivienda_cat"; "PCV2"; "PCV3"; "PCV5"; "agua_mejorada";
        "saneamiento_mejorado"; "electricidad"; "AREA"; "cluster_k4"]
    [fila "alta" "block" "lamina" "ceramico" 1%Z 1%Z 1%Z "urbano" 3%Z;
     fila "baja" "adobe" "paja" "tierra" 0%Z 0%Z 0%Z "rural" 1%Z;
     fila "alta" "block" "concreto" "ceramico" 1%Z 1%Z 1%Z "urbano" 3%Z;
     fila "baja" "madera" "lamina" "tierra" 0%Z 0%Z 1%Z "rural" 2%Z].

(** ** The driver: the third model and its scenarios (section 5 of the script) *)

Definition target_nn3 : string := "agua_mejorada".

Definition predictors_nn3 : list string :=
  ["PCV2"; "PCV3"; "PCV5"; "DEPARTAMENTO"; "AREA"; "cluster_k4"; "n_personas";
   "indice_calidad_vivienda"].

Definition numeric_nn3 : list string := ["n_personas"; "indice_calidad_vivienda"].

Definition categorical_nn3 : list string :=
  ["PCV2"; "PCV3"; "PCV5"; "DEPARTAMENTO"; "AREA"; "cluster_k4"].

(** What the three statistics of [df["indice_calidad_vivienda"]] the
    scenarios read evaluate to: [.min()], [.quantile(0.75)], [.median()]. *)
Record Estadisticas : Type := mkEstadisticas {
  e_min : resultado valor;
  e_cuartil3 : resultado valor;
  e_mediana : resultado valor;
}.

(** The dict literal [escenarios_nn3], its values evaluated in the order of
    the source. *)
Definition escenarios_nn3 (df : DataFrame valor) (est : Estadisticas)
  : resultado (list (string * gmap string valor)) :=
  sea a2 :=? categoria_en df "PCV2" 0 en
  sea a3 :=? categoria_en df "PCV3" 0 en
  sea a5 :=? categoria_en df "PCV5" 0 en
  sea ad :=? categoria_en df "DEPARTAMENTO" 0 en
  sea aa :=? categoria_en df "AREA" 0 en
  sea ai :=? e_min est en
  sea b2 :=? categoria_en df "PCV2" (-1) en
  sea b3 :=? categoria_en df "PCV3" (-1) en
  sea b5 :=? categoria_en df "PCV5" (-1) en
  sea bd :=? categoria_en df "DEPARTAMENTO" (-1) en
  sea ba :=? categoria_en df "AREA" (-1) en
  sea bi :=? e_cuartil3 est en
  sea c2 :=? categoria_en df "PCV2" 1 en
  sea c3 :=? categoria_en df "PCV3" 1 en
  sea c5 :=? categoria_en df "PCV5" 1 en
  sea cd :=? categoria_en df "DEPARTAMENTO" 5 en
  sea ca :=? categoria_en df "AREA" 0 en
  sea ci :=? e_mediana est en
  Ok [("esc_1_vivienda_rural_precaria",
       list_to_map [("PCV2", a2); ("PCV3", a3); ("PCV5", a5); ("DEPARTAMENTO", ad);
                    ("AREA", aa); ("cluster_k4", VNum 1); ("n_personas", VNum 7);
                    ("indice_calidad_vivienda", ai)]);
      ("esc_2_vivienda_urbana_mejor_calidad",
       list_to_map [("PCV2", b2); ("PCV3", b3); ("PCV5", b5); ("DEPARTAMENTO", bd);
                    ("AREA", ba); ("cluster_k4", VNum 3); ("n_personas", VNum 4);
                    ("indice_calidad_vivienda", bi)]);
      ("esc_3_vivienda_intermedia",
       list_to_map [("PCV2", c2); ("PCV3", c3); ("PCV5", c5); ("DEPARTAMENTO", cd);
                    ("AREA", ca); ("cluster_k4", VNum 2); ("n_personas", VNum 5);
                    ("indice_calidad_vivienda", ci)])].

(** Section 5 of the script: the third model is trained, its scenarios are
    built from the dataset, and scored. *)
Definition modelo_nn3 (env : Entorno) (df : DataFrame valor) (est : Estadisticas) : M unit :=
  hacer info_nn3 ← entrenar_modelo_nn env df target_nn3 predictors_nn3 numeric_nn3
                     categorical_nn3 "nn3_agua_mejorada" DIR_REPORTS ;;
  hacer escenarios ← lift (escenarios_nn3 df est) ;;
  predecir_escenarios env info_nn3 predictors_nn3 escenarios
    "nn3_agua_mejorada" DIR_REPORTS.

(** A dataset for the third model: two classes of two dwellings, in two
    departments. *)
Definition df_nn3_ejemplo : DataFrame valor :=
  let fila (agua : Z) (p2 p3 p5 dep area : string) (k n q : Z) : gmap string valor :=
    list_to_map
      [("agua_mejorada", VNum agua); ("PCV2", VStr p2); ("PCV3", VStr p3);
       ("PCV5", VStr p5); ("DEPARTAMENTO", VStr dep); ("AREA", VStr area);
       ("cluster_k4", VNum k); ("n_personas", VNum n);
       ("indice_calidad_vivienda", VNum q)] in
  mkDF ["agua_mejorada"; "PCV2"; "PCV3"; "PCV5"; "DEPARTAMENTO"; "AREA";
        "cluster_k4"; "n_personas"; "indice_calidad_vivienda"]
    [fila 1%Z "block" "lamina" "ceramico" "Guatemala" "urbano" 3%Z 4%Z 9%Z;
     fila 0%Z "adobe" "paja" "tierra" "Peten" "rural" 1%Z 7%Z 2%Z;
     fila 1%Z "block" "concreto" "ceramico" "Guatemala" "urbano" 3%Z 5%Z 8%Z;
     fila 0%Z "madera" "lamina" "tierra" "Peten" "rural" 2%Z 6%Z 3%Z].

Definition estadisticas_ejemplo : Estadisticas :=
  mkEstadisticas (Ok (VNum 2)) (Ok (VNum 8)) (Ok (VNum 5)).

(** * Properties *)

(** ** Sorted distinct values *)

Lemma unicos_ordenados_elem (vs : list valor) (v : valor) :
  v ∈ unicos_ordenados vs ↔ v ∈ vs.
Proof.
  unfold unicos_ordenados.
  rewrite merge_sort_Permutation. apply elem_of_remove_dups.
Qed.

Lemma unicos_ordenados_NoDup (vs : list valor) : NoDup (unicos_ordenados vs).
Proof.
  unfold unicos_ordenados.
  rewrite merge_sort_Permutation. apply NoDup_remove_dups.
Qed.

Lemma unicos_ordenados_Sorted (vs : list valor) : Sorted valor_le (unicos_ordenados vs).
Proof. apply (Sorted_merge_sort valor_le). Qed.

Lemma unicos_ordenados_length (vs : list valor) :
  length (unicos_ordenados vs) = length (remove_dups vs).
Proof. unfold unicos_ordenados. by rewrite merge_sort_Permutation. Qed.

(** The sorted distinct values are determined by the set of values. *)
Lemma unicos_ordenados_unico (vs l : list valor) :
  Sorted valor_le l → NoDup l → (∀ v, v ∈ vs ↔ v ∈ l) →
  unicos_ordenados vs = l.
Proof.
  intros Hs Hn Hel.
  apply (Sorted_unique valor_le); [apply unicos_ordenados_Sorted | done |].
  apply NoDup_Permutation; [apply unicos_ordenados_NoDup | done |].
  intros v. rewrite unicos_ordenados_elem. apply Hel.
Qed.

Lemma categorias_elem (vs : list valor) (v : valor) :
  v ∈ categorias vs ↔ v ∈ vs ∧ v ≠ VNaN.
Proof.
  unfold categorias. rewrite unicos_ordenados_elem, list_elem_of_filter. tauto.
Qed.

Lemma categorias_unicas (vs l : list valor) :
  Sorted valor_le l → NoDup l → (∀ v, v ∈ vs ∧ v ≠ VNaN ↔ v ∈ l) →
  categorias vs = l.
Proof.
  intros Hs Hn Hel. apply unicos_ordenados_unico; [done..|].
  intros v. rewrite list_elem_of_filter, <- Hel. tauto.
Qed.

(** ** Positions and codes *)

Lemma posicion_lookup (v : valor) (cats : list valor) (i : nat) :
  posicion v cats = Some i → cats !! i = Some v.
Proof.
  revert i. induction cats as [|c cats IH]; intros i; simpl; [done|].
  case_decide as Hv.
  - intros [= <-]. by subst.
  - destruct (posicion v cats) as [j|]; simpl; [|done].
    intros [= <-]. by apply IH.
Qed.

Lemma posicion_elem (v : valor) (cats : list valor) :
  v ∈ cats → is_Some (posicion v cats).
Proof.
  induction 1 as [c cats|c d cats _ IH]; simpl.
  - rewrite decide_True by done. eauto.
  - case_decide; [eauto|]. destruct IH as [j ->]. eauto.
Qed.

Lemma posicion_NoDup (cats : list valor) (i : nat) (v : valor) :
  NoDup cats → cats !! i = Some v → posicion v cats = Some i.
Proof.
  intros Hn. revert i. induction Hn as [|c cats Hc Hn IH]; intros i; [done|].
  destruct i as [|i]; simpl.
  - intros [= ->]. by rewrite decide_True.
  - intros Hi. rewrite decide_False.
    + by rewrite (IH i Hi).
    + intros ->. apply Hc. by eapply list_elem_of_lookup_2.
Qed.

Lemma dict_get_enumerate_desde {V} (l : list V) (n : Z) (i : nat) :
  dict_get (n + Z.of_nat i)%Z (enumerate_desde n l) = l !! i.
Proof.
  revert n i. induction l as [|x l IH]; intros n i; simpl; [done|].
  destruct i as [|i].
  - rewrite decide_True by lia. done.
  - rewrite decide_False by lia.
    replace (n + Z.of_nat (S i))%Z with ((n + 1) + Z.of_nat i)%Z by lia.
    apply IH.
Qed.

Lemma dict_get_enumerate {V} (l : list V) (i : nat) :
  dict_get (Z.of_nat i) (enumerate l) = l !! i.
Proof. apply (dict_get_enumerate_desde l 0 i). Qed.

Lemma enumerate_desde_claves {V} (l : list V) (n : Z) :
  map fst (enumerate_desde n l) = map (λ i, (n + Z.of_nat i)%Z) (seq 0 (length l)).
Proof.
  revert n. induction l as [|x l IH]; intros n; simpl; [done|].
  f_equal; [lia|].
  rewrite IH, <- seq_shift, map_map. apply map_ext. intros; lia.
Qed.

Lemma enumerate_claves {V} (l : list V) :
  map fst (enumerate l) = map Z.of_nat (seq 0 (length l)).
Proof. apply (enumerate_desde_claves l 0). Qed.

(** ** Label mapping *)

Lemma dropna_sin_nan (cols : list string) (df : DataFrame valor) (c : string) :
  c ∈ cols → VNaN ∉ columna (dropna cols df) c.
Proof.
  intros Hc Hin. unfold columna, dropna in Hin; simpl in Hin.
  apply list_elem_of_fmap in Hin as (r & Hr & Hel).
  apply list_elem_of_filter in Hel as [Hall _].
  rewrite forallb_forall in Hall.
  specialize (Hall c). rewrite <- list_elem_of_In in Hall.
  specialize (Hall Hc). rewrite <- Hr in Hall. done.
Qed.

Lemma filter_no_nan (vs : list valor) :
  VNaN ∉ vs → filter (λ v, v ≠ VNaN) vs = vs.
Proof.
  induction vs as [|v vs IH]; intros Hn; [done|].
  rewrite filter_cons_True.
  - f_equal. apply IH. intros ?. apply Hn. by right.
  - intros ->. apply Hn. by left.
Qed.

Lemma codigo_decodifica (cats : list valor) (v : valor) :
  v ∈ cats → dict_get (codigo cats v) (enumerate cats) = Some v.
Proof.
  intros Hv. unfold codigo.
  destruct (posicion_elem v cats Hv) as [i Hi]. rewrite Hi.
  rewrite dict_get_enumerate. by apply posicion_lookup.
Qed.

Lemma codigos_rango (cats vs : list valor) (c : Z) :
  NoDup cats → (∀ v, v ∈ vs ↔ v ∈ cats) →
  c ∈ map (codigo cats) vs ↔ (0 ≤ c < Z.of_nat (length cats))%Z.
Proof.
  intros Hn Hel. split.
  - intros Hc. apply list_elem_of_fmap in Hc as (v & -> & Hv).
    apply Hel in Hv. unfold codigo.
    destruct (posicion_elem v cats Hv) as [i Hi]. rewrite Hi.
    apply posicion_lookup, lookup_lt_Some in Hi. lia.
  - intros Hc.
    destruct (lookup_lt_is_Some_2 cats (Z.to_nat c)) as [v Hv]; [lia|].
    apply list_elem_of_fmap. exists v. split.
    + unfold codigo. rewrite (posicion_NoDup cats _ v Hn Hv). lia.
    + apply Hel. by eapply list_elem_of_lookup_2.
Qed.

(** C3. Label round trip: on the filtered data, decoding the code of every
    observed target value gives the value back, and the codes assigned are
    exactly 0, ..., K-1 for K the number of distinct observed values: these
    are the keys of the mapping, and the codes that occur in the encoded
    target. *)
Theorem label_round_trip (df : DataFrame valor) (target_col : string)
    (predictors : list string) :
  let cols_necesarias := target_col :: predictors in
  let data_sub := dropna cols_necesarias (seleccionar cols_necesarias df) in
  let observados := columna data_sub target_col in
  let K := length (remove_dups observados) in
  let '(class_mapping, y) := codificar_target data_sub target_col in
  (∀ i v, observados !! i = Some v →
     ∃ c, y !! i = Some c ∧ dict_get c class_mapping = Some v) ∧
  map fst class_mapping = map Z.of_nat (seq 0 K) ∧
  (∀ c, c ∈ y ↔ (0 ≤ c < Z.of_nat K)%Z).
Proof.
  intros cols data_sub observados K. unfold codificar_target.
  fold observados.
  assert (Hnan : VNaN ∉ observados).
  { apply dropna_sin_nan. by left. }
  assert (Hel : ∀ v, v ∈ observados ↔ v ∈ categorias observados).
  { intros v. rewrite categorias_elem. split; [|tauto].
    intros Hv. split; [done|]. by intros ->. }
  assert (HK : length (categorias observados) = K).
  { unfold categorias. by rewrite unicos_ordenados_length, filter_no_nan. }
  split; [|split].
  - intros i v Hi. exists (codigo (categorias observados) v). split.
    + by rewrite list_lookup_fmap, Hi.
    + apply codigo_decodifica, Hel. by eapply list_elem_of_lookup_2.
  - by rewrite enumerate_claves, HK.
  - intros c. rewrite <- HK. apply codigos_rango; [|done].
    apply unicos_ordenados_NoDup.
Qed.

(** ** The classifier's output head *)

Lemma unidades_salida_construir (input_dim n_classes : nat) (model_name : string) :
  unidades_salida (construir_modelo_clasificacion input_dim n_classes model_name) =
  if decide (n_classes = 2) then 1 else n_classes.
Proof. unfold construir_modelo_clasificacion. by case_decide. Qed.

(** ** Scoring *)

Lemma asignar_total (c : string) (vals : list salida) (df : DataFrame salida) :
  length vals = length (filas df) →
  ∃ df', asignar c vals df = Ok df' ∧
         length (filas df') = length (filas df) ∧
         ∀ i r v, filas df !! i = Some r → vals !! i = Some v →
                  filas df' !! i = Some (<[c := v]> r).
Proof.
  intros Hl. unfold asignar. rewrite decide_True by done.
  eexists. split; [done|]. simpl. split.
  - rewrite length_zip_with. lia.
  - intros i r v Hr Hv. by rewrite lookup_zip_with, Hr; simpl; rewrite Hv.
Qed.

Lemma columna_nd_total (a : ndarray) (j : nat) :
  j < shape1 a →
  columna_nd a (Z.of_nat j) = Ok (map (λ r, nth j r 0%Q) (datos a)).
Proof.
  intros Hj. unfold columna_nd.
  destruct (decide (Z.of_nat j < 0)%Z); [lia|].
  rewrite decide_True by lia.
  by rewrite Nat2Z.id.
Qed.

Lemma copiar_filas (df : DataFrame valor) (i : nat) (r : gmap string valor) :
  filas df !! i = Some r → filas (copiar df) !! i = Some (SVal <$> r).
Proof. intros Hr. unfold copiar; simpl. by rewrite list_lookup_fmap, Hr. Qed.

Lemma copiar_length (df : DataFrame valor) :
  length (filas (copiar df)) = length (filas df).
Proof. unfold copiar; simpl. by rewrite length_map. Qed.

(** Every category of the label mapping names a probability column. *)
Lemma prob_no_es_columna_de_clase (s : string) :
  "prob_" +:+ s ≠ "clase_predicha_cod" ∧ "prob_" +:+ s ≠ "clase_predicha".
Proof. split; discriminate. Qed.

(** The row the binary branch writes for scenario [i]. *)
Lemma prediccion_binaria_fila (class_mapping : list (Z * valor)) (y_proba : ndarray)
    (df_esc : DataFrame valor) (i : nat) (probs : list Q) (r0 : gmap string valor) :
  shape1 y_proba = 1 →
  length (datos y_proba) = length (filas df_esc) →
  datos y_proba !! i = Some probs →
  filas df_esc !! i = Some r0 →
  let p := nth 0 probs 0%Q in
  let c := if Qle_bool (1 # 2) p then 1%Z else 0%Z in
  ∃ df_out,
    prediccion_binaria class_mapping y_proba df_esc = Ok df_out ∧
    filas df_out !! i =
      Some (<["prob_clase_positiva" := SProb p]>
              (<["clase_predicha" := SVal (etiqueta class_mapping c)]>
                 (<["clase_predicha_cod" := SVal (VNum c)]> (SVal <$> r0)))).
Proof.
  intros Hs Hl Hi Hr p c. unfold prediccion_binaria.
  pose proof (columna_nd_total y_proba 0) as Hcol. change (Z.of_nat 0) with 0%Z in Hcol.
  rewrite Hcol by lia. clear Hcol. cbn [res_bind].
  set (col0 := map _ (datos y_proba)).
  assert (Hc0 : col0 !! i = Some p).
  { unfold col0. by rewrite list_lookup_fmap, Hi. }
  assert (Hlc : length col0 = length (filas (copiar df_esc))).
  { unfold col0. by rewrite length_map, copiar_length. }
  destruct (asignar_total "clase_predicha_cod"
              (map (λ c, SVal (VNum c))
                 (map (λ p, if Qle_bool (1 # 2) p then 1%Z else 0%Z) col0))
              (copiar df_esc)) as (d1 & -> & Hl1 & Hf1).
  { by rewrite !length_map. }
  cbn [res_bind].
  destruct (asignar_total "clase_predicha"
              (map SVal (map (etiqueta class_mapping)
                 (map (λ p, if Qle_bool (1 # 2) p then 1%Z else 0%Z) col0)))
              d1) as (d2 & -> & Hl2 & Hf2).
  { rewrite !length_map. lia. }
  cbn [res_bind].
  destruct (asignar_total "prob_clase_positiva" (map SProb col0) d2)
    as (d3 & -> & Hl3 & Hf3).
  { rewrite !length_map. lia. }
  exists d3. split; [done|].
  apply Hf3; [|by rewrite list_lookup_fmap, Hc0].
  apply Hf2; [|by rewrite !list_lookup_fmap, Hc0].
  apply Hf1; [|by rewrite !list_lookup_fmap, Hc0].
  by apply copiar_filas.
Qed.

Lemma agregar_probabilidades_fila (items : list (Z * valor)) (y_proba : ndarray)
    (df : DataFrame salida) :
  Forall (λ it, 0 ≤ it.1 < Z.of_nat (shape1 y_proba))%Z items →
  length (datos y_proba) = length (filas df) →
  ∃ df', agregar_probabilidades items y_proba df = Ok df' ∧
         ∀ i r probs, filas df !! i = Some r → datos y_proba !! i = Some probs →
                      filas df' !! i = Some (con_probabilidades items probs r).
Proof.
  intros Hit. revert df.
  induction Hit as [|[idx cat] items Hidx Hit IH]; intros df Hl; simpl.
  - exists df. split; [done|]. by intros i r probs ->.
  - simpl in Hidx.
    pose proof (columna_nd_total y_proba (Z.to_nat idx)) as Hcol.
    rewrite Z2Nat.id in Hcol by lia.
    rewrite Hcol by lia. clear Hcol. cbn [res_bind].
    destruct (asignar_total ("prob_" +:+ str_valor cat)
                (map SProb (map (λ r, nth (Z.to_nat idx) r 0%Q) (datos y_proba))) df)
      as (d1 & -> & Hl1 & Hf1).
    { by rewrite !length_map. }
    cbn [res_bind]. destruct (IH d1) as (df' & -> & Hf'); [lia|].
    exists df'. split; [done|].
    intros i r probs Hr Hp. apply Hf'; [|done].
    apply Hf1; [done|]. by rewrite !list_lookup_fmap, Hp.
Qed.

(** The row the multi-class branch writes for scenario [i]. *)
Lemma prediccion_multiclase_fila (class_mapping : list (Z * valor)) (y_proba : ndarray)
    (df_esc : DataFrame valor) (i : nat) (probs : list Q) (r0 : gmap string valor) :
  shape1 y_proba ≠ 0 →
  Forall (λ it, 0 ≤ it.1 < Z.of_nat (shape1 y_proba))%Z class_mapping →
  length (datos y_proba) = length (filas df_esc) →
  datos y_proba !! i = Some probs →
  filas df_esc !! i = Some r0 →
  let c := Z.of_nat (argmax_fila probs) in
  ∃ df_out,
    prediccion_multiclase class_mapping y_proba df_esc = Ok df_out ∧
    filas df_out !! i =
      Some (con_probabilidades class_mapping probs
              (<["clase_predicha" := SVal (etiqueta class_mapping c)]>
                 (<["clase_predicha_cod" := SVal (VNum c)]> (SVal <$> r0)))).
Proof.
  intros Hs Hcm Hl Hi Hr c. unfold prediccion_multiclase, argmax_filas.
  rewrite decide_False by done. simpl.
  set (cods := map _ (datos y_proba)).
  assert (Hc0 : cods !! i = Some c).
  { unfold cods. by rewrite list_lookup_fmap, Hi. }
  destruct (asignar_total "clase_predicha_cod" (map (λ c, SVal (VNum c)) cods)
              (copiar df_esc)) as (d1 & -> & Hl1 & Hf1).
  { unfold cods. by rewrite !length_map, copiar_length. }
  simpl.
  destruct (asignar_total "clase_predicha" (map SVal (map (etiqueta class_mapping) cods))
              d1) as (d2 & -> & Hl2 & Hf2).
  { unfold cods. rewrite !length_map, Hl1, copiar_length. done. }
  simpl.
  destruct (agregar_probabilidades_fila class_mapping y_proba d2 Hcm)
    as (d3 & -> & Hf3).
  { rewrite Hl2, Hl1, copiar_length. done. }
  exists d3. split; [done|].
  apply Hf3; [|done].
  apply Hf2; [|by rewrite !list_lookup_fmap, Hc0].
  apply Hf1; [|by rewrite !list_lookup_fmap, Hc0].
  by apply copiar_filas.
Qed.

(** ** Arg-max and the output head *)

Lemma argmax_desde_spec (r pre : list Q) (m : Q) (im : nat) :
  pre !! im = Some m →
  (∀ j x, pre !! j = Some x → (x <= m)%Q) →
  (∀ j x, j < im → pre !! j = Some x → (x < m)%Q) →
  ∃ mk, (pre ++ r) !! argmax_desde m im (length pre) r = Some mk ∧
        (∀ j x, (pre ++ r) !! j = Some x → (x <= mk)%Q) ∧
        (∀ j x, j < argmax_desde m im (length pre) r →
                (pre ++ r) !! j = Some x → (x < mk)%Q).
Proof.
  revert pre m im. induction r as [|x r IH]; intros pre m im Him Hmax Hfirst; simpl.
  - rewrite app_nil_r. eauto.
  - assert (Hlen : length (pre ++ [x]) = S (length pre)).
    { rewrite length_app. simpl. lia. }
    assert (Hsplit : ∀ j z, (pre ++ [x]) !! j = Some z →
                            pre !! j = Some z ∨ (j = length pre ∧ z = x)).
    { intros j z Hj. apply lookup_app_Some in Hj as [Hj|[Hge Hj]]; [by left|right].
      apply list_lookup_singleton_Some in Hj as [Hj ->]. split; [lia|done]. }
    rewrite (cons_middle x pre r), app_assoc, <- Hlen.
    destruct (Qle_bool x m) eqn:Hx.
    + apply Qle_bool_iff in Hx. apply IH.
      * by apply lookup_app_l_Some.
      * intros j z Hj. destruct (Hsplit j z Hj) as [Hj'|[_ ->]]; eauto.
      * intros j z Hlt Hj. destruct (Hsplit j z Hj) as [Hj'|[-> _]]; eauto.
        apply lookup_lt_Some in Him. lia.
    + assert (Hmx : (m < x)%Q).
      { apply Qnot_le_lt. intros Hle. apply Qle_bool_iff in Hle. congruence. }
      apply IH.
      * rewrite lookup_app_r by lia. by rewrite Nat.sub_diag.
      * intros j z Hj. destruct (Hsplit j z Hj) as [Hj'|[_ ->]]; [|apply Qle_refl].
        apply Qle_trans with m; [eauto|by apply Qlt_le_weak].
      * intros j z Hlt Hj. destruct (Hsplit j z Hj) as [Hj'|[-> _]]; [|lia].
        apply Qle_lt_trans with m; eauto.
Qed.

(** The index [np.argmax] returns for a non-empty row is within the row, the
    entry there is a maximum of the row, and every entry before it is
    strictly smaller. *)
Lemma argmax_fila_spec (r : list Q) :
  r ≠ [] →
  ∃ mk, r !! argmax_fila r = Some mk ∧
        (∀ j x, r !! j = Some x → (x <= mk)%Q) ∧
        (∀ j x, j < argmax_fila r → r !! j = Some x → (x < mk)%Q).
Proof.
  destruct r as [|x r]; [done|]. intros _. simpl.
  apply (argmax_desde_spec r [x] x 0).
  - done.
  - intros [|j] z; simpl; [intros [= <-]; apply Qle_refl|done].
  - intros j z Hj. lia.
Qed.

Lemma con_probabilidades_otro (items : list (Z * valor)) (probs : list Q)
    (r : gmap string salida) (c : string) :
  (∀ it, it ∈ items → "prob_" +:+ str_valor it.2 ≠ c) →
  con_probabilidades items probs r !! c = r !! c.
Proof.
  unfold con_probabilidades. revert r.
  induction items as [|[idx cat] items IH]; intros r Hne; simpl; [done|].
  rewrite IH.
  - rewrite lookup_insert_ne; [done|]. apply (Hne (idx, cat)). by left.
  - intros it Hit. apply Hne. by right.
Qed.

(** C2. The classifier builder gives, for two classes, a single output unit
    with sigmoid activation and binary cross-entropy loss, and for more than
    two classes, [n_classes] output units with softmax activation and sparse
    categorical cross-entropy loss, in both cases after the same four
    layers.  The predictions of a network of the first shape are decoded by
    the threshold 0.5; those of a network of the second shape by arg-max:
    the class code written for a scenario row is the position of the first
    maximal probability of the network's output for that row. *)
Theorem construir_modelo_clasificacion_cabeza (input_dim n_classes : nat)
    (model_name : string) :
  let m := construir_modelo_clasificacion input_dim n_classes model_name in
  let ocultas := [Input input_dim "input_layer"; Dense 32 "relu" "dense_1";
                  Dropout (2 # 10) "dropout_1"; Dense 16 "relu" "dense_2"] in
  (n_classes = 2 →
     capas m = ocultas ++ [Dense 1 "sigmoid" "output"] ∧
     capa_salida m = Some (Dense 1 "sigmoid" "output") ∧
     unidades_salida m = 1 ∧
     loss m = Some "binary_crossentropy" ∧
     ∀ pesos X class_mapping df_esc i p r0,
       let y_proba := predict (mkModelo m pesos) X in
       length (datos y_proba) = length (filas df_esc) →
       datos y_proba !! i = Some [p] →
       filas df_esc !! i = Some r0 →
       ∃ df_out r c,
         tabla_predicciones class_mapping y_proba df_esc = Ok df_out ∧
         filas df_out !! i = Some r ∧
         r !! "clase_predicha_cod" = Some (SVal (VNum c)) ∧
         (c = 1%Z ∧ (1 # 2 <= p)%Q ∨ c = 0%Z ∧ (p < 1 # 2)%Q)) ∧
  (n_classes > 2 →
     capas m = ocultas ++ [Dense n_classes "softmax" "output"] ∧
     capa_salida m = Some (Dense n_classes "softmax" "output") ∧
     unidades_salida m = n_classes ∧
     loss m = Some "sparse_categorical_crossentropy" ∧
     ∀ pesos X class_mapping df_esc,
       let y_proba := predict (mkModelo m pesos) X in
       tabla_predicciones class_mapping y_proba df_esc =
         prediccion_multiclase class_mapping y_proba df_esc ∧
       argmax_filas y_proba = Ok (map (λ r, Z.of_nat (argmax_fila r)) (datos y_proba)) ∧
       ∀ i probs r0,
         Forall (λ it, 0 ≤ it.1 < Z.of_nat n_classes)%Z class_mapping →
         length (datos y_proba) = length (filas df_esc) →
         datos y_proba !! i = Some probs → probs ≠ [] →
         filas df_esc !! i = Some r0 →
         ∃ df_out r k pk,
           tabla_predicciones class_mapping y_proba df_esc = Ok df_out ∧
           filas df_out !! i = Some r ∧
           r !! "clase_predicha_cod" = Some (SVal (VNum (Z.of_nat k))) ∧
           probs !! k = Some pk ∧
           (∀ j x, probs !! j = Some x → (x <= pk)%Q) ∧
           (∀ j x, j < k → probs !! j = Some x → (x < pk)%Q)).
Proof.
  intros m ocultas. split.
  - intros ->. split; [done|]. split; [done|]. split; [done|]. split; [done|].
    intros pesos X class_mapping df_esc i p r0 y_proba Hl Hi Hr0.
    destruct (prediccion_binaria_fila class_mapping y_proba df_esc i [p] r0)
      as (df_out & Hout & Hfila); [done..|].
    simpl in Hfila.
    exists df_out. eexists. exists (if Qle_bool (1 # 2) p then 1%Z else 0%Z).
    split; [unfold tabla_predicciones; by rewrite decide_True|].
    split; [exact Hfila|]. split; [by simplify_map_eq|].
    destruct (Qle_bool (1 # 2) p) eqn:Hp.
    + left. split; [done|]. by apply Qle_bool_iff.
    + right. split; [done|]. apply Qnot_le_lt. intros Hle.
      apply Qle_bool_iff in Hle. congruence.
  - intros Hn. subst m.
    assert (Hu : unidades_salida
                   (construir_modelo_clasificacion input_dim n_classes model_name)
                 = n_classes).
    { rewrite unidades_salida_construir. rewrite decide_False; [done|lia]. }
    unfold construir_modelo_clasificacion in *. rewrite decide_False in * by lia.
    split; [done|]. split; [done|]. split; [done|]. split; [done|].
    intros pesos X class_mapping df_esc. cbv zeta.
    set (y_proba := predict _ X).
    assert (Hs : shape1 y_proba = n_classes) by done.
    assert (Hrama : tabla_predicciones class_mapping y_proba df_esc =
                    prediccion_multiclase class_mapping y_proba df_esc).
    { unfold tabla_predicciones. rewrite decide_False; [done|lia]. }
    split; [exact Hrama|]. split.
    { unfold argmax_filas. rewrite decide_False; [done|lia]. }
    intros i probs r0 Hcm Hl Hi Hne Hr0.
    destruct (prediccion_multiclase_fila class_mapping y_proba df_esc i probs r0)
      as (df_out & Hout & Hfila); [lia|by rewrite Hs|done..|].
    destruct (argmax_fila_spec probs Hne) as (pk & Hk & Hmax & Hfirst).
    exists df_out. eexists. exists (argmax_fila probs), pk.
    split; [by rewrite Hrama|]. split; [exact Hfila|].
    split; [|done].
    rewrite con_probabilidades_otro.
    + by simplify_map_eq.
    + intros it _. apply prob_no_es_columna_de_clase.
Qed.

Lemma construir_modelo_clasificacion_cabeza_witness :
  (let m := construir_modelo_clasificacion 7 2 "nn3" in
   capa_salida m = Some (Dense 1 "sigmoid" "output") ∧
   unidades_salida m = 1 ∧
   loss m = Some "binary_crossentropy") ∧
  (let m := construir_modelo_clasificacion 7 3 "nn1" in
   capa_salida m = Some (Dense 3 "softmax" "output") ∧
   unidades_salida m = 3 ∧
   loss m = Some "sparse_categorical_crossentropy" ∧
   let class_mapping := enumerate [VStr "alto"; VStr "bajo"; VStr "medio"] in
   let probs := [(2 # 10)%Q; (5 # 10)%Q; (3 # 10)%Q] in
   let r0 : gmap string valor := {["escenario" := VStr "esc_1"]} in
   ∃ df_out r k pk,
     tabla_predicciones class_mapping (predict (mkModelo m (λ _, [probs])) [])
       (mkDF ["escenario"] [r0]) = Ok df_out ∧
     filas df_out !! 0 = Some r ∧
     r !! "clase_predicha_cod" = Some (SVal (VNum (Z.of_nat k))) ∧
     probs !! k = Some pk ∧
     (∀ j x, probs !! j = Some x → (x <= pk)%Q) ∧
     (∀ j x, j < k → probs !! j = Some x → (x < pk)%Q)).
Proof.
  split.
  - destruct (construir_modelo_clasificacion_cabeza 7 2 "nn3") as [H _].
    destruct (H eq_refl) as (_ & H1 & H2 & H3 & _). by repeat split.
  - destruct (construir_modelo_clasificacion_cabeza 7 3 "nn1") as [_ H].
    destruct (H ltac:(lia)) as (_ & H1 & H2 & H3 & H4).
    split; [exact H1|]. split; [exact H2|]. split; [exact H3|].
    intros class_mapping probs r0.
    destruct (H4 (λ _, [probs]) [] class_mapping (mkDF ["escenario"] [r0]))
      as (_ & _ & H5).
    apply (H5 0 probs r0); try done.
    repeat constructor; simpl; lia.
Defined.

Lemma codificar_target_mapping (data_sub : DataFrame valor) (target_col : string)
    (cats : list valor) :
  Sorted valor_le cats → NoDup cats → VNaN ∉ cats →
  (∀ v, v ∈ columna data_sub target_col ↔ v ∈ cats) →
  (codificar_target data_sub target_col).1 = enumerate cats.
Proof.
  intros Hs Hn Hnan Hel. unfold codificar_target; simpl. f_equal.
  apply categorias_unicas; [done..|].
  intros v. rewrite Hel. split; [tauto|].
  intros Hv. split; [done|]. by intros ->.
Qed.

(** C4. Binary example: with a target whose categories are "no" and "yes",
    the label mapping is 0 -> "no", 1 -> "yes", and a scenario row for which
    the classifier outputs the single probability 0.82 gets class code 1,
    label "yes" and positive-class probability 0.82. *)
Theorem ejemplo_binario (data_sub : DataFrame valor) (target_col : string)
    (y_proba : ndarray) (df_esc : DataFrame valor) (i : nat) :
  (∀ v, v ∈ columna data_sub target_col ↔ v ∈ [VStr "no"; VStr "yes"]) →
  shape1 y_proba = 1 →
  length (datos y_proba) = length (filas df_esc) →
  datos y_proba !! i = Some [(82 # 100)%Q] →
  let class_mapping := (codificar_target data_sub target_col).1 in
  class_mapping = [(0%Z, VStr "no"); (1%Z, VStr "yes")] ∧
  ∃ df_out r,
    tabla_predicciones class_mapping y_proba df_esc = Ok df_out ∧
    filas df_out !! i = Some r ∧
    r !! "clase_predicha_cod" = Some (SVal (VNum 1)) ∧
    r !! "clase_predicha" = Some (SVal (VStr "yes")) ∧
    r !! "prob_clase_positiva" = Some (SProb (82 # 100)).
Proof.
  intros Hel Hs Hl Hi class_mapping.
  assert (Hcm : class_mapping = [(0%Z, VStr "no"); (1%Z, VStr "yes")]).
  { apply (codificar_target_mapping data_sub target_col [VStr "no"; VStr "yes"]);
      [| | |done].
    - by repeat constructor.
    - by apply (bool_decide_unpack _); vm_compute.
    - by apply (bool_decide_unpack _); vm_compute. }
  split; [done|].
  destruct (lookup_lt_is_Some_2 (filas df_esc) i) as [r0 Hr0].
  { rewrite <- Hl. by eapply lookup_lt_Some. }
  destruct (prediccion_binaria_fila class_mapping y_proba df_esc i _ r0 Hs Hl Hi Hr0)
    as (df_out & Hout & Hfila).
  exists df_out. eexists. split; [|split; [exact Hfila|]].
  - unfold tabla_predicciones. by rewrite decide_True.
  - rewrite Hcm. by simplify_map_eq.
Qed.

Lemma ejemplo_binario_witness :
  let data_sub :=
    mkDF ["agua_mejorada"]
      [{["agua_mejorada" := VStr "yes"]}; {["agua_mejorada" := VStr "no"]};
       {["agua_mejorada" := VStr "yes"]}] in
  let df_esc :=
    mkDF ["escenario"; "n_personas"]
      [{["escenario" := VStr "esc_1"; "n_personas" := VNum 7]}] in
  let y_proba := mkArray 1 [[(82 # 100)%Q]] in
  let class_mapping := (codificar_target data_sub "agua_mejorada").1 in
  class_mapping = [(0%Z, VStr "no"); (1%Z, VStr "yes")] ∧
  ∃ df_out r,
    tabla_predicciones class_mapping y_proba df_esc = Ok df_out ∧
    filas df_out !! 0 = Some r ∧
    r !! "clase_predicha_cod" = Some (SVal (VNum 1)) ∧
    r !! "clase_predicha" = Some (SVal (VStr "yes")) ∧
    r !! "prob_clase_positiva" = Some (SProb (82 # 100)).
Proof.
  intros data_sub df_esc y_proba.
  apply (ejemplo_binario data_sub "agua_mejorada" y_proba df_esc 0).
  - intros v.
    replace (columna data_sub "agua_mejorada")
      with [VStr "yes"; VStr "no"; VStr "yes"] by (vm_compute; reflexivity).
    rewrite !elem_of_cons, !elem_of_nil. tauto.
  - reflexivity.
  - reflexivity.
  - reflexivity.
Defined.

(** The label mapping of a target with the categories "low", "medium" and
    "high" follows the sorted order of the texts. *)
Lemma mapping_low_medium_high (data_sub : DataFrame valor) (target_col : string) :
  (∀ v, v ∈ columna data_sub target_col ↔ v ∈ [VStr "low"; VStr "medium"; VStr "high"]) →
  (codificar_target data_sub target_col).1 =
    [(0%Z, VStr "high"); (1%Z, VStr "low"); (2%Z, VStr "medium")].
Proof.
  intros Hel.
  apply (codificar_target_mapping data_sub target_col
           [VStr "high"; VStr "low"; VStr "medium"]).
  - by repeat constructor.
  - by apply (bool_decide_unpack _); vm_compute.
  - by apply (bool_decide_unpack _); vm_compute.
  - intros v. rewrite Hel, !elem_of_cons, !elem_of_nil. tauto.
Qed.

(** C1 (as amended). End-to-end scenario example: with a target whose
    categories are "low", "medium" and "high", the label mapping follows the
    sorted order of the texts, 0 -> "high", 1 -> "low", 2 -> "medium"; a
    scenario row for which the classifier outputs [0.1, 0.7, 0.2] gets class
    code 1, label "low" and the probability columns prob_high = 0.1,
    prob_low = 0.7, prob_medium = 0.2. *)
Theorem ejemplo_multiclase (data_sub : DataFrame valor) (target_col : string)
    (y_proba : ndarray) (df_esc : DataFrame valor) (i : nat) :
  (∀ v, v ∈ columna data_sub target_col ↔ v ∈ [VStr "low"; VStr "medium"; VStr "high"]) →
  shape1 y_proba = 3 →
  length (datos y_proba) = length (filas df_esc) →
  datos y_proba !! i = Some [(1 # 10)%Q; (7 # 10)%Q; (2 # 10)%Q] →
  let class_mapping := (codificar_target data_sub target_col).1 in
  class_mapping = [(0%Z, VStr "high"); (1%Z, VStr "low"); (2%Z, VStr "medium")] ∧
  ∃ df_out r,
    tabla_predicciones class_mapping y_proba df_esc = Ok df_out ∧
    filas df_out !! i = Some r ∧
    r !! "clase_predicha_cod" = Some (SVal (VNum 1)) ∧
    r !! "clase_predicha" = Some (SVal (VStr "low")) ∧
    r !! "prob_high" = Some (SProb (1 # 10)) ∧
    r !! "prob_low" = Some (SProb (7 # 10)) ∧
    r !! "prob_medium" = Some (SProb (2 # 10)).
Proof.
  intros Hel Hs Hl Hi class_mapping.
  assert (Hcm : class_mapping =
                [(0%Z, VStr "high"); (1%Z, VStr "low"); (2%Z, VStr "medium")]).
  { by apply mapping_low_medium_high. }
  split; [done|].
  destruct (lookup_lt_is_Some_2 (filas df_esc) i) as [r0 Hr0].
  { rewrite <- Hl. by eapply lookup_lt_Some. }
  destruct (prediccion_multiclase_fila class_mapping y_proba df_esc i
              [(1 # 10)%Q; (7 # 10)%Q; (2 # 10)%Q] r0)
    as (df_out & Hout & Hfila); [lia| |done..|].
  { rewrite Hcm, Hs. repeat constructor; simpl; lia. }
  exists df_out. eexists. split; [|split; [exact Hfila|]].
  - unfold tabla_predicciones. rewrite decide_False; [done|lia].
  - rewrite Hcm. by simplify_map_eq.
Qed.

Lemma ejemplo_multiclase_witness :
  let data_sub :=
    mkDF ["calidad"]
      [{["calidad" := VStr "low"]}; {["calidad" := VStr "medium"]};
       {["calidad" := VStr "high"]}; {["calidad" := VStr "low"]}] in
  let df_esc :=
    mkDF ["escenario"; "n_personas"]
      [{["escenario" := VStr "esc_1"; "n_personas" := VNum 3]}] in
  let y_proba := mkArray 3 [[(1 # 10)%Q; (7 # 10)%Q; (2 # 10)%Q]] in
  let class_mapping := (codificar_target data_sub "calidad").1 in
  class_mapping = [(0%Z, VStr "high"); (1%Z, VStr "low"); (2%Z, VStr "medium")] ∧
  ∃ df_out r,
    tabla_predicciones class_mapping y_proba df_esc = Ok df_out ∧
    filas df_out !! 0 = Some r ∧
    r !! "clase_predicha_cod" = Some (SVal (VNum 1)) ∧
    r !! "clase_predicha" = Some (SVal (VStr "low")) ∧
    r !! "prob_high" = Some (SProb (1 # 10)) ∧
    r !! "prob_low" = Some (SProb (7 # 10)) ∧
    r !! "prob_medium" = Some (SProb (2 # 10)).
Proof.
  intros data_sub df_esc y_proba.
  apply (ejemplo_multiclase data_sub "calidad" y_proba df_esc 0).
  - intros v.
    replace (columna data_sub "calidad")
      with [VStr "low"; VStr "medium"; VStr "high"; VStr "low"]
      by (vm_compute; reflexivity).
    rewrite !elem_of_cons, !elem_of_nil. tauto.
  - reflexivity.
  - reflexivity.
  - reflexivity.
Defined.

(** C1, the claim as stated, fails: for a target observed with the values
    "low", "medium" and "high" the code does not give the mapping
    low -> 0, medium -> 1, high -> 2, and the scenario row with output
    [0.1, 0.7, 0.2] is not labelled "medium" nor given prob_low = 0.1. *)
Lemma ejemplo_multiclase_contraejemplo :
  let data_sub :=
    mkDF ["calidad"]
      [{["calidad" := VStr "low"]}; {["calidad" := VStr "medium"]};
       {["calidad" := VStr "high"]}] in
  let df_esc :=
    mkDF ["escenario"; "n_personas"]
      [{["escenario" := VStr "esc_1"; "n_personas" := VNum 3]}] in
  let y_proba := mkArray 3 [[(1 # 10)%Q; (7 # 10)%Q; (2 # 10)%Q]] in
  let class_mapping := (codificar_target data_sub "calidad").1 in
  class_mapping ≠ [(0%Z, VStr "low"); (1%Z, VStr "medium"); (2%Z, VStr "high")] ∧
  ¬ ∃ df_out r,
      tabla_predicciones class_mapping y_proba df_esc = Ok df_out ∧
      filas df_out !! 0 = Some r ∧
      r !! "clase_predicha_cod" = Some (SVal (VNum 1)) ∧
      r !! "clase_predicha" = Some (SVal (VStr "medium")) ∧
      r !! "prob_low" = Some (SProb (1 # 10)) ∧
      r !! "prob_medium" = Some (SProb (7 # 10)) ∧
      r !! "prob_high" = Some (SProb (2 # 10)).
Proof.
  intros data_sub df_esc y_proba class_mapping.
  split.
  - vm_compute. discriminate.
  - intros (df_out & r & Ht & Hr & _ & Hlab & _).
    vm_compute in Ht. injection Ht as <-.
    vm_compute in Hr. injection Hr as <-.
    vm_compute in Hlab. discriminate.
Qed.

(** ** The fitted preprocessor *)

Lemma res_mapM_Ok {A B} (f : A → resultado B) (l : list A) (l' : list B) :
  res_mapM f l = Ok l' ↔ Forall2 (λ x y, f x = Ok y) l l'.
Proof.
  revert l'. induction l as [|x l IH]; intros l'; simpl.
  - split.
    + intros [= <-]. constructor.
    + by inversion 1.
  - split.
    + destruct (f x) as [y|e] eqn:Hf; simpl; [|done].
      destruct (res_mapM f l) as [ys|e] eqn:Hm; simpl; [|done].
      intros [= <-]. constructor; [done|]. by apply IH.
    + inversion 1 as [|? y ? ys Hf Hrest]; subst.
      rewrite Hf; simpl. apply IH in Hrest. by rewrite Hrest.
Qed.

Lemma res_mapM_app {A B} (f : A → resultado B) (l1 l2 : list A) :
  res_mapM f (l1 ++ l2) =
  sea a :=? res_mapM f l1 en sea b :=? res_mapM f l2 en Ok (a ++ b).
Proof.
  induction l1 as [|x l1 IH]; simpl.
  - by destruct (res_mapM f l2).
  - destruct (f x); simpl; [|done]. rewrite IH.
    destruct (res_mapM f l1); simpl; [|done].
    by destruct (res_mapM f l2).
Qed.

Lemma res_mapM_total {A B} (f : A → resultado B) (g : A → B) (l : list A) :
  (∀ x, x ∈ l → f x = Ok (g x)) → res_mapM f l = Ok (map g l).
Proof.
  induction l as [|x l IH]; intros Hf; simpl; [done|].
  rewrite Hf by left. simpl. rewrite IH; [done|].
  intros y Hy. apply Hf. by right.
Qed.

Lemma bloque_onehot_desconocido (cats : list valor) (v : valor) :
  v ∉ cats → bloque_onehot cats v = replicate (length cats) (Ind false).
Proof.
  unfold bloque_onehot. induction cats as [|c cats IH]; intros Hv; simpl; [done|].
  rewrite bool_decide_eq_false_2.
  - f_equal. apply IH. intros ?. apply Hv. by right.
  - intros ->. apply Hv. by left.
Qed.

(** With [handle_unknown="ignore"] the encoder never fails. *)
Lemma transform_celda_onehot_ignore (cats : list valor) (c : string) (v : valor) :
  transform_celda (OneHotAj HU_ignore cats) c v = Ok (bloque_onehot cats v).
Proof.
  simpl. case_decide as Hv; [reflexivity|].
  rewrite bloque_onehot_desconocido by done.
  f_equal. clear Hv. induction cats; simpl; by f_equal.
Qed.

Lemma transform_celda_scaler (muestra : list Z) (c : string) (v : valor) :
  es_str v = false →
  transform_celda (ScalerAj muestra) c v = Ok [escalada muestra v].
Proof. by destruct v. Qed.

(** A transformation that returns has transformed every row. *)
Lemma transform_Ok (pp : ColumnTransformerAj) (X : DataFrame valor) (m : matriz) :
  transform pp X = Ok m → res_mapM (transform_fila pp) (filas X) = Ok m.
Proof.
  unfold transform. destruct (faltan_en _ X); [|done].
  case_decide; [done|].
  destruct (res_mapM (transform_fila pp) _); simpl; [|done].
  destruct (res_mapM (revisar_dtype X) _); simpl; [|done].
  by intros [= <-].
Qed.

(** The conditions under which the transformation returns. *)
Lemma transform_total (pp : ColumnTransformerAj) (X : DataFrame valor) (m : matriz) :
  faltan_en (map fst (columnas_ajustadas pp)) X = [] →
  filas X ≠ [] →
  res_mapM (transform_fila pp) (filas X) = Ok m →
  (∀ ca, ca ∈ columnas_ajustadas pp → revisar_dtype X ca = Ok tt) →
  transform pp X = Ok m.
Proof.
  intros Hcols Hfilas Hm Hdtype. unfold transform. rewrite Hcols.
  rewrite decide_False by (by intros [? _]).
  rewrite Hm. cbn [res_bind].
  by rewrite (res_mapM_total _ (λ _, tt) _ Hdtype).
Qed.

(** A categorical column passes the encoder's check when it holds a text or
    the fitted categories hold none. *)
Lemma revisar_dtype_onehot (X : DataFrame valor) (c : string)
    (hu : manejo_desconocidos) (cats : list valor) :
  (existsb es_str cats = true → existsb es_str (columna X c) = true) →
  revisar_dtype X (c, OneHotAj hu cats) = Ok tt.
Proof.
  intros H. unfold revisar_dtype, dtype_numerico. simpl.
  destruct (existsb es_str cats); [|by rewrite andb_false_r].
  specialize (H eq_refl). apply existsb_exists in H as (v & Hv & Hs).
  rewrite andb_true_r.
  destruct (forallb _ (columna X c)) eqn:Hf; [|done].
  rewrite forallb_forall in Hf. specialize (Hf v Hv). by rewrite Hs in Hf.
Qed.

Lemma existsb_es_str_unicos (vs : list valor) :
  existsb es_str (unicos_ordenados vs) = existsb es_str vs.
Proof.
  apply eq_true_iff_eq. rewrite !existsb_exists.
  split; intros (v & Hv & Hs); exists v; split; try done;
    apply list_elem_of_In; apply list_elem_of_In in Hv;
    by apply unicos_ordenados_elem.
Qed.

(** What fitting the preprocessor of [construir_preprocesador] stores: one
    sample per numeric column, then the sorted distinct values of each
    categorical column. *)
Lemma fit_construir_preprocesador (nums cats : list string) (X : DataFrame valor)
    (pp : ColumnTransformerAj) :
  fit (construir_preprocesador nums cats) X = Ok pp →
  ∃ muestras,
    Forall2 (λ c zs, numeros (columna X c) = Ok zs) nums muestras ∧
    columnas_ajustadas pp =
      zip_with (λ c zs, (c, ScalerAj zs)) nums muestras ++
      map (λ c, (c, OneHotAj HU_ignore (unicos_ordenados (columna X c)))) cats.
Proof.
  unfold fit. destruct (faltan_en _ X); [|done].
  case_decide as Hvac; [done|]. clear Hvac.
  unfold construir_preprocesador; simpl.
  destruct (res_mapM _ nums) as [ajn|] eqn:Hn; simpl; [|done].
  destruct (res_mapM _ cats) as [ajc|] eqn:Hc; simpl; [|done].
  intros [= <-]. unfold columnas_ajustadas; simpl. rewrite app_nil_r.
  apply res_mapM_Ok in Hn, Hc.
  assert (Hcats : ajc = map (λ c, (c, OneHotAj HU_ignore (unicos_ordenados (columna X c)))) cats).
  { clear Hn. induction Hc as [|c a cats ajc Hca _ IH]; simpl; [done|].
    rewrite IH. f_equal.
    destruct (existsb es_num (columna X c) && existsb es_str (columna X c));
      simpl in Hca; [done|]. by injection Hca as <-. }
  assert (Hnums : ∃ muestras,
            Forall2 (λ c zs, numeros (columna X c) = Ok zs) nums muestras ∧
            ajn = zip_with (λ c zs, (c, ScalerAj zs)) nums muestras).
  { clear Hc Hcats. induction Hn as [|c a nums ajn Hca _ (ms & Hms & ->)].
    - exists []. by split; [constructor|].
    - destruct (numeros (columna X c)) as [zs|] eqn:Hzs; simpl in Hca; [|done].
      injection Hca as <-. exists (zs :: ms). split; [by constructor|done]. }
  destruct Hnums as (ms & Hms & ->). exists ms. by rewrite Hcats.
Qed.

Section fila.
Context (X : DataFrame valor) (nums cats : list string) (muestras : list (list Z)).
Context (pp : ColumnTransformerAj).
Hypothesis Hlen : length muestras = length nums.
Hypothesis Hpp :
  columnas_ajustadas pp =
    zip_with (λ c zs, (c, ScalerAj zs)) nums muestras ++
    map (λ c, (c, OneHotAj HU_ignore (unicos_ordenados (columna X c)))) cats.

Lemma columnas_ajustadas_nombres : map fst (columnas_ajustadas pp) = nums ++ cats.
Proof using Hlen Hpp.
  rewrite Hpp, map_app, map_map; simpl. f_equal; [|by rewrite map_id].
  clear Hpp. revert muestras Hlen.
  induction nums as [|c ns IH]; intros [|zs ms] Hl; simpl in *; try done.
  f_equal. apply IH. lia.
Qed.

Lemma transform_fila_numericas (r : gmap string valor) :
  res_mapM (λ ca, transform_celda ca.2 ca.1 (celda r ca.1))
           (zip_with (λ c zs, (c, ScalerAj zs)) nums muestras) =
  if forallb (λ c, negb (es_str (celda r c))) nums
  then Ok (zip_with (λ c zs, [escalada zs (celda r c)]) nums muestras)
  else match res_mapM (λ ca, transform_celda ca.2 ca.1 (celda r ca.1))
                 (zip_with (λ c zs, (c, ScalerAj zs)) nums muestras) with
       | Ok _ => Err (ValueError "")
       | Err e => Err e
       end.
Proof using Hlen.
  clear Hpp. revert muestras Hlen.
  induction nums as [|c ns IH]; intros [|zs ms] Hl; simpl in *; try done.
  destruct (celda r c) as [x|s|] eqn:Hc; simpl; [| done |].
  - rewrite (IH ms) by lia.
    destruct (forallb _ ns); simpl; [done|]. by destruct (res_mapM _ _).
  - rewrite (IH ms) by lia.
    destruct (forallb _ ns); simpl; [done|]. by destruct (res_mapM _ _).
Qed.

Lemma transform_fila_categoricas (r : gmap string valor) :
  res_mapM (λ ca, transform_celda ca.2 ca.1 (celda r ca.1))
           (map (λ c, (c, OneHotAj HU_ignore (unicos_ordenados (columna X c)))) cats) =
  Ok (map (λ c, bloque_onehot (unicos_ordenados (columna X c)) (celda r c)) cats).
Proof.
  clear. induction cats as [|c cs IH]; [done|].
  cbn [map res_mapM]. cbn [fst snd].
  rewrite transform_celda_onehot_ignore. cbn [res_bind]. by rewrite IH.
Qed.

(** A row is transformed exactly when none of its numeric cells is a
    text, whatever its categorical cells hold. *)
Lemma transform_fila_construir (r : gmap string valor) :
  forallb (λ c, negb (es_str (celda r c))) nums = true →
  transform_fila pp r = Ok (fila_transformada X nums cats muestras r).
Proof using Hlen Hpp.
  intros Hnum. unfold transform_fila, fila_transformada.
  rewrite Hpp, res_mapM_app, transform_fila_numericas, Hnum,
    transform_fila_categoricas.
  cbn [res_bind]. f_equal. rewrite concat_app. f_equal.
  clear. revert muestras. induction nums as [|c ns IH]; intros [|zs ms]; simpl; try done.
  by rewrite IH.
Qed.

Lemma transform_fila_Ok (r : gmap string valor) (fila : list entrada) :
  transform_fila pp r = Ok fila →
  forallb (λ c, negb (es_str (celda r c))) nums = true.
Proof using Hlen Hpp.
  unfold transform_fila. rewrite Hpp, res_mapM_app, transform_fila_numericas.
  destruct (forallb _ nums); [done|].
  by destruct (res_mapM _ (zip_with _ _ _)).
Qed.

Lemma transform_construir (X' : DataFrame valor) (m : matriz) (i : nat)
    (r : gmap string valor) :
  transform pp X' = Ok m → filas X' !! i = Some r →
  m !! i = Some (fila_transformada X nums cats muestras r).
Proof using Hlen Hpp.
  intros Hm%transform_Ok Hr. apply res_mapM_Ok in Hm.
  destruct (Forall2_lookup_l _ _ _ _ _ Hm Hr) as (fila & Hfila & Ht).
  transitivity (Some fila); [exact Hfila|]. f_equal.
  pose proof (transform_fila_Ok r fila Ht) as Hnum.
  rewrite (transform_fila_construir r Hnum) in Ht. by injection Ht.
Qed.

Lemma revisar_dtype_construir (X' : DataFrame valor) (ca : string * columna_ajustada) :
  (∀ c, c ∈ cats → existsb es_str (columna X c) = true →
        existsb es_str (columna X' c) = true) →
  ca ∈ columnas_ajustadas pp → revisar_dtype X' ca = Ok tt.
Proof using Hpp.
  intros Hdtype. rewrite Hpp, elem_of_app. intros [Hca|Hca].
  - apply elem_of_lookup_zip_with in Hca as (i & c & zs & -> & _ & _). done.
  - apply list_elem_of_fmap in Hca as (c & -> & Hc).
    apply revisar_dtype_onehot. rewrite existsb_es_str_unicos. by apply Hdtype.
Qed.

Lemma transform_construir_total (X' : DataFrame valor) :
  faltan_en (nums ++ cats) X' = [] →
  filas X' ≠ [] →
  (∀ r c, r ∈ filas X' → c ∈ nums → es_str (celda r c) = false) →
  (∀ c, c ∈ cats → existsb es_str (columna X c) = true →
        existsb es_str (columna X' c) = true) →
  transform pp X' = Ok (map (fila_transformada X nums cats muestras) (filas X')).
Proof using Hlen Hpp.
  intros Hcols Hfilas Hnum Hdtype. apply transform_total; [| done | |].
  - by rewrite columnas_ajustadas_nombres.
  - apply res_mapM_total. intros r Hr. apply transform_fila_construir.
    apply forallb_forall. intros c Hc. apply list_elem_of_In in Hc.
    by rewrite (Hnum r c Hr Hc).
  - intros ca. by apply revisar_dtype_construir.
Qed.
End fila.

Lemma fit_transform_Ok (ct : ColumnTransformer) (X : DataFrame valor)
    (pp : ColumnTransformerAj) (m : matriz) :
  fit_transform ct X = Ok (pp, m) ↔ fit ct X = Ok pp ∧ transform pp X = Ok m.
Proof.
  unfold fit_transform. destruct (fit ct X) as [pp'|]; simpl.
  - destruct (transform pp' X) as [m'|] eqn:Ht; simpl.
    + split; [by intros [= <- <-]|]. intros [[= <-] Hm]. rewrite Ht in Hm. by injection Hm as <-.
    + split; [done|]. intros [[= <-] Hm]. by rewrite Ht in Hm.
  - split; [done|]. by intros [? _].
Qed.

(** C5 (as amended). In the matrix the fitted preprocessor produces, by
    [fit_transform] on the fitting rows or by [transform] on any rows, the
    scaled numeric columns come first, in the order of the numeric features,
    then the one-hot blocks of the categorical columns, in the order of the
    categorical features; the block of a categorical column has one
    indicator per distinct value of the column in the fitting rows, laid out
    in the sorted order of these values. *)
Theorem orden_columnas_transformadas (nums cats : list string) (X : DataFrame valor)
    (pp : ColumnTransformerAj) :
  fit (construir_preprocesador nums cats) X = Ok pp →
  ∃ muestras,
    Forall2 (λ c zs, numeros (columna X c) = Ok zs) nums muestras ∧
    (∀ c, let cs := unicos_ordenados (columna X c) in
          Sorted valor_le cs ∧ NoDup cs ∧ ∀ v, v ∈ cs ↔ v ∈ columna X c) ∧
    (∀ m i r, fit_transform (construir_preprocesador nums cats) X = Ok (pp, m) →
              filas X !! i = Some r →
              m !! i = Some (fila_transformada X nums cats muestras r)) ∧
    (∀ X' m i r, transform pp X' = Ok m → filas X' !! i = Some r →
                 m !! i = Some (fila_transformada X nums cats muestras r)).
Proof.
  intros Hfit.
  destruct (fit_construir_preprocesador nums cats X pp Hfit) as (ms & Hms & Hpp).
  assert (Hlen : length ms = length nums).
  { symmetry. by eapply Forall2_length. }
  exists ms. split; [done|]. split; [|split].
  - intros c cs. split; [apply unicos_ordenados_Sorted|].
    split; [apply unicos_ordenados_NoDup|]. intros v. apply unicos_ordenados_elem.
  - intros m i r Hft Hr. apply fit_transform_Ok in Hft as [_ Ht].
    by eapply transform_construir.
  - intros X' m i r Ht Hr. by eapply transform_construir.
Qed.

Lemma orden_columnas_transformadas_witness :
  let X := mkDF ["n_personas"; "AREA"]
             [{["n_personas" := VNum 3; "AREA" := VStr "urbano"]};
              {["n_personas" := VNum 5; "AREA" := VStr "rural"]}] in
  let pp := mkCTAj [("num", [("n_personas", ScalerAj [3; 5]%Z)]);
                    ("cat", [("AREA", OneHotAj HU_ignore [VStr "rural"; VStr "urbano"])])] in
  fit (construir_preprocesador ["n_personas"] ["AREA"]) X = Ok pp ∧
  ∃ muestras,
    Forall2 (λ c zs, numeros (columna X c) = Ok zs) ["n_personas"] muestras ∧
    (∀ c, let cs := unicos_ordenados (columna X c) in
          Sorted valor_le cs ∧ NoDup cs ∧ ∀ v, v ∈ cs ↔ v ∈ columna X c) ∧
    (∀ m i r, fit_transform (construir_preprocesador ["n_personas"] ["AREA"]) X = Ok (pp, m) →
              filas X !! i = Some r →
              m !! i = Some (fila_transformada X ["n_personas"] ["AREA"] muestras r)) ∧
    (∀ X' m i r, transform pp X' = Ok m → filas X' !! i = Some r →
                 m !! i = Some (fila_transformada X ["n_personas"] ["AREA"] muestras r)).
Proof.
  intros X pp.
  assert (Hfit : fit (construir_preprocesador ["n_personas"] ["AREA"]) X = Ok pp)
    by (vm_compute; reflexivity).
  split; [exact Hfit|].
  exact (orden_columnas_transformadas ["n_personas"] ["AREA"] X pp Hfit).
Defined.

(** C5, the claim as stated, fails: fitted on rows that show "urbano" before
    "rural", the preprocessor puts the indicator of "rural" first, so the
    block is not laid out by first-seen category. *)
Lemma orden_primeras_vistas_contraejemplo :
  let X := mkDF ["AREA"] [{["AREA" := VStr "urbano"]}; {["AREA" := VStr "rural"]}] in
  primeras_vistas (columna X "AREA") = [VStr "urbano"; VStr "rural"] ∧
  ∃ pp, fit_transform (construir_preprocesador [] ["AREA"]) X
        = Ok (pp, [[Ind false; Ind true]; [Ind true; Ind false]]) ∧
  ¬ ∀ m, fit_transform (construir_preprocesador [] ["AREA"]) X = Ok (pp, m) →
         m = map (λ r, bloque_onehot (primeras_vistas (columna X "AREA")) (celda r "AREA"))
               (filas X).
Proof.
  intros X. split; [by vm_compute|].
  eexists. split; [by vm_compute|].
  intros H. specialize (H _ ltac:(by vm_compute)).
  vm_compute in H. discriminate.
Qed.






(** ** Scenario tables *)

Lemma foldl_fila_lookup (valores acc : gmap string valor) (predictors : list string)
    (p : string) :
  foldl (λ fila q, <[q := default VNaN (valores !! q)]> fila) acc predictors !! p =
  if decide (p ∈ predictors) then Some (default VNaN (valores !! p)) else acc !! p.
Proof.
  revert acc. induction predictors as [|q ps IH]; intros acc; cbn [foldl].
  - case_decide as Hp; [|done]. by apply not_elem_of_nil in Hp.
  - rewrite IH. destruct (decide (p ∈ ps)) as [Hp|Hp].
    + rewrite decide_True; [done|]. by right.
    + destruct (decide (p = q)) as [->|Hq].
      * rewrite lookup_insert_eq. rewrite decide_True; [done|]. by left.
      * rewrite lookup_insert_ne by done. rewrite decide_False; [done|].
        rewrite elem_of_cons. tauto.
Qed.

Lemma fila_escenario_lookup (predictors : list string) (valores : gmap string valor)
    (p : string) :
  fila_escenario predictors valores !! p =
  if decide (p ∈ predictors) then Some (default VNaN (valores !! p)) else None.
Proof. unfold fila_escenario. by rewrite foldl_fila_lookup, lookup_empty. Qed.

Lemma solo_predictores_lookup (predictors : list string) (valores : gmap string valor)
    (p : string) :
  p ∈ predictors → solo_predictores predictors valores !! p = valores !! p.
Proof.
  intros Hp. unfold solo_predictores. rewrite map_lookup_filter.
  destruct (valores !! p); simpl; [|done]. by rewrite option_guard_True.
Qed.

Lemma fila_escenario_solo_predictores (predictors : list string)
    (valores : gmap string valor) :
  fila_escenario predictors (solo_predictores predictors valores) =
  fila_escenario predictors valores.
Proof.
  apply map_eq. intros p. rewrite !fila_escenario_lookup.
  case_decide; [|done]. by rewrite solo_predictores_lookup.
Qed.

Lemma fila_de_claves (predictors : list string) (e : string * gmap string valor)
    (c : string) :
  is_Some (fila_de predictors e !! c) ↔ c ∈ "escenario" :: predictors.
Proof.
  unfold fila_de. rewrite elem_of_cons.
  destruct (decide (c = "escenario")) as [->|Hc].
  - rewrite lookup_insert_eq. split; eauto.
  - rewrite lookup_insert_ne by done. rewrite fila_escenario_lookup.
    case_decide; split; try tauto; eauto.
    intros [? ?]; done.
Qed.

Lemma filter_vacio {A} (P : A → Prop) `{∀ x, Decision (P x)} (l : list A) :
  (∀ x, x ∈ l → ¬ P x) → filter P l = [].
Proof.
  induction l as [|x l IH]; intros Hl; [done|].
  rewrite filter_cons_False by (apply Hl; left).
  apply IH. intros y Hy. apply Hl. by right.
Qed.

(** What [construir_df_escenarios] returns: no table for an empty dict of
    scenarios (the reindexing by [cols] finds no column), and otherwise one
    row dict per scenario, in the order of the dict. *)
Lemma construir_df_escenarios_vacio (predictors : list string) :
  construir_df_escenarios predictors [] = Err (KeyError "not in index").
Proof.
  unfold construir_df_escenarios, indexar, faltan_en. simpl.
  rewrite filter_cons_True; [done|]. simpl. rewrite elements_empty. apply not_elem_of_nil.
Qed.

Lemma construir_df_escenarios_filas (predictors : list string)
    (escenarios_dict : list (string * gmap string valor)) :
  escenarios_dict ≠ [] →
  construir_df_escenarios predictors escenarios_dict =
  Ok (mkDF ("escenario" :: predictors) (map (fila_de predictors) escenarios_dict)).
Proof.
  intros Hne. unfold construir_df_escenarios.
  assert (Hrows : map (λ '(nombre_esc, valores),
                         <["escenario" := VStr nombre_esc]>
                           (fila_escenario predictors valores)) escenarios_dict
                  = map (fila_de predictors) escenarios_dict).
  { apply map_ext. by intros [n v]. }
  rewrite Hrows. unfold indexar, faltan_en.
  rewrite (filter_vacio _ ("escenario" :: predictors)).
  - unfold seleccionar; simpl. f_equal. f_equal.
    rewrite map_map. apply map_ext. intros e.
    apply map_filter_id. intros c x Hc. simpl.
    apply (fila_de_claves predictors e c). eauto.
  - intros c Hc Hno. apply Hno. simpl.
    destruct escenarios_dict as [|e es]; [done|].
    apply elem_of_elements. simpl. apply elem_of_union. left.
    apply elem_of_dom. by apply (fila_de_claves predictors e c).
Qed.

Lemma construir_df_escenarios_solo_predictores (predictors : list string)
    (escenarios_dict : list (string * gmap string valor)) :
  construir_df_escenarios predictors escenarios_dict =
  construir_df_escenarios predictors
    (map (λ e, (e.1, solo_predictores predictors e.2)) escenarios_dict).
Proof.
  destruct escenarios_dict as [|e es]; [done|].
  rewrite !construir_df_escenarios_filas by done.
  f_equal. f_equal. rewrite map_map. apply map_ext. intros [n v].
  unfold fila_de; simpl. by rewrite fila_escenario_solo_predictores.
Qed.

(** What the scenario table does as the claim says.  Assembling it ignores
    every key of a scenario that is not a configured predictor: the table,
    and with it the whole outcome of scenario scoring (result, calls and
    file written), is the one obtained with these keys removed, and no such
    key is a cell of the table.  With at least one scenario the table is
    assembled without error; its columns are "escenario" and the predictors,
    its rows follow the order of the scenarios, each row carries the
    scenario's name, and a predictor other than one named "escenario" holds
    NaN when the scenario has no value for it and the scenario's text when
    it has one.  (A number is also kept; that pandas holds it as a float in
    a column with a missing value is not modelled, and nothing is stated
    about it.) *)
Lemma claves_ajenas_ignoradas (predictors : list string)
    (escenarios_dict : list (string * gmap string valor)) :
  let depurados := map (λ e, (e.1, solo_predictores predictors e.2)) escenarios_dict in
  construir_df_escenarios predictors escenarios_dict =
    construir_df_escenarios predictors depurados ∧
  (∀ env info_modelo model_id dir_reports t,
     predecir_escenarios env info_modelo predictors escenarios_dict model_id dir_reports t =
     predecir_escenarios env info_modelo predictors depurados model_id dir_reports t) ∧
  (escenarios_dict ≠ [] →
     ∃ df_esc, construir_df_escenarios predictors escenarios_dict = Ok df_esc) ∧
  (∀ df_esc, construir_df_escenarios predictors escenarios_dict = Ok df_esc →
     columns df_esc = "escenario" :: predictors ∧
     length (filas df_esc) = length escenarios_dict ∧
     ∀ i nombre_esc valores, escenarios_dict !! i = Some (nombre_esc, valores) →
       ∃ r, filas df_esc !! i = Some r ∧
            r !! "escenario" = Some (VStr nombre_esc) ∧
            (∀ k, k ∉ "escenario" :: predictors → r !! k = None) ∧
            (∀ p, p ∈ predictors → p ≠ "escenario" → valores !! p = None →
                  r !! p = Some VNaN) ∧
            (∀ p s, p ∈ predictors → p ≠ "escenario" → valores !! p = Some (VStr s) →
                    r !! p = Some (VStr s))).
Proof.
  intros depurados.
  pose proof (construir_df_escenarios_solo_predictores predictors escenarios_dict) as Hig.
  split; [exact Hig|]. split; [|split].
  - intros env info_modelo model_id dir_reports t.
    unfold predecir_escenarios, mbind, lift. fold depurados in Hig. by rewrite Hig.
  - intros Hne. eexists. by apply construir_df_escenarios_filas.
  - intros df_esc Hdf.
    destruct (decide (escenarios_dict = [])) as [->|Hne].
    { by rewrite construir_df_escenarios_vacio in Hdf. }
    rewrite construir_df_escenarios_filas in Hdf by done. injection Hdf as <-.
    simpl. split; [done|]. split; [by rewrite length_map|].
    intros i nombre_esc valores Hi.
    exists (fila_de predictors (nombre_esc, valores)). split; [|split; [|split; [|split]]].
    + by rewrite list_lookup_fmap, Hi.
    + unfold fila_de. by rewrite lookup_insert_eq.
    + intros k Hk. apply eq_None_not_Some. intros Hs. apply Hk.
      by apply (fila_de_claves predictors (nombre_esc, valores) k).
    + intros p Hp Hne' Hv. unfold fila_de; simpl.
      rewrite lookup_insert_ne by done.
      rewrite fila_escenario_lookup. by rewrite decide_True, Hv.
    + intros p s' Hp Hne' Hv. unfold fila_de; simpl.
      rewrite lookup_insert_ne by done.
      rewrite fila_escenario_lookup. by rewrite decide_True, Hv.
Qed.

(** C10. The code misses the claim for a predictor named "escenario".  The
    dict comprehension fills every predictor with the scenario's value or
    NaN, as the claim says; the assignment [fila["escenario"] = nombre_esc]
    that follows then overwrites the cell of that predictor, so in the
    assembled table it holds the scenario's name, whatever the scenario
    gives for it, and also when it gives nothing and the claim has NaN. *)
Theorem predictor_escenario_sobrescrito (predictors : list string)
    (escenarios_dict : list (string * gmap string valor)) (i : nat)
    (nombre_esc : string) (valores : gmap string valor) :
  "escenario" ∈ predictors →
  escenarios_dict !! i = Some (nombre_esc, valores) →
  fila_escenario predictors valores !! "escenario" =
    Some (default VNaN (valores !! "escenario")) ∧
  ∃ df_esc r,
    construir_df_escenarios predictors escenarios_dict = Ok df_esc ∧
    filas df_esc !! i = Some r ∧
    r !! "escenario" = Some (VStr nombre_esc) ∧
    r !! "escenario" ≠ Some VNaN.
Proof.
  intros Hp Hi. split.
  { rewrite fila_escenario_lookup. by rewrite decide_True. }
  assert (Hne : escenarios_dict ≠ []) by (by intros ->).
  eexists _, (fila_de predictors (nombre_esc, valores)).
  split; [by apply construir_df_escenarios_filas|]. simpl.
  split; [by rewrite list_lookup_fmap, Hi|].
  unfold fila_de. rewrite lookup_insert_eq. done.
Qed.

Lemma predictor_escenario_sobrescrito_witness :
  let predictors := ["escenario"] in
  let valores : gmap string valor := ∅ in
  let escenarios_dict := [("esc_1", valores)] in
  valores !! "escenario" = None ∧
  fila_escenario predictors valores !! "escenario" = Some VNaN ∧
  ∃ df_esc r,
    construir_df_escenarios predictors escenarios_dict = Ok df_esc ∧
    filas df_esc !! 0 = Some r ∧
    r !! "escenario" = Some (VStr "esc_1") ∧
    r !! "escenario" ≠ Some VNaN.
Proof.
  intros predictors valores escenarios_dict. split; [done|].
  apply (predictor_escenario_sobrescrito predictors escenarios_dict 0 "esc_1" valores).
  - by left.
  - reflexivity.
Defined.

(** ** Training: validation of the configured columns *)

Lemma append_nil_r (s : string) : s +:+ "" = s.
Proof.
  induction s as [|a s IH]; [done|].
  change (String a (s +:+ "") = String a s). by rewrite IH.
Qed.

Lemma append_assoc (s1 s2 s3 : string) : (s1 +:+ s2) +:+ s3 = s1 +:+ s2 +:+ s3.
Proof.
  induction s1 as [|a s1 IH]; [done|].
  change (String a ((s1 +:+ s2) +:+ s3) = String a (s1 +:+ s2 +:+ s3)). by rewrite IH.
Qed.

Lemma join_contiene (sep c : string) (l : list string) :
  c ∈ l → ∃ pre post, join sep l = pre +:+ c +:+ post.
Proof.
  induction l as [|x l IH]; intros Hc; [by apply elem_of_nil in Hc|].
  destruct l as [|y l].
  - apply list_elem_of_singleton in Hc as ->. exists "", "". simpl.
    by rewrite append_nil_r.
  - apply elem_of_cons in Hc as [->|Hc].
    + exists "", (sep +:+ join sep (y :: l)). done.
    + destruct (IH Hc) as (pre & post & Hj).
      exists (x +:+ sep +:+ pre), post.
      change (join sep (x :: y :: l)) with (x +:+ sep +:+ join sep (y :: l)).
      rewrite Hj. by rewrite !append_assoc.
Qed.

(** C7. When a configured target or predictor column is absent from the
    dataset, training fails with a [ValueError] whose message lists the
    missing columns, every one of them; the failure comes before anything
    else is done: the trace is unchanged, so no row has been filtered, no
    split or fit has been called and no file written. *)
Theorem columnas_faltantes (env : Entorno) (df : DataFrame valor) (target_col : string)
    (predictors numeric_features categorical_features : list string)
    (model_id dir_reports : string) (t : list evento) :
  let cols_necesarias := target_col :: predictors in
  let faltantes := filter (λ c, c ∉ columns df) cols_necesarias in
  let mensaje := "Las siguientes columnas requeridas no existen en el dataset: "
                 +:+ join ", " faltantes in
  (∃ c, c ∈ cols_necesarias ∧ c ∉ columns df) →
  entrenar_modelo_nn env df target_col predictors numeric_features
    categorical_features model_id dir_reports t = (Err (ValueError mensaje), t) ∧
  ∀ c, c ∈ cols_necesarias → c ∉ columns df →
       c ∈ faltantes ∧ ∃ pre post, mensaje = pre +:+ c +:+ post.
Proof.
  intros cols_necesarias faltantes mensaje (c0 & Hc0 & Hno0).
  assert (Hf : ∀ c, c ∈ cols_necesarias → c ∉ columns df → c ∈ faltantes).
  { intros c Hc Hno. by apply list_elem_of_filter. }
  split.
  - unfold entrenar_modelo_nn. fold cols_necesarias. fold faltantes.
    destruct faltantes as [|f fs] eqn:Hfs.
    + by apply Hf, elem_of_nil in Hc0.
    + done.
  - intros c Hc Hno. split; [by apply Hf|].
    destruct (join_contiene ", " c faltantes (Hf c Hc Hno)) as (pre & post & Hj).
    exists ("Las siguientes columnas requeridas no existen en el dataset: " +:+ pre), post.
    unfold mensaje. rewrite Hj. by rewrite !append_assoc.
Qed.

Lemma columnas_faltantes_witness :
  let df := mkDF ["AREA"] [{["AREA" := VStr "rural"]}] in
  entrenar_modelo_nn entorno_ejemplo df "agua_mejorada" ["AREA"; "PCV2"] [] ["AREA"; "PCV2"]
    "nn3_agua_mejorada" DIR_REPORTS [] =
  (Err (ValueError
     "Las siguientes columnas requeridas no existen en el dataset: agua_mejorada, PCV2"),
   []).
Proof.
  intros df.
  apply (columnas_faltantes entorno_ejemplo df "agua_mejorada" ["AREA"; "PCV2"] []
           ["AREA"; "PCV2"] "nn3_agua_mejorada" DIR_REPORTS []).
  exists "PCV2". split; by apply (bool_decide_unpack _); vm_compute.
Defined.

(** ** Training: the stratified split *)

Lemma train_test_split_pocos (env : Entorno) (X : DataFrame valor) (y : list Z) (c : Z) :
  c ∈ y → contar c y < 2 →
  ∃ msg, train_test_split env X y = Err (ValueError msg).
Proof.
  intros Hc Hn. unfold train_test_split.
  case_decide; [eauto|].
  destruct (existsb _ (remove_dups y)) eqn:Hex; [eauto|].
  exfalso. apply not_true_iff_false in Hex. apply Hex.
  apply existsb_exists. exists c. split.
  - apply list_elem_of_In. by apply elem_of_remove_dups.
  - by apply Nat.ltb_lt.
Qed.

(** C8. When a target class has too few members for the stratified split
    (fewer than two rows of the filtered data), training fails with the
    split's [ValueError], propagated as it is: the run stops at the call of
    [train_test_split], without fitting anything and without writing a
    file. *)
Theorem clase_con_pocos_miembros (env : Entorno) (df : DataFrame valor)
    (target_col : string) (predictors numeric_features categorical_features : list string)
    (model_id dir_reports : string) (t : list evento) (c : Z) :
  let cols_necesarias := target_col :: predictors in
  let data_sub := dropna cols_necesarias (seleccionar cols_necesarias df) in
  let y := (codificar_target data_sub target_col).2 in
  filter (λ c, c ∉ columns df) cols_necesarias = [] →
  c ∈ y → contar c y < 2 →
  ∃ msg,
    entrenar_modelo_nn env df target_col predictors numeric_features
      categorical_features model_id dir_reports t =
    (Err (ValueError msg), t ++ [Llamada "dropna"; Llamada "train_test_split"]).
Proof.
  intros cols_necesarias data_sub y Hcols Hc Hn.
  unfold entrenar_modelo_nn. fold cols_necesarias. rewrite Hcols.
  fold data_sub.
  destruct (train_test_split_pocos env (seleccionar predictors data_sub) y c Hc Hn)
    as [msg Hsplit].
  exists msg. unfold codificar_target in *. simpl in y. fold y.
  unfold mbind, llamar, lift. rewrite Hsplit. by rewrite <- app_assoc.
Qed.

Lemma clase_con_pocos_miembros_witness :
  let df := mkDF ["nivel"; "AREA"]
              [{["nivel" := VStr "alto"; "AREA" := VStr "rural"]};
               {["nivel" := VStr "bajo"; "AREA" := VStr "rural"]};
               {["nivel" := VStr "bajo"; "AREA" := VStr "urbano"]}] in
  ∃ msg,
    entrenar_modelo_nn entorno_ejemplo df "nivel" ["AREA"] [] ["AREA"]
      "nn1" DIR_REPORTS [] =
    (Err (ValueError msg), [Llamada "dropna"; Llamada "train_test_split"]).
Proof.
  intros df.
  apply (clase_con_pocos_miembros entorno_ejemplo df "nivel" ["AREA"] [] ["AREA"]
           "nn1" DIR_REPORTS [] 0%Z).
  - by vm_compute.
  - by apply (bool_decide_unpack _); vm_compute.
  - by apply (bool_decide_unpack _); vm_compute.
Defined.

(** ** Output artifacts *)

Lemma escritos_app (t1 t2 : list evento) :
  escritos (t1 ++ t2) = escritos t1 ++ escritos t2.
Proof. apply omap_app. Qed.

Section prefijos.
Context {A B : Type}.

Lemma escribe_prefijo_mret (a : A) : escribe_prefijo (mret a) [].
Proof.
  intros t r t' [= <- <-]. exists 0. by rewrite app_nil_r.
Qed.

Lemma escribe_prefijo_lift (r : resultado A) : escribe_prefijo (lift r) [].
Proof.
  intros t r' t' [= <- <-]. exists 0. by rewrite app_nil_r.
Qed.

Lemma escribe_prefijo_raise (e : error) (arts : list string) :
  escribe_prefijo (@raise A e) arts.
Proof.
  intros t r' t' [= <- <-]. exists 0. split; [lia|].
  split; [by rewrite app_nil_r|done].
Qed.

Lemma escribe_prefijo_bind (m : M A) (f : A → M B) (arts1 arts2 : list string) :
  escribe_prefijo m arts1 → (∀ a, escribe_prefijo (f a) arts2) →
  escribe_prefijo (mbind m f) (arts1 ++ arts2).
Proof.
  intros Hm Hf t r t'. unfold mbind.
  destruct (m t) as [[a|e] t1] eqn:Hmt.
  - destruct (Hm _ _ _ Hmt) as (n1 & _ & Ht1 & Hok1).
    specialize (Hok1 a eq_refl) as ->.
    intros Hfa. destruct (Hf a _ _ _ Hfa) as (n2 & Hn2 & Ht' & Hok2).
    exists (length arts1 + n2). split; [|split].
    + rewrite length_app. lia.
    + rewrite Ht', Ht1, firstn_all, take_app_add', <- app_assoc; done.
    + intros b Hb. rewrite (Hok2 b Hb), length_app. done.
  - intros [= <- <-].
    destruct (Hm _ _ _ Hmt) as (n1 & Hn1 & Ht1 & _).
    exists n1. split; [|split].
    + rewrite length_app. lia.
    + rewrite Ht1. f_equal. by rewrite take_app_le.
    + done.
Qed.
End prefijos.

Lemma escribe_prefijo_llamar (f : string) : escribe_prefijo (llamar f) [].
Proof.
  intros t r t' [= <- <-]. exists 0.
  rewrite escritos_app. simpl. by rewrite !app_nil_r.
Qed.

Lemma escribe_prefijo_escribir (env : Entorno) (p : string) (c : contenido) :
  escribe_prefijo (escribir env p c) [p].
Proof.
  intros t r t'. unfold escribir. destruct (disco env p).
  - intros [= <- <-]. exists 1. by rewrite escritos_app.
  - intros [= <- <-]. exists 0. split; [simpl; lia|].
    split; [by rewrite app_nil_r|done].
Qed.

Lemma entrenar_modelo_nn_escribe (env : Entorno) (df : DataFrame valor)
    (target_col : string) (predictors numeric_features categorical_features : list string)
    (model_id dir_reports : string) :
  escribe_prefijo
    (entrenar_modelo_nn env df target_col predictors numeric_features
       categorical_features model_id dir_reports)
    (take 3 (artefactos model_id)).
Proof.
  unfold entrenar_modelo_nn.
  destruct (filter _ (target_col :: predictors)); [|apply escribe_prefijo_raise].
  destruct (codificar_target _ target_col) as [class_mapping y].
  apply (escribe_prefijo_bind _ _ [] _); [apply escribe_prefijo_llamar|intros _].
  apply (escribe_prefijo_bind _ _ [] _); [apply escribe_prefijo_llamar|intros _].
  apply (escribe_prefijo_bind _ _ [] _);
    [apply escribe_prefijo_lift|intros [[[X_train X_test] y_train] y_test]].
  apply (escribe_prefijo_bind _ _ [] _); [apply escribe_prefijo_llamar|intros _].
  apply (escribe_prefijo_bind _ _ [] _);
    [apply escribe_prefijo_lift|intros [preprocessor X_train_proc]].
  apply (escribe_prefijo_bind _ _ [] _); [apply escribe_prefijo_llamar|intros _].
  apply (escribe_prefijo_bind _ _ [] _); [apply escribe_prefijo_lift|intros X_test_proc].
  apply (escribe_prefijo_bind _ _ [] _); [apply escribe_prefijo_llamar|intros _].
  apply (escribe_prefijo_bind _ _ [] _); [apply escribe_prefijo_lift|intros [history pesos]].
  apply (escribe_prefijo_bind _ _ [] _); [apply escribe_prefijo_llamar|intros _].
  apply (escribe_prefijo_bind _ _ [] _);
    [apply escribe_prefijo_lift|intros [test_loss test_acc]].
  apply (escribe_prefijo_bind _ _ [_] [_; _]); [apply escribe_prefijo_escribir|intros _].
  apply (escribe_prefijo_bind _ _ [_] [_]); [apply escribe_prefijo_escribir|intros _].
  apply (escribe_prefijo_bind _ _ [_] []); [apply escribe_prefijo_escribir|intros _].
  apply escribe_prefijo_mret.
Qed.

Lemma predecir_escenarios_escribe (env : Entorno) (info_modelo : InfoModelo)
    (predictors : list string) (escenarios_dict : list (string * gmap string valor))
    (model_id dir_reports : string) :
  escribe_prefijo
    (predecir_escenarios env info_modelo predictors escenarios_dict model_id dir_reports)
    [ruta dir_reports (model_id +:+ "_predicciones_escenarios.csv")].
Proof.
  unfold predecir_escenarios.
  apply (escribe_prefijo_bind _ _ [] _); [apply escribe_prefijo_lift|intros df_esc].
  apply (escribe_prefijo_bind _ _ [] _); [apply escribe_prefijo_llamar|intros _].
  apply (escribe_prefijo_bind _ _ [] _); [apply escribe_prefijo_lift|intros X_esc_proc].
  apply (escribe_prefijo_bind _ _ [] _); [apply escribe_prefijo_llamar|intros _].
  apply (escribe_prefijo_bind _ _ [] _); [apply escribe_prefijo_lift|intros df_out].
  apply escribe_prefijo_escribir.
Qed.

Lemma pipeline_modelo_escribe (env : Entorno) (df : DataFrame valor) (target_col : string)
    (predictors numeric_features categorical_features : list string)
    (escenarios_dict : list (string * gmap string valor)) (model_id : string) :
  escribe_prefijo
    (pipeline_modelo env df target_col predictors numeric_features
       categorical_features escenarios_dict model_id)
    (artefactos model_id).
Proof.
  unfold pipeline_modelo.
  apply (escribe_prefijo_bind _ _ (take 3 (artefactos model_id)) [_]).
  - apply entrenar_modelo_nn_escribe.
  - intros info. apply predecir_escenarios_escribe.
Qed.

Ltac caso_monadico H :=
  match type of H with
  | context [match ?x with _ => _ end] =>
      let E := fresh "E" in destruct x eqn:E; simpl in H
  end.

Ltac sin_escrituras :=
  rewrite ?escritos_app; simpl; rewrite ?app_nil_r; reflexivity.

(** With a disk that accepts the writes, training fails only before its
    first write. *)
Lemma entrenar_modelo_nn_falla (env : Entorno) (df : DataFrame valor)
    (target_col : string) (predictors numeric_features categorical_features : list string)
    (model_id dir_reports : string) (t t' : list evento) (e : error) :
  (∀ p, disco env p = true) →
  entrenar_modelo_nn env df target_col predictors numeric_features
    categorical_features model_id dir_reports t = (Err e, t') →
  escritos t' = escritos t.
Proof.
  intros Hdisco. unfold entrenar_modelo_nn.
  destruct (filter _ (target_col :: predictors)).
  2:{ by intros [= _ <-]. }
  unfold codificar_target, mbind, llamar, lift, mret, raise, escribir.
  rewrite !Hdisco. simpl. intros H.
  repeat caso_monadico H; try discriminate H; injection H as _ <-; sin_escrituras.
Qed.

(** Scenario scoring writes its table last: when it fails, it has written
    nothing. *)
Lemma predecir_escenarios_falla (env : Entorno) (info_modelo : InfoModelo)
    (predictors : list string) (escenarios_dict : list (string * gmap string valor))
    (model_id dir_reports : string) (t t' : list evento) (e : error) :
  predecir_escenarios env info_modelo predictors escenarios_dict model_id dir_reports t
    = (Err e, t') →
  escritos t' = escritos t.
Proof.
  unfold predecir_escenarios, mbind, llamar, lift, escribir. simpl. intros H.
  repeat caso_monadico H; try discriminate H; injection H as _ <-; sin_escrituras.
Qed.

(** C9 (as amended). The artifacts of a model are written one after the
    other, in the order accuracy image, loss image, model file, predictions
    table: the files a run has written are the first [n] of these.  A run
    that completes has written all four.  When training returns and
    scenario scoring then fails, the run ends in that error with exactly the
    three training artifacts written and the predictions table missing.
    When training fails, on a disk that accepts the writes, the run ends in
    that error with nothing written. *)
Theorem artefactos_en_orden (env : Entorno) (df : DataFrame valor) (target_col : string)
    (predictors numeric_features categorical_features : list string)
    (escenarios_dict : list (string * gmap string valor)) (model_id : string)
    (t t' : list evento) (r : resultado unit) :
  pipeline_modelo env df target_col predictors numeric_features categorical_features
    escenarios_dict model_id t = (r, t') →
  ∃ n, n ≤ 4 ∧
       escritos t' = escritos t ++ take n (artefactos model_id) ∧
       (∀ u, r = Ok u → n = 4) ∧
       (∀ info t1 e t2,
          entrenar_modelo_nn env df target_col predictors numeric_features
            categorical_features model_id DIR_REPORTS t = (Ok info, t1) →
          predecir_escenarios env info predictors escenarios_dict model_id DIR_REPORTS t1
            = (Err e, t2) →
          r = Err e ∧ t' = t2 ∧ n = 3 ∧
          escritos t1 = escritos t ++ take 3 (artefactos model_id)) ∧
       ((∀ p, disco env p = true) →
        (∀ e t1,
           entrenar_modelo_nn env df target_col predictors numeric_features
             categorical_features model_id DIR_REPORTS t = (Err e, t1) →
           r = Err e ∧ t' = t1 ∧ n = 0) ∧
        (∀ e, r = Err e → n = 0 ∨ n = 3)).
Proof.
  intros H.
  destruct (pipeline_modelo_escribe _ _ _ _ _ _ _ _ _ _ _ H) as (n & Hn & Ht' & Hok).
  exists n. split; [done|]. split; [done|]. split; [done|].
  assert (Hscore : ∀ info t1 e t2,
            entrenar_modelo_nn env df target_col predictors numeric_features
              categorical_features model_id DIR_REPORTS t = (Ok info, t1) →
            predecir_escenarios env info predictors escenarios_dict model_id DIR_REPORTS t1
              = (Err e, t2) →
            r = Err e ∧ t' = t2 ∧ n = 3 ∧
            escritos t1 = escritos t ++ take 3 (artefactos model_id)).
  { intros info t1 e t2 He Hp.
    unfold pipeline_modelo, mbind in H. rewrite He, Hp in H. injection H as <- <-.
    destruct (entrenar_modelo_nn_escribe _ _ _ _ _ _ _ _ _ _ _ He) as (n1 & _ & Ht1 & Hok1).
    rewrite (Hok1 info eq_refl) in Ht1.
    split; [done|]. split; [done|]. split; [|exact Ht1].
    apply predecir_escenarios_falla in Hp. rewrite Hp, Ht1 in Ht'.
    apply app_inv_head in Ht'. apply (f_equal length) in Ht'.
    rewrite !length_take in Ht'. simpl in Ht'. lia. }
  assert (Htrain : (∀ p, disco env p = true) → ∀ e t1,
            entrenar_modelo_nn env df target_col predictors numeric_features
              categorical_features model_id DIR_REPORTS t = (Err e, t1) →
            r = Err e ∧ t' = t1 ∧ n = 0).
  { intros Hdisco e t1 He.
    unfold pipeline_modelo, mbind in H. rewrite He in H. injection H as <- <-.
    split; [done|]. split; [done|].
    apply entrenar_modelo_nn_falla in He; [|done]. rewrite He in Ht'.
    rewrite <- (app_nil_r (escritos t)) in Ht' at 1.
    apply app_inv_head in Ht'. apply (f_equal length) in Ht'.
    rewrite length_take in Ht'. simpl in Ht'. lia. }
  split; [exact Hscore|]. intros Hdisco. split; [by apply Htrain|].
  intros e ->.
  destruct (entrenar_modelo_nn env df target_col predictors numeric_features
              categorical_features model_id DIR_REPORTS t) as [[info|e1] t1] eqn:He.
  - right.
    destruct (predecir_escenarios env info predictors escenarios_dict model_id
                DIR_REPORTS t1) as [[u|e2] t2] eqn:Hp.
    + unfold pipeline_modelo, mbind in H. rewrite He, Hp in H. by injection H.
    + by destruct (Hscore info t1 e2 t2 eq_refl Hp) as (_ & _ & -> & _).
  - left. by destruct (Htrain Hdisco e1 t1 eq_refl) as (_ & _ & ->).
Qed.

(** The training run of the examples returns. *)
Lemma entrenamiento_ejemplo_Ok :
  ∃ info t', entrenamiento_ejemplo = (Ok info, t').
Proof. eexists _, _. vm_compute. reflexivity. Defined.

Lemma artefactos_en_orden_witness :
  let corrida :=
    corrida_ejemplo [("esc_1", {["n_personas" := VNum 5; "AREA" := VStr "rural"]})] in
  let fallida :=
    corrida_ejemplo [("esc_1", {["n_personas" := VStr "muchas"; "AREA" := VStr "rural"]})] in
  (corrida.1 = Ok tt ∧
   ∃ n, n ≤ 4 ∧
        escritos corrida.2 = [] ++ take n (artefactos "nn1") ∧
        (∀ u, corrida.1 = Ok u → n = 4)) ∧
  (∃ e, fallida.1 = Err e ∧
        escritos fallida.2 = [] ++ take 3 (artefactos "nn1")).
Proof.
  intros corrida fallida. split.
  - split; [by vm_compute|].
    destruct (artefactos_en_orden entorno_ejemplo df_ejemplo "nivel" ["n_personas"; "AREA"]
                ["n_personas"] ["AREA"]
                [("esc_1", {["n_personas" := VNum 5; "AREA" := VStr "rural"]})] "nn1"
                [] corrida.2 corrida.1) as (n & Hn & Ht & Hok & _).
    { symmetry. apply surjective_pairing. }
    exists n. by repeat split.
  - destruct (artefactos_en_orden entorno_ejemplo df_ejemplo "nivel" ["n_personas"; "AREA"]
                ["n_personas"] ["AREA"]
                [("esc_1", {["n_personas" := VStr "muchas"; "AREA" := VStr "rural"]})] "nn1"
                [] fallida.2 fallida.1) as (n & Hn & Ht & _ & Hscore & _).
    { symmetry. apply surjective_pairing. }
    destruct entrenamiento_ejemplo_Ok as (info & t1 & He).
    destruct (predecir_escenarios entorno_ejemplo info ["n_personas"; "AREA"]
                [("esc_1", {["n_personas" := VStr "muchas"; "AREA" := VStr "rural"]})]
                "nn1" DIR_REPORTS t1) as [[u|e] t2] eqn:Hp.
    + exfalso.
      assert (Hf : fallida.1 = Ok u).
      { unfold fallida, corrida_ejemplo, pipeline_modelo, mbind.
        unfold entrenamiento_ejemplo in He. by rewrite He, Hp. }
      vm_compute in Hf. discriminate Hf.
    + destruct (Hscore info t1 e t2 He Hp) as (Hr & _ & -> & _).
      exists e. by split.
Defined.

(** C9, the claim as stated, fails: a scenario with a text in a numeric
    predictor makes scenario scoring fail after training has written its
    three files; the run ends in an error with the two curve images and the
    model file written and the predictions table missing. *)
Lemma artefactos_parciales_contraejemplo :
  let corrida :=
    corrida_ejemplo [("esc_1", {["n_personas" := VStr "muchas"; "AREA" := VStr "rural"]})] in
  corrida.1 = Err (ValueError "could not convert string to float: 'muchas'") ∧
  escritos corrida.2 =
    ["reports/redes_neuronales/nn1_accuracy.png";
     "reports/redes_neuronales/nn1_loss.png";
     "reports/redes_neuronales/nn1_model.keras"] ∧
  escritos corrida.2 ≠ [] ∧
  escritos corrida.2 ≠ artefactos "nn1".
Proof.
  intros corrida. split; [by vm_compute|]. split; [by vm_compute|].
  split; by vm_compute.
Qed.

(** Were the label mapping 0 -> "low", 1 -> "medium", 2 -> "high" handed to
    the scorer, the row with output [0.1, 0.7, 0.2] would be labelled
    "medium": the scorer decodes by the mapping it is given, and only the
    order of the categories separates the two readings of the example. *)
Lemma prediccion_multiclase_mapping_dado (y_proba : ndarray) (df_esc : DataFrame valor)
    (i : nat) :
  let class_mapping := [(0%Z, VStr "low"); (1%Z, VStr "medium"); (2%Z, VStr "high")] in
  shape1 y_proba = 3 →
  length (datos y_proba) = length (filas df_esc) →
  datos y_proba !! i = Some [(1 # 10)%Q; (7 # 10)%Q; (2 # 10)%Q] →
  ∃ df_out r,
    tabla_predicciones class_mapping y_proba df_esc = Ok df_out ∧
    filas df_out !! i = Some r ∧
    r !! "clase_predicha_cod" = Some (SVal (VNum 1)) ∧
    r !! "clase_predicha" = Some (SVal (VStr "medium")) ∧
    r !! "prob_low" = Some (SProb (1 # 10)) ∧
    r !! "prob_medium" = Some (SProb (7 # 10)) ∧
    r !! "prob_high" = Some (SProb (2 # 10)).
Proof.
  intros class_mapping Hs Hl Hi.
  destruct (lookup_lt_is_Some_2 (filas df_esc) i) as [r0 Hr0].
  { rewrite <- Hl. by eapply lookup_lt_Some. }
  destruct (prediccion_multiclase_fila class_mapping y_proba df_esc i
              [(1 # 10)%Q; (7 # 10)%Q; (2 # 10)%Q] r0)
    as (df_out & Hout & Hfila); [lia| |done..|].
  { rewrite Hs. repeat constructor; simpl; lia. }
  exists df_out. eexists. split; [|split; [exact Hfila|]].
  - unfold tabla_predicciones. rewrite decide_False; [done|lia].
  - by simplify_map_eq.
Qed.

(** * Further properties of the pipeline *)

(** ** What a successful training run has done *)

Lemma entrenar_modelo_nn_Ok (env : Entorno) (df : DataFrame valor) (target_col : string)
    (predictors numeric_features categorical_features : list string)
    (model_id dir_reports : string) (t t' : list evento) (info : InfoModelo) :
  entrenar_modelo_nn env df target_col predictors numeric_features
    categorical_features model_id dir_reports t = (Ok info, t') →
  let cols_necesarias := target_col :: predictors in
  let data_sub := dropna cols_necesarias (seleccionar cols_necesarias df) in
  let X := seleccionar predictors data_sub in
  filter (λ c, c ∉ columns df) cols_necesarias = [] ∧
  class_mapping info = (codificar_target data_sub target_col).1 ∧
  train_test_split env X (codificar_target data_sub target_col).2 =
    Ok (X_train info, X_test info, y_train info, y_test info) ∧
  red (model info) =
    construir_modelo_clasificacion (ancho (preprocessor info))
      (length (remove_dups (y_train info))) model_id ∧
  (∃ X_train_proc X_test_proc history test_loss,
     fit_transform (construir_preprocesador numeric_features categorical_features)
       (X_train info) = Ok (preprocessor info, X_train_proc) ∧
     transform (preprocessor info) (X_test info) = Ok X_test_proc ∧
     keras_fit env (red (model info)) X_train_proc (y_train info) =
       Ok (history, inferencia (model info)) ∧
     keras_evaluate env (model info) X_test_proc (y_test info) =
       Ok (test_loss, test_accuracy info)) ∧
  t' = t ++ [Llamada "dropna"; Llamada "train_test_split"; Llamada "fit_transform";
             Llamada "transform"; Llamada "model.fit"; Llamada "model.evaluate";
             Escritura (ruta DIR_REPORTS (model_id +:+ "_accuracy.png"))
               (Figura ("Accuracy entrenamiento/validación - " +:+ model_id));
             Escritura (ruta DIR_REPORTS (model_id +:+ "_loss.png"))
               (Figura ("Loss entrenamiento/validación - " +:+ model_id));
             Escritura (ruta DIR_REPORTS (model_id +:+ "_model.keras"))
               (ModeloKeras (red (model info)))].
Proof.
  unfold entrenar_modelo_nn.
  destruct (filter _ (target_col :: predictors)); [|done].
  unfold codificar_target, mbind, llamar, lift, mret, raise, escribir. simpl.
  destruct (train_test_split _ _ _) as [[[[Xtr Xte] ytr] yte]|] eqn:Hsplit; [|done].
  destruct (fit_transform _ Xtr) as [[pp Xtrp]|] eqn:Hfit; [|done].
  destruct (transform pp Xte) as [Xtep|] eqn:Htr; [|done].
  destruct (keras_fit _ _ _ _) as [[history pesos]|] eqn:Hkf; [|done].
  destruct (keras_evaluate _ _ _ _) as [[test_loss test_acc]|] eqn:Hke; [|done].
  destruct (disco env (ruta DIR_REPORTS (model_id +:+ "_accuracy.png"))); [|done].
  destruct (disco env (ruta DIR_REPORTS (model_id +:+ "_loss.png"))); [|done].
  destruct (disco env (ruta DIR_REPORTS (model_id +:+ "_model.keras"))); [|done].
  intros [= <- <-]. simpl.
  split; [done|]. split; [done|]. split; [done|]. split; [done|].
  split; [by exists Xtrp, Xtep, history, test_loss|].
  by rewrite <- !app_assoc.
Qed.

(** X1. A training run that returns has made, in this order, the calls to
    dropna, train_test_split, fit_transform, transform, model.fit and
    model.evaluate, and then written the accuracy image, the loss image and
    the model file, the saved model being the network it returns. *)
Theorem entrenamiento_traza (env : Entorno) (df : DataFrame valor) (target_col : string)
    (predictors numeric_features categorical_features : list string)
    (model_id dir_reports : string) (t t' : list evento) (info : InfoModelo) :
  entrenar_modelo_nn env df target_col predictors numeric_features
    categorical_features model_id dir_reports t = (Ok info, t') →
  t' = t ++ [Llamada "dropna"; Llamada "train_test_split"; Llamada "fit_transform";
             Llamada "transform"; Llamada "model.fit"; Llamada "model.evaluate";
             Escritura (ruta DIR_REPORTS (model_id +:+ "_accuracy.png"))
               (Figura ("Accuracy entrenamiento/validación - " +:+ model_id));
             Escritura (ruta DIR_REPORTS (model_id +:+ "_loss.png"))
               (Figura ("Loss entrenamiento/validación - " +:+ model_id));
             Escritura (ruta DIR_REPORTS (model_id +:+ "_model.keras"))
               (ModeloKeras (red (model info)))].
Proof. intros H. by apply entrenar_modelo_nn_Ok in H as (_ & _ & _ & _ & _ & ->). Qed.

(** X2. In the result of a training run, the label mapping is the one of
    the whole filtered data, taken before the split; the preprocessor is the
    one fitted on the training rows alone; the network has the input width
    of the transformed training matrix and the head chosen by the number of
    distinct classes of the training split. *)
Theorem entrenamiento_componentes (env : Entorno) (df : DataFrame valor)
    (target_col : string) (predictors numeric_features categorical_features : list string)
    (model_id dir_reports : string) (t t' : list evento) (info : InfoModelo) :
  entrenar_modelo_nn env df target_col predictors numeric_features
    categorical_features model_id dir_reports t = (Ok info, t') →
  let cols_necesarias := target_col :: predictors in
  let data_sub := dropna cols_necesarias (seleccionar cols_necesarias df) in
  class_mapping info = enumerate (categorias (columna data_sub target_col)) ∧
  fit (construir_preprocesador numeric_features categorical_features) (X_train info)
    = Ok (preprocessor info) ∧
  red (model info) =
    construir_modelo_clasificacion (ancho (preprocessor info))
      (length (remove_dups (y_train info))) model_id.
Proof.
  intros H cols_necesarias data_sub.
  apply entrenar_modelo_nn_Ok in H
    as (_ & Hcm & _ & Hred & (Xp & _ & _ & _ & Hfit & _) & _).
  split; [exact Hcm|]. split; [|exact Hred].
  by apply fit_transform_Ok in Hfit as [Hfit _].
Qed.

Lemma tomar_elem {A} (idx : list nat) (l : list A) (x : A) :
  x ∈ tomar idx l → x ∈ l.
Proof.
  unfold tomar. intros Hx. apply list_elem_of_omap in Hx as (i & _ & Hi).
  by eapply list_elem_of_lookup_2.
Qed.

Lemma train_test_split_Ok (env : Entorno) (X Xtr Xte : DataFrame valor)
    (y ytr yte : list Z) :
  train_test_split env X y = Ok (Xtr, Xte, ytr, yte) →
  (∀ r, r ∈ filas Xtr ∨ r ∈ filas Xte → r ∈ filas X) ∧
  (∀ c, c ∈ ytr ∨ c ∈ yte → c ∈ y) ∧
  (∀ c, c ∈ y → 2 ≤ contar c y).
Proof.
  unfold train_test_split.
  case_decide; [done|].
  destruct (existsb _ (remove_dups y)) eqn:Hex; [done|].
  case_decide; [done|]. case_decide; [done|].
  destruct (barajar env y) as [itr ite]. intros [= <- <- <- <-]. simpl.
  split; [|split].
  - intros r [Hr|Hr]; by eapply tomar_elem.
  - intros c [Hc|Hc]; by eapply tomar_elem.
  - intros c Hc. destruct (decide (2 ≤ contar c y)) as [|Hlt]; [done|].
    apply not_true_iff_false in Hex. exfalso. apply Hex.
    apply existsb_exists. exists c. split.
    + apply list_elem_of_In. by apply elem_of_remove_dups.
    + apply Nat.ltb_lt. lia.
Qed.

(** X3. In the result of a training run, every code of the training and
    test targets is a key of the label mapping and decodes to an observed
    target value; every training and test row is a row of the filtered data
    and has no missing predictor; and every class of the filtered data has
    at least two rows. *)
Theorem entrenamiento_particion (env : Entorno) (df : DataFrame valor)
    (target_col : string) (predictors numeric_features categorical_features : list string)
    (model_id dir_reports : string) (t t' : list evento) (info : InfoModelo) :
  entrenar_modelo_nn env df target_col predictors numeric_features
    categorical_features model_id dir_reports t = (Ok info, t') →
  let cols_necesarias := target_col :: predictors in
  let data_sub := dropna cols_necesarias (seleccionar cols_necesarias df) in
  (∀ c, c ∈ y_train info ∨ c ∈ y_test info →
        ∃ v, dict_get c (class_mapping info) = Some v ∧
             v ∈ columna data_sub target_col) ∧
  (∀ r p, r ∈ filas (X_train info) ∨ r ∈ filas (X_test info) → p ∈ predictors →
          celda r p ≠ VNaN) ∧
  (∀ c, c ∈ (codificar_target data_sub target_col).2 →
        2 ≤ contar c (codificar_target data_sub target_col).2).
Proof.
  intros H cols_necesarias data_sub.
  apply entrenar_modelo_nn_Ok in H as (_ & Hcm & Hsplit & _).
  apply train_test_split_Ok in Hsplit as (Hrows & Hcods & Hcount).
  fold cols_necesarias in Hrows, Hcods, Hcount, Hcm.
  fold data_sub in Hrows, Hcods, Hcount, Hcm.
  split; [|split; [|exact Hcount]].
  - intros c Hc. apply Hcods in Hc. unfold codificar_target in Hc; simpl in Hc.
    apply list_elem_of_fmap in Hc as (v & -> & Hv).
    exists v. split; [|done]. rewrite Hcm. simpl.
    apply codigo_decodifica, categorias_elem. split; [done|].
    intros ->.
    apply (dropna_sin_nan cols_necesarias (seleccionar cols_necesarias df) target_col);
      [by left|done].
  - intros r p Hr Hp. apply Hrows in Hr. unfold seleccionar in Hr; simpl in Hr.
    apply list_elem_of_fmap in Hr as (r0 & -> & Hr0).
    assert (Hcel : celda (filter (λ kv, kv.1 ∈ predictors) r0) p = celda r0 p).
    { unfold celda. rewrite map_lookup_filter.
      destruct (r0 !! p); simpl; [|done]. by rewrite option_guard_True. }
    rewrite Hcel. intros Hnan.
    apply (dropna_sin_nan cols_necesarias (seleccionar cols_necesarias df) p); [by right|].
    rewrite <- Hnan. unfold columna. apply list_elem_of_fmap. by exists r0.
Qed.

Lemma dropna_vacio (cols : list string) (df : DataFrame valor) :
  (∀ r, r ∈ filas df → ∃ c, c ∈ cols ∧ celda r c = VNaN) →
  filas (dropna cols df) = [].
Proof.
  intros Hinc. unfold dropna; simpl. apply filter_vacio.
  intros r Hr Hall. destruct (Hinc r Hr) as (c & Hc & Hnan).
  rewrite forallb_forall in Hall. specialize (Hall c).
  rewrite <- list_elem_of_In in Hall. specialize (Hall Hc). by rewrite Hnan in Hall.
Qed.

(** X4. When the configured columns exist but every row of the dataset has a
    missing value in one of them, nothing is left after the filtering and
    training fails in train_test_split with a [ValueError] (the train set
    would be empty), with nothing fitted and nothing written. *)
Theorem entrenamiento_sin_filas (env : Entorno) (df : DataFrame valor)
    (target_col : string) (predictors numeric_features categorical_features : list string)
    (model_id dir_reports : string) (t : list evento) :
  let cols_necesarias := target_col :: predictors in
  filter (λ c, c ∉ columns df) cols_necesarias = [] →
  (∀ r, r ∈ filas df → ∃ c, c ∈ cols_necesarias ∧ celda r c = VNaN) →
  entrenar_modelo_nn env df target_col predictors numeric_features
    categorical_features model_id dir_reports t =
  (Err (ValueError "the resulting train set will be empty"),
   t ++ [Llamada "dropna"; Llamada "train_test_split"]).
Proof.
  intros cols_necesarias Hcols Hinc.
  assert (Hvac : filas (dropna cols_necesarias (seleccionar cols_necesarias df)) = []).
  { apply dropna_vacio. intros r Hr. unfold seleccionar in Hr; simpl in Hr.
    apply list_elem_of_fmap in Hr as (r0 & -> & Hr0).
    destruct (Hinc r0 Hr0) as (c & Hc & Hnan). exists c. split; [done|].
    unfold celda in *. rewrite map_lookup_filter.
    destruct (r0 !! c); simpl in *; [|done]. by rewrite option_guard_True. }
  unfold entrenar_modelo_nn. fold cols_necesarias. rewrite Hcols.
  unfold codificar_target, columna, mbind, llamar, lift. rewrite Hvac. simpl.
  by rewrite <- app_assoc.
Qed.

(** ** Arg-max and the decoded predictions *)

Lemma etiqueta_enumerate (cats : list valor) (k : nat) (v : valor) :
  cats !! k = Some v → etiqueta (enumerate cats) (Z.of_nat k) = v.
Proof. intros Hk. unfold etiqueta. by rewrite dict_get_enumerate, Hk. Qed.

Lemma enumerate_desde_Forall {V} (l : list V) (n : Z) :
  Forall (λ it, n ≤ it.1 < n + Z.of_nat (length l))%Z (enumerate_desde n l).
Proof.
  revert n. induction l as [|x l IH]; intros n; simpl; constructor.
  - simpl. lia.
  - eapply Forall_impl; [apply IH|]. simpl. intros it. lia.
Qed.

Lemma con_probabilidades_enumerate (cats : list valor) (n : Z) (probs : list Q)
    (r : gmap string salida) (j : nat) (cat : valor) :
  NoDup (map str_valor cats) → (0 ≤ n)%Z →
  cats !! j = Some cat →
  con_probabilidades (enumerate_desde n cats) probs r !! ("prob_" +:+ str_valor cat) =
  Some (SProb (nth (Z.to_nat n + j) probs 0%Q)).
Proof.
  unfold con_probabilidades. revert n r j.
  induction cats as [|c cats IH]; intros n r j Hnd Hn Hj; [done|].
  simpl in Hnd. apply NoDup_cons in Hnd as [Hc Hnd].
  destruct j as [|j]; simpl in Hj.
  - injection Hj as ->. simpl.
    fold (con_probabilidades (enumerate_desde (n + 1) cats) probs
            (<["prob_" +:+ str_valor cat := SProb (nth (Z.to_nat n) probs 0%Q)]> r)).
    rewrite con_probabilidades_otro.
    + rewrite lookup_insert_eq. by rewrite Nat.add_0_r.
    + intros [idx c'] Hit Heq. simpl in Heq.
      apply (inj (String.app "prob_")) in Heq.
      apply Hc. rewrite <- Heq. apply list_elem_of_fmap. exists c'. split; [done|].
      clear -Hit. revert Hit. generalize (n + 1)%Z.
      induction cats as [|d cats IH]; intros z Hit; simpl in Hit.
      * by apply elem_of_nil in Hit.
      * apply elem_of_cons in Hit as [[= _ ->]|Hit]; [by left|right; eauto].
  - simpl. rewrite (IH (n + 1)%Z _ j Hnd ltac:(lia) Hj).
    do 3 f_equal. lia.
Qed.

(** X5. Binary scoring: for every scenario row, the predicted code is 1
    when the probability is at least 0.5 and 0 otherwise, the label is the
    label mapping's entry for that code (the code's decimal text when the
    mapping has none), the positive-class column holds the probability, and
    every other cell of the scenario row is kept. *)
Theorem prediccion_binaria_umbral (class_mapping : list (Z * valor)) (y_proba : ndarray)
    (df_esc : DataFrame valor) (i : nat) (p : Q) (r0 : gmap string valor) :
  shape1 y_proba = 1 →
  length (datos y_proba) = length (filas df_esc) →
  datos y_proba !! i = Some [p] →
  filas df_esc !! i = Some r0 →
  ∃ df_out r c,
    tabla_predicciones class_mapping y_proba df_esc = Ok df_out ∧
    filas df_out !! i = Some r ∧
    (c = 1%Z ∧ (1 # 2 <= p)%Q ∨ c = 0%Z ∧ (p < 1 # 2)%Q) ∧
    r !! "clase_predicha_cod" = Some (SVal (VNum c)) ∧
    r !! "clase_predicha" =
      Some (SVal (default (VStr (pretty c)) (dict_get c class_mapping))) ∧
    r !! "prob_clase_positiva" = Some (SProb p) ∧
    ∀ k, k ∉ ["clase_predicha_cod"; "clase_predicha"; "prob_clase_positiva"] →
         r !! k = SVal <$> r0 !! k.
Proof.
  intros Hs Hl Hi Hr0.
  destruct (prediccion_binaria_fila class_mapping y_proba df_esc i [p] r0 Hs Hl Hi Hr0)
    as (df_out & Hout & Hfila).
  simpl in Hfila.
  exists df_out. eexists. exists (if Qle_bool (1 # 2) p then 1%Z else 0%Z).
  split; [unfold tabla_predicciones; by rewrite decide_True|].
  split; [exact Hfila|]. split; [|split; [|split; [|split]]].
  - destruct (Qle_bool (1 # 2) p) eqn:Hp.
    + left. split; [done|]. by apply Qle_bool_iff.
    + right. split; [done|]. apply Qnot_le_lt. intros Hle.
      apply Qle_bool_iff in Hle. congruence.
  - by simplify_map_eq.
  - by simplify_map_eq.
  - by simplify_map_eq.
  - intros k Hk. rewrite !elem_of_cons, elem_of_nil in Hk.
    rewrite !lookup_insert_ne by (intros <-; tauto). by rewrite lookup_fmap.
Qed.

Lemma prediccion_binaria_umbral_witness :
  let class_mapping := enumerate [VStr "no"; VStr "yes"] in
  let y_proba := mkArray 1 [[(3 # 10)%Q]] in
  let r0 : gmap string valor := {["escenario" := VStr "esc_1"; "n_personas" := VNum 7]} in
  let df_esc := mkDF ["escenario"; "n_personas"] [r0] in
  ∃ df_out r c,
    tabla_predicciones class_mapping y_proba df_esc = Ok df_out ∧
    filas df_out !! 0 = Some r ∧
    (c = 1%Z ∧ (1 # 2 <= 3 # 10)%Q ∨ c = 0%Z ∧ (3 # 10 < 1 # 2)%Q) ∧
    r !! "clase_predicha_cod" = Some (SVal (VNum c)) ∧
    r !! "clase_predicha" =
      Some (SVal (default (VStr (pretty c)) (dict_get c class_mapping))) ∧
    r !! "prob_clase_positiva" = Some (SProb (3 # 10)) ∧
    ∀ k, k ∉ ["clase_predicha_cod"; "clase_predicha"; "prob_clase_positiva"] →
         r !! k = SVal <$> r0 !! k.
Proof.
  intros class_mapping y_proba r0 df_esc.
  apply (prediccion_binaria_umbral class_mapping y_proba df_esc 0 (3 # 10)%Q r0);
    reflexivity.
Defined.

(** The row the multi-class branch writes, read through the label mapping
    of [K > 1] categories. *)
Lemma prediccion_multiclase_enumerate (cats : list valor) (y_proba : ndarray)
    (df_esc : DataFrame valor) (i : nat) (probs : list Q) (r0 : gmap string valor) :
  1 < length cats →
  shape1 y_proba = length cats →
  length probs = length cats →
  NoDup (map str_valor cats) →
  length (datos y_proba) = length (filas df_esc) →
  datos y_proba !! i = Some probs →
  filas df_esc !! i = Some r0 →
  ∃ df_out r k cat pk,
    tabla_predicciones (enumerate cats) y_proba df_esc = Ok df_out ∧
    filas df_out !! i = Some r ∧
    cats !! k = Some cat ∧ probs !! k = Some pk ∧
    (∀ j x, probs !! j = Some x → (x <= pk)%Q) ∧
    (∀ j x, j < k → probs !! j = Some x → (x < pk)%Q) ∧
    r !! "clase_predicha_cod" = Some (SVal (VNum (Z.of_nat k))) ∧
    r !! "clase_predicha" = Some (SVal cat) ∧
    (∀ j c x, cats !! j = Some c → probs !! j = Some x →
              r !! ("prob_" +:+ str_valor c) = Some (SProb x)) ∧
    (∀ c, c ≠ "clase_predicha_cod" → c ≠ "clase_predicha" →
          (∀ cat', cat' ∈ cats → c ≠ "prob_" +:+ str_valor cat') →
          r !! c = SVal <$> r0 !! c).
Proof.
  intros HK Hs Hlp Hnd Hl Hi Hr0.
  destruct (prediccion_multiclase_fila (enumerate cats) y_proba df_esc i probs r0)
    as (df_out & Hout & Hfila); [lia| |done..|].
  { rewrite Hs. apply (enumerate_desde_Forall cats 0). }
  destruct (argmax_fila_spec probs) as (pk & Hk & Hmax & Hfirst).
  { intros ->. simpl in Hlp. lia. }
  destruct (lookup_lt_is_Some_2 cats (argmax_fila probs)) as [cat Hcat].
  { rewrite <- Hlp. by eapply lookup_lt_Some. }
  assert (Hprob : ∀ it, it ∈ enumerate cats →
            "prob_" +:+ str_valor it.2 ≠ "clase_predicha_cod" ∧
            "prob_" +:+ str_valor it.2 ≠ "clase_predicha").
  { intros it _. apply prob_no_es_columna_de_clase. }
  exists df_out. eexists. exists (argmax_fila probs), cat, pk.
  split; [unfold tabla_predicciones; rewrite decide_False; [done|lia]|].
  split; [exact Hfila|]. split; [done|]. split; [done|].
  split; [done|]. split; [done|]. split; [|split; [|split]].
  - rewrite con_probabilidades_otro by (intros it Hit; by apply Hprob).
    by simplify_map_eq.
  - rewrite con_probabilidades_otro by (intros it Hit; by apply Hprob).
    rewrite lookup_insert_eq. by rewrite (etiqueta_enumerate cats _ cat).
  - intros j c x Hc Hx.
    unfold enumerate. rewrite (con_probabilidades_enumerate cats 0 probs _ j c); [|done..].
    simpl. by rewrite nth_lookup, Hx.
  - intros c Hc1 Hc2 Hc3.
    rewrite con_probabilidades_otro.
    + rewrite !lookup_insert_ne by done. by rewrite lookup_fmap.
    + intros [idx cat'] Hit Heq. apply (Hc3 cat'); [|done].
      clear -Hit. unfold enumerate in Hit. revert Hit. generalize 0%Z.
      induction cats as [|d cats IH]; intros z Hit; simpl in Hit.
      * by apply elem_of_nil in Hit.
      * apply elem_of_cons in Hit as [[= _ ->]|Hit]; [by left|right; eauto].
Qed.

(** X6. Multi-class scoring, the categories of the target being texts: with
    the label mapping of [K > 1] categories and an output of [K]
    probabilities per row, the predicted code of a row is the first position
    of a maximal probability, its label is the category at that position,
    the column prob_<category> of every category holds the probability at
    the category's code, and every other cell of the scenario row is kept. *)
Theorem prediccion_multiclase_argmax (etiquetas : list string) (y_proba : ndarray)
    (df_esc : DataFrame valor) (i : nat) (probs : list Q) (r0 : gmap string valor) :
  1 < length etiquetas →
  shape1 y_proba = length etiquetas →
  length probs = length etiquetas →
  NoDup etiquetas →
  length (datos y_proba) = length (filas df_esc) →
  datos y_proba !! i = Some probs →
  filas df_esc !! i = Some r0 →
  ∃ df_out r k cat pk,
    tabla_predicciones (enumerate (map VStr etiquetas)) y_proba df_esc = Ok df_out ∧
    filas df_out !! i = Some r ∧
    etiquetas !! k = Some cat ∧ probs !! k = Some pk ∧
    (∀ j x, probs !! j = Some x → (x <= pk)%Q) ∧
    (∀ j x, j < k → probs !! j = Some x → (x < pk)%Q) ∧
    r !! "clase_predicha_cod" = Some (SVal (VNum (Z.of_nat k))) ∧
    r !! "clase_predicha" = Some (SVal (VStr cat)) ∧
    (∀ j c x, etiquetas !! j = Some c → probs !! j = Some x →
              r !! ("prob_" +:+ c) = Some (SProb x)) ∧
    (∀ c, c ≠ "clase_predicha_cod" → c ≠ "clase_predicha" →
          (∀ cat', cat' ∈ etiquetas → c ≠ "prob_" +:+ cat') →
          r !! c = SVal <$> r0 !! c).
Proof.
  intros HK Hs Hlp Hnd Hl Hi Hr0.
  assert (Hstr : map str_valor (map VStr etiquetas) = etiquetas).
  { rewrite map_map. apply map_id. }
  destruct (prediccion_multiclase_enumerate (map VStr etiquetas) y_proba df_esc i probs r0)
    as (df_out & r & k & cat & pk & Hout & Hr & Hcat & Hpk & Hmax & Hfirst & Hcod & Hlab
        & Hprob & Hresto); try done; rewrite ?length_map, ?Hstr; try done.
  rewrite list_lookup_fmap in Hcat.
  destruct (etiquetas !! k) as [s|] eqn:Hk; [|done]. injection Hcat as <-.
  exists df_out, r, k, s, pk.
  split; [done|]. split; [done|]. split; [done|]. split; [done|].
  split; [done|]. split; [done|]. split; [done|]. split; [done|]. split.
  - intros j c x Hc Hx. apply (Hprob j (VStr c) x); [|done].
    by rewrite list_lookup_fmap, Hc.
  - intros c Hc1 Hc2 Hc3. apply Hresto; [done..|].
    intros cat' Hcat'. apply list_elem_of_fmap in Hcat' as (s' & -> & Hs').
    by apply Hc3.
Qed.

Lemma entrenamiento_traza_witness :
  ∃ info t',
    entrenamiento_ejemplo = (Ok info, t') ∧
    t' = [] ++ [Llamada "dropna"; Llamada "train_test_split"; Llamada "fit_transform";
                Llamada "transform"; Llamada "model.fit"; Llamada "model.evaluate";
                Escritura (ruta DIR_REPORTS ("nn1" +:+ "_accuracy.png"))
                  (Figura ("Accuracy entrenamiento/validación - " +:+ "nn1"));
                Escritura (ruta DIR_REPORTS ("nn1" +:+ "_loss.png"))
                  (Figura ("Loss entrenamiento/validación - " +:+ "nn1"));
                Escritura (ruta DIR_REPORTS ("nn1" +:+ "_model.keras"))
                  (ModeloKeras (red (model info)))].
Proof.
  destruct entrenamiento_ejemplo_Ok as (info & t' & H).
  exists info, t'. split; [exact H|].
  exact (entrenamiento_traza _ _ _ _ _ _ _ _ _ _ _ H).
Defined.

Lemma entrenamiento_componentes_witness :
  ∃ info t',
    entrenamiento_ejemplo = (Ok info, t') ∧
    class_mapping info =
      enumerate (categorias (columna
        (dropna ["nivel"; "n_personas"; "AREA"]
           (seleccionar ["nivel"; "n_personas"; "AREA"] df_ejemplo)) "nivel")) ∧
    fit (construir_preprocesador ["n_personas"] ["AREA"]) (X_train info)
      = Ok (preprocessor info) ∧
    red (model info) =
      construir_modelo_clasificacion (ancho (preprocessor info))
        (length (remove_dups (y_train info))) "nn1".
Proof.
  destruct entrenamiento_ejemplo_Ok as (info & t' & H).
  exists info, t'. split; [exact H|].
  exact (entrenamiento_componentes _ _ _ _ _ _ _ _ _ _ _ H).
Defined.

Lemma entrenamiento_particion_witness :
  ∃ info t',
    entrenamiento_ejemplo = (Ok info, t') ∧
    let data_sub := dropna ["nivel"; "n_personas"; "AREA"]
                      (seleccionar ["nivel"; "n_personas"; "AREA"] df_ejemplo) in
    (∀ c, c ∈ y_train info ∨ c ∈ y_test info →
          ∃ v, dict_get c (class_mapping info) = Some v ∧ v ∈ columna data_sub "nivel") ∧
    (∀ r p, r ∈ filas (X_train info) ∨ r ∈ filas (X_test info) →
            p ∈ ["n_personas"; "AREA"] → celda r p ≠ VNaN) ∧
    (∀ c, c ∈ (codificar_target data_sub "nivel").2 →
          2 ≤ contar c (codificar_target data_sub "nivel").2).
Proof.
  destruct entrenamiento_ejemplo_Ok as (info & t' & H).
  exists info, t'. split; [exact H|].
  exact (entrenamiento_particion _ _ _ _ _ _ _ _ _ _ _ H).
Defined.

Lemma entrenamiento_sin_filas_witness :
  let df := mkDF ["nivel"; "AREA"]
              [{["nivel" := VNaN; "AREA" := VStr "rural"]};
               {["nivel" := VStr "alto"; "AREA" := VNaN]}] in
  entrenar_modelo_nn entorno_ejemplo df "nivel" ["AREA"] [] ["AREA"] "nn1" DIR_REPORTS [] =
  (Err (ValueError "the resulting train set will be empty"),
   [] ++ [Llamada "dropna"; Llamada "train_test_split"]).
Proof.
  intros df.
  apply (entrenamiento_sin_filas entorno_ejemplo df "nivel" ["AREA"] [] ["AREA"]
           "nn1" DIR_REPORTS []).
  - by vm_compute.
  - intros r Hr. apply elem_of_cons in Hr as [->|Hr].
    + exists "nivel". split; [by left|by vm_compute].
    + apply list_elem_of_singleton in Hr as ->.
      exists "AREA". split; [by right; left|by vm_compute].
Defined.

Lemma prediccion_multiclase_argmax_witness :
  let etiquetas := ["alto"; "bajo"; "medio"] in
  let probs := [(2 # 10)%Q; (4 # 10)%Q; (4 # 10)%Q] in
  let y_proba := mkArray 3 [probs] in
  let r0 : gmap string valor := {["escenario" := VStr "esc_1"; "n_personas" := VNum 7]} in
  let df_esc := mkDF ["escenario"; "n_personas"] [r0] in
  ∃ df_out r k cat pk,
    tabla_predicciones (enumerate (map VStr etiquetas)) y_proba df_esc = Ok df_out ∧
    filas df_out !! 0 = Some r ∧
    etiquetas !! k = Some cat ∧ probs !! k = Some pk ∧
    (∀ j x, probs !! j = Some x → (x <= pk)%Q) ∧
    (∀ j x, j < k → probs !! j = Some x → (x < pk)%Q) ∧
    r !! "clase_predicha_cod" = Some (SVal (VNum (Z.of_nat k))) ∧
    r !! "clase_predicha" = Some (SVal (VStr cat)) ∧
    (∀ j c x, etiquetas !! j = Some c → probs !! j = Some x →
              r !! ("prob_" +:+ c) = Some (SProb x)) ∧
    (∀ c, c ≠ "clase_predicha_cod" → c ≠ "clase_predicha" →
          (∀ cat', cat' ∈ etiquetas → c ≠ "prob_" +:+ cat') →
          r !! c = SVal <$> r0 !! c).
Proof.
  intros etiquetas probs y_proba r0 df_esc.
  apply (prediccion_multiclase_argmax etiquetas y_proba df_esc 0 probs r0).
  - simpl. lia.
  - reflexivity.
  - reflexivity.
  - by apply (bool_decide_unpack _); vm_compute.
  - reflexivity.
  - reflexivity.
  - reflexivity.
Defined.

(** ** The schema of the predictions table *)

Lemma asignar_Ok (c : string) (vals : list salida) (df df' : DataFrame salida) :
  asignar c vals df = Ok df' →
  columns df' = con_columna (columns df) c ∧
  length (filas df') = length (filas df).
Proof.
  unfold asignar. case_decide as Hl; [|done]. intros [= <-]. simpl.
  split; [done|]. rewrite length_zip_with. lia.
Qed.

Lemma agregar_probabilidades_Ok (items : list (Z * valor)) (y_proba : ndarray)
    (df df' : DataFrame salida) :
  agregar_probabilidades items y_proba df = Ok df' →
  columns df' =
    foldl con_columna (columns df) (map (λ it, "prob_" +:+ str_valor it.2) items) ∧
  length (filas df') = length (filas df).
Proof.
  revert df. induction items as [|[idx cat] items IH]; intros df; simpl.
  - by intros [= <-].
  - destruct (columna_nd y_proba idx) as [col|]; simpl; [|done].
    destruct (asignar _ _ df) as [d1|] eqn:Ha; simpl; [|done].
    apply asignar_Ok in Ha as [Hc Hl]. intros Hrest.
    apply IH in Hrest as [Hc' Hl']. rewrite Hc', Hl', Hc, Hl. done.
Qed.

Lemma foldl_con_columna_NoDup (cols nuevas : list string) :
  NoDup (cols ++ nuevas) → foldl con_columna cols nuevas = cols ++ nuevas.
Proof.
  revert cols. induction nuevas as [|c nuevas IH]; intros cols Hnd; simpl.
  - by rewrite app_nil_r.
  - unfold con_columna at 2. rewrite decide_False.
    + rewrite IH; rewrite <- app_assoc; done.
    + apply NoDup_app in Hnd as (_ & Hdis & _). intros Hc. apply (Hdis c Hc). by left.
Qed.

Lemma tabla_predicciones_Ok (class_mapping : list (Z * valor)) (y_proba : ndarray)
    (df_esc : DataFrame valor) (df_out : DataFrame salida) :
  tabla_predicciones class_mapping y_proba df_esc = Ok df_out →
  length (filas df_out) = length (filas df_esc) ∧
  columns df_out =
    foldl con_columna (columns df_esc) (columnas_prediccion class_mapping y_proba).
Proof.
  intros H. unfold tabla_predicciones, columnas_prediccion in *. case_decide.
  - unfold prediccion_binaria in H.
    destruct (columna_nd y_proba 0) as [col0|]; simpl in H; [|done].
    destruct (asignar "clase_predicha_cod" _ _) as [d1|] eqn:H1; simpl in H; [|done].
    destruct (asignar "clase_predicha" _ _) as [d2|] eqn:H2; simpl in H; [|done].
    apply asignar_Ok in H1 as [Hc1 Hl1], H2 as [Hc2 Hl2], H as [Hc3 Hl3].
    rewrite Hl3, Hl2, Hl1, Hc3, Hc2, Hc1, copiar_length. done.
  - unfold prediccion_multiclase in H.
    destruct (argmax_filas y_proba) as [cods|]; simpl in H; [|done].
    destruct (asignar "clase_predicha_cod" _ _) as [d1|] eqn:H1; simpl in H; [|done].
    destruct (asignar "clase_predicha" _ _) as [d2|] eqn:H2; simpl in H; [|done].
    apply asignar_Ok in H1 as [Hc1 Hl1], H2 as [Hc2 Hl2].
    apply agregar_probabilidades_Ok in H as [Hc3 Hl3].
    rewrite Hl3, Hl2, Hl1, Hc3, Hc2, Hc1, copiar_length. done.
Qed.

(** X7. The predictions table has one row per scenario row and, after the
    columns of the scenario table, the columns clase_predicha_cod and
    clase_predicha followed by the single column prob_clase_positiva in the
    binary case and, the categories being texts, by one column
    prob_<category> per entry of the label mapping otherwise; a column whose
    name is already present is replaced in place instead of being
    appended. *)
Theorem tabla_predicciones_esquema (class_mapping : list (Z * valor)) (y_proba : ndarray)
    (df_esc : DataFrame valor) (df_out : DataFrame salida) :
  shape1 y_proba = 1 ∨ Forall (λ it, es_str it.2 = true) class_mapping →
  tabla_predicciones class_mapping y_proba df_esc = Ok df_out →
  length (filas df_out) = length (filas df_esc) ∧
  columns df_out =
    foldl con_columna (columns df_esc) (columnas_prediccion class_mapping y_proba) ∧
  (NoDup (columns df_esc ++ columnas_prediccion class_mapping y_proba) →
   columns df_out = columns df_esc ++ columnas_prediccion class_mapping y_proba).
Proof.
  intros _ H. apply tabla_predicciones_Ok in H as [Hl Hc].
  split; [done|]. split; [done|].
  intros Hnd. rewrite Hc. by apply foldl_con_columna_NoDup.
Qed.

Lemma tabla_predicciones_esquema_witness :
  let class_mapping := enumerate [VStr "alto"; VStr "bajo"; VStr "medio"] in
  let y_proba := mkArray 3 [[(2 # 10)%Q; (4 # 10)%Q; (4 # 10)%Q]] in
  let df_esc := mkDF ["escenario"; "n_personas"]
                  [{["escenario" := VStr "esc_1"; "n_personas" := VNum 7]}] in
  ∃ df_out,
    tabla_predicciones class_mapping y_proba df_esc = Ok df_out ∧
    length (filas df_out) = 1 ∧
    columns df_out =
      ["escenario"; "n_personas"; "clase_predicha_cod"; "clase_predicha";
       "prob_alto"; "prob_bajo"; "prob_medio"].
Proof.
  intros class_mapping y_proba df_esc.
  assert (H : ∃ df_out, tabla_predicciones class_mapping y_proba df_esc = Ok df_out)
    by (eexists; vm_compute; reflexivity).
  destruct H as [df_out H]. exists df_out. split; [exact H|].
  destruct (tabla_predicciones_esquema class_mapping y_proba df_esc df_out)
    as (Hl & _ & Hc); [right; by repeat constructor|exact H|].
  split; [exact Hl|]. apply Hc.
  by apply (bool_decide_unpack _); vm_compute.
Defined.

(** ** The branch of the scorer and the label fallback *)

(** X8. The scorer chooses its branch by the width of the network's output,
    not by the number of classes: for a network built by
    [construir_modelo_clasificacion] the binary branch is taken for one or
    two classes and the multi-class branch otherwise; with one class the
    head is a single softmax unit, trained with the sparse categorical
    loss. *)
Theorem rama_por_ancho_de_salida (input_dim n_classes : nat) (model_name : string)
    (pesos : matriz → list (list Q)) (X : matriz) (class_mapping : list (Z * valor))
    (df_esc : DataFrame valor) :
  let m := construir_modelo_clasificacion input_dim n_classes model_name in
  let y_proba := predict (mkModelo m pesos) X in
  (n_classes = 1 ∨ n_classes = 2 →
     tabla_predicciones class_mapping y_proba df_esc =
       prediccion_binaria class_mapping y_proba df_esc) ∧
  (n_classes ≠ 1 ∧ n_classes ≠ 2 →
     tabla_predicciones class_mapping y_proba df_esc =
       prediccion_multiclase class_mapping y_proba df_esc) ∧
  (n_classes = 1 →
     capa_salida m = Some (Dense 1 "softmax" "output") ∧
     loss m = Some "sparse_categorical_crossentropy").
Proof.
  intros m y_proba.
  assert (Hs : shape1 y_proba = if decide (n_classes = 2) then 1 else n_classes).
  { apply unidades_salida_construir. }
  unfold tabla_predicciones. split; [|split].
  - intros Hn. rewrite decide_True; [done|]. rewrite Hs. case_decide; lia.
  - intros [Hn1 Hn2]. rewrite decide_False; [done|]. rewrite Hs.
    rewrite decide_False by done. done.
  - by intros ->.
Qed.

(** X9. A single-category target: its label mapping has the one key 0, and
    a row whose output probability is at least 0.5 is given the code 1 and,
    the mapping having no entry for 1, the text "1" as its label. *)
Theorem etiqueta_de_una_clase (v : valor) (y_proba : ndarray) (df_esc : DataFrame valor)
    (i : nat) (p : Q) :
  shape1 y_proba = 1 →
  length (datos y_proba) = length (filas df_esc) →
  datos y_proba !! i = Some [p] →
  (1 # 2 <= p)%Q →
  ∃ df_out r,
    tabla_predicciones (enumerate [v]) y_proba df_esc = Ok df_out ∧
    filas df_out !! i = Some r ∧
    r !! "clase_predicha_cod" = Some (SVal (VNum 1)) ∧
    r !! "clase_predicha" = Some (SVal (VStr "1")).
Proof.
  intros Hs Hl Hi Hp.
  destruct (lookup_lt_is_Some_2 (filas df_esc) i) as [r0 Hr0].
  { rewrite <- Hl. by eapply lookup_lt_Some. }
  destruct (prediccion_binaria_fila (enumerate [v]) y_proba df_esc i [p] r0 Hs Hl Hi Hr0)
    as (df_out & Hout & Hfila).
  simpl in Hfila. apply Qle_bool_iff in Hp. rewrite Hp in Hfila.
  exists df_out. eexists.
  split; [unfold tabla_predicciones; by rewrite decide_True|].
  split; [exact Hfila|]. by simplify_map_eq.
Qed.

Lemma etiqueta_de_una_clase_witness :
  let y_proba := mkArray 1 [[1%Q]] in
  let df_esc := mkDF ["escenario"; "n_personas"]
                  [{["escenario" := VStr "esc_1"; "n_personas" := VNum 7]}] in
  ∃ df_out r,
    tabla_predicciones (enumerate [VStr "alto"]) y_proba df_esc = Ok df_out ∧
    filas df_out !! 0 = Some r ∧
    r !! "clase_predicha_cod" = Some (SVal (VNum 1)) ∧
    r !! "clase_predicha" = Some (SVal (VStr "1")).
Proof.
  intros y_proba df_esc.
  apply (etiqueta_de_una_clase (VStr "alto") y_proba df_esc 0 1%Q); try reflexivity.
  apply Qle_bool_iff. reflexivity.
Defined.

(** X10. With no scenario, the scenario table cannot be assembled: scoring
    fails with a [KeyError] before the preprocessor or the network is called,
    and writes no file. *)
Theorem predecir_sin_escenarios (env : Entorno) (info_modelo : InfoModelo)
    (predictors : list string) (model_id dir_reports : string) (t : list evento) :
  predecir_escenarios env info_modelo predictors [] model_id dir_reports t =
  (Err (KeyError "not in index"), t).
Proof.
  unfold predecir_escenarios, mbind, lift.
  by rewrite construir_df_escenarios_vacio.
Qed.

(** ** Codes follow the sorted order of the values *)

Lemma StronglySorted_lookup {A} (R : relation A) (l : list A) (i j : nat) (x y : A) :
  StronglySorted R l → i < j → l !! i = Some x → l !! j = Some y → R x y.
Proof.
  intros Hs. revert i j. induction Hs as [|a l Hs IH Hall]; intros i j Hij Hi Hj; [done|].
  destruct j as [|j]; [lia|]. destruct i as [|i]; simpl in *.
  - injection Hi as <-. rewrite Forall_forall in Hall. apply Hall.
    by eapply list_elem_of_lookup_2.
  - apply (IH i j); [lia|done..].
Qed.

(** X11. The codes of the target follow the sorted order of its values: of
    two observed values, the smaller one (numbers ascending, texts in
    code-point order) has the smaller code, and equal codes mean equal
    values. *)
Theorem codigos_en_orden (vs : list valor) (v1 v2 : valor) :
  v1 ∈ vs → v2 ∈ vs → v1 ≠ VNaN → v2 ≠ VNaN →
  (valor_le v1 v2 ↔ (codigo (categorias vs) v1 ≤ codigo (categorias vs) v2)%Z) ∧
  (codigo (categorias vs) v1 = codigo (categorias vs) v2 → v1 = v2).
Proof.
  intros H1 H2 Hn1 Hn2.
  assert (Hc1 : v1 ∈ categorias vs) by by apply categorias_elem.
  assert (Hc2 : v2 ∈ categorias vs) by by apply categorias_elem.
  assert (Hsort : StronglySorted valor_le (categorias vs)).
  { apply (StronglySorted_merge_sort valor_le). }
  assert (Hnd : NoDup (categorias vs)) by apply unicos_ordenados_NoDup.
  unfold codigo.
  destruct (posicion_elem v1 _ Hc1) as [i Hi]. destruct (posicion_elem v2 _ Hc2) as [j Hj].
  rewrite Hi, Hj. apply posicion_lookup in Hi, Hj.
  split; [split|].
  - intros Hle. destruct (decide (i ≤ j)) as [|Hgt]; [lia|].
    assert (Hle' : valor_le v2 v1).
    { apply (StronglySorted_lookup valor_le (categorias vs) j i); [done|lia|done..]. }
    assert (v1 = v2) as -> by by apply (anti_symm valor_le).
    pose proof (NoDup_lookup _ _ _ _ Hnd Hi Hj). lia.
  - intros Hle. destruct (decide (i = j)) as [->|Hne].
    + assert (v1 = v2) as -> by congruence.
      destruct (total valor_le v2 v2); done.
    + apply (StronglySorted_lookup valor_le (categorias vs) i j); [done|lia|done..].
  - intros Heq. assert (i = j) as -> by lia. congruence.
Qed.

Lemma codigos_en_orden_witness :
  let vs := [VStr "medium"; VStr "low"; VStr "high"; VStr "low"] in
  (valor_le (VStr "high") (VStr "low") ↔
     (codigo (categorias vs) (VStr "high") ≤ codigo (categorias vs) (VStr "low"))%Z) ∧
  (codigo (categorias vs) (VStr "high") = codigo (categorias vs) (VStr "low") →
   VStr "high" = VStr "low").
Proof.
  intros vs.
  apply (codigos_en_orden vs (VStr "high") (VStr "low"));
    try discriminate; by apply (bool_decide_unpack _); vm_compute.
Defined.

(** ** The shape of the transformed matrix *)

Lemma transform_celda_length (a : columna_ajustada) (c : string) (v : valor)
    (b : list entrada) :
  transform_celda a c v = Ok b → length b = ancho_columna a.
Proof.
  destruct a as [muestra|hu cats]; simpl.
  - destruct v; by intros [= <-].
  - case_decide; [intros [= <-]; by rewrite length_map|].
    destruct hu; [done|]. intros [= <-]. by rewrite length_map.
Qed.

Lemma transform_fila_length (pp : ColumnTransformerAj) (r : gmap string valor)
    (fila : list entrada) :
  transform_fila pp r = Ok fila → length fila = ancho pp.
Proof.
  unfold transform_fila, ancho.
  destruct (res_mapM _ (columnas_ajustadas pp)) as [bloques|] eqn:Hm; simpl; [|done].
  intros [= <-]. apply res_mapM_Ok in Hm.
  induction Hm as [|ca b cas bs Hb _ IH]; simpl; [done|].
  rewrite length_app, IH. f_equal. by eapply transform_celda_length.
Qed.

(** X12. A matrix produced by a fitted preprocessor has one row per input
    row, and every row has the same width, [ancho] of the preprocessor: one
    entry per scaled column and one per fitted category of each one-hot
    column.  This is the width [entrenar_modelo_nn] gives to the input layer
    of the network. *)
Theorem ancho_de_filas (pp : ColumnTransformerAj) (X : DataFrame valor) (m : matriz) :
  transform pp X = Ok m →
  length m = length (filas X) ∧
  Forall (λ fila, length fila = ancho pp) m.
Proof.
  intros Hm%transform_Ok. apply res_mapM_Ok in Hm. split.
  - symmetry. by eapply Forall2_length.
  - induction Hm as [|r fila rs filas' Hf _ IH]; constructor; [|done].
    by eapply transform_fila_length.
Qed.

Lemma ancho_de_filas_witness :
  let pp := mkCTAj [("num", [("n_personas", ScalerAj [3; 5]%Z)]);
                    ("cat", [("AREA", OneHotAj HU_ignore [VStr "rural"; VStr "urbano"])])] in
  let X := mkDF ["n_personas"; "AREA"]
             [{["n_personas" := VNum 4; "AREA" := VStr "selva"]};
              {["n_personas" := VNaN; "AREA" := VStr "rural"]}] in
  ∃ m, transform pp X = Ok m ∧ length m = 2 ∧ Forall (λ fila, length fila = 3) m.
Proof.
  intros pp X.
  assert (H : ∃ m, transform pp X = Ok m) by (eexists; vm_compute; reflexivity).
  destruct H as [m H]. exists m. split; [exact H|].
  exact (ancho_de_filas pp X m H).
Defined.

Lemma bloque_onehot_lookup (cats : list valor) (v : valor) (pos j : nat) :
  NoDup cats → cats !! pos = Some v → j < length cats →
  bloque_onehot cats v !! j = Some (Ind (bool_decide (j = pos))).
Proof.
  intros Hnd Hpos Hj. unfold bloque_onehot.
  destruct (lookup_lt_is_Some_2 cats j Hj) as [c Hc].
  rewrite list_lookup_fmap, Hc. simpl. do 2 f_equal.
  apply bool_decide_ext. split.
  - intros ->. by eapply NoDup_lookup.
  - intros ->. congruence.
Qed.

(** X13. One-hot encoding of a seen category: in a transformed row, the
    block of a categorical column whose value was present during fitting has
    exactly one indicator set, at the position of the value among the sorted
    distinct values of the column in the fitting rows. *)
Theorem categoria_vista (nums cats : list string) (X X' : DataFrame valor)
    (pp : ColumnTransformerAj) (m : matriz) (i k : nat) (r : gmap string valor)
    (c : string) :
  fit (construir_preprocesador nums cats) X = Ok pp →
  transform pp X' = Ok m →
  filas X' !! i = Some r →
  cats !! k = Some c →
  celda r c ∈ columna X c →
  ∃ escaladas bloques bloque pos,
    m !! i = Some (escaladas ++ concat bloques) ∧
    length escaladas = length nums ∧
    length bloques = length cats ∧
    bloques !! k = Some bloque ∧
    unicos_ordenados (columna X c) !! pos = Some (celda r c) ∧
    length bloque = length (unicos_ordenados (columna X c)) ∧
    ∀ j, j < length bloque → bloque !! j = Some (Ind (bool_decide (j = pos))).
Proof.
  intros Hfit Ht Hr Hk Hv.
  destruct (fit_construir_preprocesador nums cats X pp Hfit) as (ms & Hms & Hpp).
  assert (Hlen : length ms = length nums).
  { symmetry. by eapply Forall2_length. }
  pose proof (transform_construir X nums cats ms pp Hlen Hpp X' m i r Ht Hr) as Hrow.
  apply unicos_ordenados_elem in Hv.
  apply list_elem_of_lookup in Hv as [pos Hpos].
  exists (zip_with (λ c zs, escalada zs (celda r c)) nums ms),
         (map (λ c, bloque_onehot (unicos_ordenados (columna X c)) (celda r c)) cats),
         (bloque_onehot (unicos_ordenados (columna X c)) (celda r c)), pos.
  split; [exact Hrow|]. split; [rewrite length_zip_with; lia|].
  split; [by rewrite length_map|]. split; [by rewrite list_lookup_fmap, Hk|].
  split; [done|]. assert (Hlb : length (bloque_onehot (unicos_ordenados (columna X c))
                                          (celda r c))
                                = length (unicos_ordenados (columna X c))).
  { unfold bloque_onehot. by rewrite length_map. }
  split; [done|]. intros j Hj. apply bloque_onehot_lookup; [|done|lia].
  apply unicos_ordenados_NoDup.
Qed.

Lemma categoria_vista_witness :
  let X := mkDF ["n_personas"; "AREA"]
             [{["n_personas" := VNum 3; "AREA" := VStr "urbano"]};
              {["n_personas" := VNum 5; "AREA" := VStr "rural"]}] in
  let r : gmap string valor := {["n_personas" := VNum 4; "AREA" := VStr "urbano"]} in
  let X' := mkDF ["n_personas"; "AREA"] [r] in
  let pp := mkCTAj [("num", [("n_personas", ScalerAj [3; 5]%Z)]);
                    ("cat", [("AREA", OneHotAj HU_ignore [VStr "rural"; VStr "urbano"])])] in
  transform pp X' = Ok [[Estandar 4 [3; 5]%Z; Ind false; Ind true]] ∧
  ∃ escaladas bloques bloque pos,
    [[Estandar 4 [3; 5]%Z; Ind false; Ind true]] !! 0 = Some (escaladas ++ concat bloques) ∧
    length escaladas = 1 ∧
    length bloques = 1 ∧
    bloques !! 0 = Some bloque ∧
    unicos_ordenados (columna X "AREA") !! pos = Some (celda r "AREA") ∧
    length bloque = length (unicos_ordenados (columna X "AREA")) ∧
    ∀ j, j < length bloque → bloque !! j = Some (Ind (bool_decide (j = pos))).
Proof.
  intros X r X' pp.
  assert (Ht : transform pp X' = Ok [[Estandar 4 [3; 5]%Z; Ind false; Ind true]])
    by (vm_compute; reflexivity).
  split; [exact Ht|].
  apply (categoria_vista ["n_personas"] ["AREA"] X X' pp _ 0 0 r "AREA").
  - by vm_compute.
  - exact Ht.
  - reflexivity.
  - reflexivity.
  - by apply (bool_decide_unpack _); vm_compute.
Defined.

(** ** When scenario scoring goes through *)

Lemma tabla_predicciones_total (class_mapping : list (Z * valor)) (y_proba : ndarray)
    (df_esc : DataFrame valor) :
  length (datos y_proba) = length (filas df_esc) →
  shape1 y_proba = 1 ∨
    (shape1 y_proba ≠ 0 ∧
     Forall (λ it, 0 ≤ it.1 < Z.of_nat (shape1 y_proba))%Z class_mapping) →
  ∃ df_out, tabla_predicciones class_mapping y_proba df_esc = Ok df_out.
Proof.
  intros Hl Hs. unfold tabla_predicciones. case_decide as H1.
  - unfold prediccion_binaria.
    pose proof (columna_nd_total y_proba 0) as Hcol.
    change (Z.of_nat 0) with 0%Z in Hcol. rewrite Hcol by lia. clear Hcol.
    cbn [res_bind]. set (col0 := map _ (datos y_proba)).
    assert (Hlc : length col0 = length (filas (copiar df_esc))).
    { unfold col0. by rewrite length_map, copiar_length. }
    destruct (asignar_total "clase_predicha_cod"
                (map (λ c, SVal (VNum c))
                   (map (λ p, if Qle_bool (1 # 2) p then 1%Z else 0%Z) col0))
                (copiar df_esc)) as (d1 & -> & Hl1 & _).
    { by rewrite !length_map. }
    cbn [res_bind].
    destruct (asignar_total "clase_predicha"
                (map SVal (map (etiqueta class_mapping)
                   (map (λ p, if Qle_bool (1 # 2) p then 1%Z else 0%Z) col0)))
                d1) as (d2 & -> & Hl2 & _).
    { rewrite !length_map. lia. }
    cbn [res_bind].
    destruct (asignar_total "prob_clase_positiva" (map SProb col0) d2)
      as (d3 & -> & _).
    { rewrite !length_map. lia. }
    eauto.
  - destruct Hs as [Hs|[Hs0 Hcm]]; [done|].
    unfold prediccion_multiclase, argmax_filas. rewrite decide_False by done.
    cbn [res_bind]. set (cods := map _ (datos y_proba)).
    destruct (asignar_total "clase_predicha_cod" (map (λ c, SVal (VNum c)) cods)
                (copiar df_esc)) as (d1 & -> & Hl1 & _).
    { unfold cods. by rewrite !length_map, copiar_length. }
    cbn [res_bind].
    destruct (asignar_total "clase_predicha"
                (map SVal (map (etiqueta class_mapping) cods)) d1)
      as (d2 & -> & Hl2 & _).
    { unfold cods. rewrite !length_map, Hl1, copiar_length. done. }
    cbn [res_bind].
    destruct (agregar_probabilidades_fila class_mapping y_proba d2 Hcm)
      as (d3 & -> & _).
    { rewrite Hl2, Hl1, copiar_length. done. }
    eauto.
Qed.

Lemma celda_fila_de (predictors : list string) (e : string * gmap string valor)
    (c : string) :
  c ∈ predictors → c ≠ "escenario" →
  celda (delete "escenario" (fila_de predictors e)) c = default VNaN (e.2 !! c).
Proof.
  intros Hc Hne. unfold celda, fila_de.
  rewrite lookup_delete_ne by done. rewrite lookup_insert_ne by done.
  rewrite fila_escenario_lookup. by rewrite decide_True.
Qed.

Lemma predecir_escenarios_Ok (env : Entorno) (info_modelo : InfoModelo)
    (nums cats predictors : list string) (X : DataFrame valor)
    (escenarios_dict : list (string * gmap string valor))
    (model_id dir_reports : string) (t : list evento) :
  fit (construir_preprocesador nums cats) X = Ok (preprocessor info_modelo) →
  (∀ c, c ∈ nums ++ cats → c ∈ predictors) →
  "escenario" ∉ predictors →
  escenarios_dict ≠ [] →
  (∀ e c, e ∈ escenarios_dict → c ∈ nums → es_str (default VNaN (e.2 !! c)) = false) →
  (∀ c, c ∈ cats →
        existsb es_str (map (λ e, default VNaN (e.2 !! c)) escenarios_dict) =
        existsb es_str (columna X c)) →
  (∀ Xp, length (inferencia (model info_modelo) Xp) = length Xp) →
  unidades_salida (red (model info_modelo)) = 1 ∨
    (unidades_salida (red (model info_modelo)) ≠ 0 ∧
     Forall (λ it, 0 ≤ it.1 < Z.of_nat (unidades_salida (red (model info_modelo))))%Z
       (class_mapping info_modelo)) →
  disco env (ruta dir_reports (model_id +:+ "_predicciones_escenarios.csv")) = true →
  ∃ df_out,
    predecir_escenarios env info_modelo predictors escenarios_dict model_id dir_reports t =
      (Ok tt, t ++ [Llamada "transform"; Llamada "model.predict";
                    Escritura (ruta dir_reports (model_id +:+ "_predicciones_escenarios.csv"))
                      (Tabla df_out)]) ∧
    length (filas df_out) = length escenarios_dict.
Proof.
  intros Hfit Hsub Hesc Hne Hnum Hdtype Hinf Hshape Hdisco.
  destruct (fit_construir_preprocesador nums cats X _ Hfit) as (ms & Hms & Hpp).
  assert (Hlen : length ms = length nums).
  { symmetry. by eapply Forall2_length. }
  set (df_esc := mkDF ("escenario" :: predictors) (map (fila_de predictors) escenarios_dict)).
  assert (Hdf : construir_df_escenarios predictors escenarios_dict = Ok df_esc)
    by by apply construir_df_escenarios_filas.
  set (X_esc := drop_columna "escenario" df_esc).
  assert (Hcols : columns X_esc = predictors).
  { unfold X_esc, drop_columna; simpl. rewrite filter_cons_False by (intros H; by apply H).
    clear -Hesc. induction predictors as [|p ps IH]; [done|].
    rewrite filter_cons_True.
    - f_equal. apply IH. intros H. apply Hesc. by right.
    - intros ->. apply Hesc. by left. }
  assert (Htr : transform (preprocessor info_modelo) X_esc =
                Ok (map (fila_transformada X nums cats ms) (filas X_esc))).
  { apply (transform_construir_total X nums cats ms _ Hlen Hpp X_esc).
    - unfold faltan_en. rewrite Hcols. apply filter_vacio. intros c Hc Hno.
      apply Hno. by apply Hsub.
    - unfold X_esc, drop_columna; simpl. by destruct escenarios_dict.
    - intros r c Hr Hc. unfold X_esc, drop_columna in Hr; simpl in Hr.
      apply list_elem_of_fmap in Hr as (r1 & -> & Hr1).
      apply list_elem_of_fmap in Hr1 as (e & -> & He).
      assert (Hcp : c ∈ predictors) by (apply Hsub, elem_of_app; by left).
      rewrite celda_fila_de; [by apply Hnum|done|].
      intros ->. by apply Hesc.
    - intros c Hc Htxt. rewrite <- Hdtype in Htxt by done. rewrite <- Htxt.
      f_equal. unfold columna, X_esc, drop_columna; simpl. rewrite !map_map.
      apply map_ext. intros e. apply celda_fila_de.
      + apply Hsub, elem_of_app. by right.
      + intros ->. apply Hesc. apply Hsub, elem_of_app. by right. }
  set (y_proba := predict (model info_modelo)
                    (map (fila_transformada X nums cats ms) (filas X_esc))).
  destruct (tabla_predicciones_total (class_mapping info_modelo) y_proba df_esc)
    as [df_out Hout].
  { unfold y_proba, predict; simpl. rewrite Hinf. by rewrite !length_map. }
  { exact Hshape. }
  exists df_out. split.
  - unfold predecir_escenarios, mbind, lift, llamar, escribir.
    rewrite Hdf. fold X_esc. rewrite Htr. fold y_proba. rewrite Hout, Hdisco.
    by rewrite <- !app_assoc.
  - apply tabla_predicciones_Ok in Hout as (Hl & _). rewrite Hl.
    unfold df_esc; simpl. by rewrite length_map.
Qed.

(** X14. Scenario scoring goes through whenever: the preprocessor is one
    fitted from [construir_preprocesador] whose columns are predictors, no
    predictor is named "escenario", there is at least one scenario, no
    scenario gives a text to a numeric predictor, every categorical
    predictor is, over the scenarios, of the kind it had in the fitting rows
    (some scenario gives it a text exactly when a fitting row holds a text;
    a predictor a scenario leaves out counts as a missing value), the
    network returns one output row per input row, its output is a single
    column or covers every code of the label mapping, and the disk accepts
    the table.  The run then calls transform and model.predict and writes
    the predictions table, one row per scenario. *)
Theorem predecir_escenarios_completo (env : Entorno) (info_modelo : InfoModelo)
    (nums cats predictors : list string) (X : DataFrame valor)
    (escenarios_dict : list (string * gmap string valor))
    (model_id dir_reports : string) (t : list evento) :
  fit (construir_preprocesador nums cats) X = Ok (preprocessor info_modelo) →
  (∀ c, c ∈ nums ++ cats → c ∈ predictors) →
  "escenario" ∉ predictors →
  escenarios_dict ≠ [] →
  (∀ e c, e ∈ escenarios_dict → c ∈ nums → es_str (default VNaN (e.2 !! c)) = false) →
  (∀ c, c ∈ cats →
        existsb es_str (map (λ e, default VNaN (e.2 !! c)) escenarios_dict) =
        existsb es_str (columna X c)) →
  (∀ Xp, length (inferencia (model info_modelo) Xp) = length Xp) →
  unidades_salida (red (model info_modelo)) = 1 ∨
    (unidades_salida (red (model info_modelo)) ≠ 0 ∧
     Forall (λ it, 0 ≤ it.1 < Z.of_nat (unidades_salida (red (model info_modelo))))%Z
       (class_mapping info_modelo)) →
  disco env (ruta dir_reports (model_id +:+ "_predicciones_escenarios.csv")) = true →
  ∃ df_out,
    predecir_escenarios env info_modelo predictors escenarios_dict model_id dir_reports t =
      (Ok tt, t ++ [Llamada "transform"; Llamada "model.predict";
                    Escritura (ruta dir_reports (model_id +:+ "_predicciones_escenarios.csv"))
                      (Tabla df_out)]) ∧
    length (filas df_out) = length escenarios_dict.
Proof. apply predecir_escenarios_Ok. Qed.

Lemma predecir_escenarios_completo_witness :
  let X := mkDF ["n_personas"; "AREA"]
             [{["n_personas" := VNum 3; "AREA" := VStr "urbano"]};
              {["n_personas" := VNum 5; "AREA" := VStr "rural"]}] in
  let escenarios_dict : list (string * gmap string valor) :=
    [("esc_1", {["n_personas" := VNum 8]}); ("esc_2", {["AREA" := VStr "selva"]})] in
  ∃ df_out,
    predecir_escenarios entorno_ejemplo info_ejemplo ["n_personas"; "AREA"]
      escenarios_dict "nn1" DIR_REPORTS [] =
      (Ok tt, [] ++ [Llamada "transform"; Llamada "model.predict";
                     Escritura (ruta DIR_REPORTS ("nn1" +:+ "_predicciones_escenarios.csv"))
                       (Tabla df_out)]) ∧
    length (filas df_out) = length escenarios_dict.
Proof.
  intros X escenarios_dict.
  apply (predecir_escenarios_completo entorno_ejemplo info_ejemplo ["n_personas"] ["AREA"]
           ["n_personas"; "AREA"] X escenarios_dict "nn1" DIR_REPORTS []).
  - by vm_compute.
  - intros c Hc. exact Hc.
  - by apply (bool_decide_unpack _); vm_compute.
  - discriminate.
  - intros e c He Hc. apply list_elem_of_singleton in Hc as ->.
    apply elem_of_cons in He as [->|He]; [by vm_compute|].
    apply list_elem_of_singleton in He as ->. by vm_compute.
  - intros c Hc. apply list_elem_of_singleton in Hc as ->. by vm_compute.
  - intros Xp. simpl. by rewrite length_map.
  - by left.
  - reflexivity.
Defined.

(** ** The scenarios of the first model *)

Lemma indice_valido {A} (l : list A) (i : Z) :
  (- Z.of_nat (length l) ≤ i < Z.of_nat (length l))%Z →
  ∃ x, indice l i = Ok x ∧ x ∈ l.
Proof.
  intros Hi. unfold indice.
  set (j := if decide (i < 0)%Z then (i + Z.of_nat (length l))%Z else i).
  assert (Hj : (0 ≤ j < Z.of_nat (length l))%Z).
  { unfold j. case_decide; lia. }
  rewrite decide_True by lia.
  destruct (lookup_lt_is_Some_2 l (Z.to_nat j)) as [x Hx]; [lia|].
  rewrite Hx. exists x. split; [done|]. by eapply list_elem_of_lookup_2.
Qed.

Lemma indice_fuera {A} (l : list A) (i : Z) :
  (i < - Z.of_nat (length l) ∨ Z.of_nat (length l) ≤ i)%Z →
  ∃ msg, indice l i = Err (IndexError msg).
Proof.
  intros Hi. unfold indice.
  set (j := if decide (i < 0)%Z then (i + Z.of_nat (length l))%Z else i).
  destruct (decide (0 ≤ j)%Z) as [Hj|Hj]; [|eauto].
  rewrite lookup_ge_None_2; [eauto|]. unfold j in *. case_decide; lia.
Qed.

Lemma categorias_en_columna (df : DataFrame valor) (c : string) (v : valor) :
  v ∈ categorias (columna df c) ↔ v ∈ columna df c ∧ v ≠ VNaN.
Proof. apply categorias_elem. Qed.

(** The three positions the scenarios of the first model read, the first,
    the second-or-only and the last category, exist as soon as the column
    has a non-missing value. *)
Lemma categoria_en_Ok (df : DataFrame valor) (c : string) (v0 : valor) :
  c ∈ columns df → v0 ∈ columna df c → v0 ≠ VNaN →
  (∃ v, categoria_en df c 0 = Ok v ∧ v ∈ columna df c ∧ v ≠ VNaN) ∧
  (∃ v, categoria_segunda df c = Ok v ∧ v ∈ columna df c ∧ v ≠ VNaN) ∧
  (∃ v, categoria_en df c (-1) = Ok v ∧ v ∈ columna df c ∧ v ≠ VNaN).
Proof.
  intros Hc Hv0 Hnan.
  assert (Hlen : 0 < length (categorias (columna df c))).
  { assert (Hin : v0 ∈ categorias (columna df c)) by by apply categorias_elem.
    destruct (categorias (columna df c)); [by apply elem_of_nil in Hin|simpl; lia]. }
  unfold categoria_en, categoria_segunda, categorias_de. rewrite decide_True by done.
  cbn [res_bind].
  split; [|split].
  - destruct (indice_valido (categorias (columna df c)) 0) as (v & -> & Hv); [lia|].
    exists v. split; [done|]. by apply categorias_elem.
  - destruct (indice_valido (categorias (columna df c))
                (Z.min 1 (Z.of_nat (length (categorias (columna df c))) - 1)))
      as (v & -> & Hv); [lia|].
    exists v. split; [done|]. by apply categorias_elem.
  - destruct (indice_valido (categorias (columna df c)) (-1)) as (v & -> & Hv); [lia|].
    exists v. split; [done|]. by apply categorias_elem.
Qed.

Lemma train_test_split_no_vacio (env : Entorno) (X : DataFrame valor) (y : list Z)
    (res : DataFrame valor * DataFrame valor * list Z * list Z) :
  train_test_split env X y = Ok res → y ≠ [].
Proof. by intros H ->. Qed.

Lemma columnas_presentes (cols : list string) (df : DataFrame valor) (c : string) :
  filter (λ c, c ∉ columns df) cols = [] → c ∈ cols → c ∈ columns df.
Proof.
  intros Hf Hc. destruct (decide (c ∈ columns df)) as [|Hno]; [done|].
  exfalso. by apply (filter_nil_not_elem_of _ _ c Hf Hno).
Qed.

(** A training run that returns has found, in the dataset, a row without
    missing value in the target and the predictors. *)
Lemma entrenar_modelo_nn_fila_completa (env : Entorno) (df : DataFrame valor)
    (target_col : string) (predictors numeric_features categorical_features : list string)
    (model_id dir_reports : string) (t t' : list evento) (info : InfoModelo) :
  entrenar_modelo_nn env df target_col predictors numeric_features
    categorical_features model_id dir_reports t = (Ok info, t') →
  (∀ c, c ∈ predictors → c ∈ columns df) ∧
  ∃ r0, r0 ∈ filas df ∧ ∀ c, c ∈ predictors → celda r0 c ≠ VNaN.
Proof.
  intros H. apply entrenar_modelo_nn_Ok in H as (Hcols & _ & Hsplit & _).
  split.
  { intros c Hc. apply (columnas_presentes (target_col :: predictors)); [done|by right]. }
  apply train_test_split_no_vacio in Hsplit.
  set (data_sub := dropna (target_col :: predictors)
                     (seleccionar (target_col :: predictors) df)) in *.
  assert (Hne : ∃ r, r ∈ filas data_sub).
  { destruct (filas data_sub) as [|r rs] eqn:Hf; [|exists r; by left].
    exfalso. apply Hsplit. unfold codificar_target, columna. by rewrite Hf. }
  destruct Hne as [r Hr]. unfold data_sub, dropna, seleccionar in Hr.
  cbn [filas] in Hr.
  apply list_elem_of_filter in Hr as [Hall Hr].
  apply list_elem_of_fmap in Hr as (r0 & -> & Hr0).
  exists r0. split; [done|]. intros c Hc Hnan.
  rewrite forallb_forall in Hall. specialize (Hall c).
  rewrite <- list_elem_of_In in Hall. specialize (Hall ltac:(by right)).
  assert (Hcel : celda (filter (λ kv, kv.1 ∈ target_col :: predictors) r0) c = celda r0 c).
  { unfold celda. rewrite map_lookup_filter.
    destruct (r0 !! c); simpl; [|done]. rewrite option_guard_True; [done|]. by right. }
  rewrite Hcel, Hnan in Hall. done.
Qed.

Lemma escenarios_nn1_Ok (df : DataFrame valor) (r0 : gmap string valor) :
  (∀ c, c ∈ predictors_nn1 → c ∈ columns df) →
  r0 ∈ filas df →
  (∀ c, c ∈ predictors_nn1 → celda r0 c ≠ VNaN) →
  ∃ escenarios,
    escenarios_nn1 df = Ok escenarios ∧
    map fst escenarios =
      ["esc_1_materiales_muy_precarios_sin_servicios";
       "esc_2_materiales_intermedios_con_algunos_servicios";
       "esc_3_materiales_buenos_con_todos_los_servicios"] ∧
    ∀ e, e ∈ escenarios →
      (∀ p, is_Some (e.2 !! p) ↔ p ∈ predictors_nn1) ∧
      (∀ c, c ∈ ["PCV2"; "PCV3"; "PCV5"; "AREA"] →
            ∃ v, e.2 !! c = Some v ∧ v ∈ columna df c ∧ v ≠ VNaN) ∧
      (∀ c, c ∈ numeric_nn1 → es_str (default VNaN (e.2 !! c)) = false) ∧
      es_str (default VNaN (e.2 !! "cluster_k4")) = false.
Proof.
  intros Hcols Hr0 Hcomp.
  assert (Hcat : ∀ c, c ∈ predictors_nn1 →
            (∃ v, categoria_en df c 0 = Ok v ∧ v ∈ columna df c ∧ v ≠ VNaN) ∧
            (∃ v, categoria_segunda df c = Ok v ∧ v ∈ columna df c ∧ v ≠ VNaN) ∧
            (∃ v, categoria_en df c (-1) = Ok v ∧ v ∈ columna df c ∧ v ≠ VNaN)).
  { intros c Hc. apply (categoria_en_Ok df c (celda r0 c)); [by apply Hcols| |by apply Hcomp].
    unfold columna. apply list_elem_of_fmap. by exists r0. }
  assert (Hp : ∀ c, bool_decide (c ∈ predictors_nn1) = true → c ∈ predictors_nn1).
  { intros c. apply bool_decide_eq_true_1. }
  destruct (Hcat "PCV2" (Hp "PCV2" eq_refl))
    as ((a2 & Ha2 & Ha2v) & (b2 & Hb2 & Hb2v) & (c2 & Hc2 & Hc2v)).
  destruct (Hcat "PCV3" (Hp "PCV3" eq_refl))
    as ((a3 & Ha3 & Ha3v) & (b3 & Hb3 & Hb3v) & (c3 & Hc3 & Hc3v)).
  destruct (Hcat "PCV5" (Hp "PCV5" eq_refl))
    as ((a5 & Ha5 & Ha5v) & (b5 & Hb5 & Hb5v) & (c5 & Hc5 & Hc5v)).
  destruct (Hcat "AREA" (Hp "AREA" eq_refl))
    as ((aa & Haa & Haav) & _ & (ca & Hca & Hcav)).
  unfold escenarios_nn1.
  rewrite Ha2, Ha3, Ha5, Haa, Hb2, Hb3, Hb5, Hc2, Hc3, Hc5, Hca. cbn [res_bind].
  eexists. split; [reflexivity|]. split; [reflexivity|].
  intros e He. rewrite !elem_of_cons, elem_of_nil in He.
  assert (Hdom : ∀ (l : list (string * valor)) p,
            is_Some ((list_to_map l : gmap string valor) !! p) ↔ p ∈ l.*1).
  { intros l p. rewrite <- elem_of_dom, dom_list_to_map_L. apply elem_of_list_to_set. }
  destruct He as [->|[->|[->|[]]]]; cbn [snd];
    (split; [intros p; rewrite Hdom; reflexivity|]);
    (split;
     [ intros c Hc; rewrite !elem_of_cons, elem_of_nil in Hc;
       destruct Hc as [->|[->|[->|[->|[]]]]]; eexists; (split; [reflexivity|done])
     | split; [|reflexivity];
       intros c Hc; unfold numeric_nn1 in Hc; rewrite !elem_of_cons, elem_of_nil in Hc;
       destruct Hc as [->|[->|[->|[]]]]; reflexivity ]).
Qed.

(** X15. Once the first model has been trained, its three scenarios are
    built without error: every category the dict literal reads (the first,
    the second or only, the last of PCV2, PCV3, PCV5 and AREA) exists.  Each
    scenario gives a value to exactly the eight predictors of the model, so
    no predictor is filled with NaN and no key is ignored, and the values of
    the four columns read from the dataset are non-missing values of these
    columns. *)
Theorem escenarios_nn1_completos (env : Entorno) (df : DataFrame valor)
    (t t' : list evento) (info : InfoModelo) :
  entrenar_modelo_nn env df target_nn1 predictors_nn1 numeric_nn1 categorical_nn1
    "nn1_indice_calidad_vivienda_cat" DIR_REPORTS t = (Ok info, t') →
  ∃ escenarios,
    escenarios_nn1 df = Ok escenarios ∧
    map fst escenarios =
      ["esc_1_materiales_muy_precarios_sin_servicios";
       "esc_2_materiales_intermedios_con_algunos_servicios";
       "esc_3_materiales_buenos_con_todos_los_servicios"] ∧
    ∀ e, e ∈ escenarios →
      (∀ p, is_Some (e.2 !! p) ↔ p ∈ predictors_nn1) ∧
      (∀ c, c ∈ ["PCV2"; "PCV3"; "PCV5"; "AREA"] →
            ∃ v, e.2 !! c = Some v ∧ v ∈ columna df c ∧ v ≠ VNaN).
Proof.
  intros H. apply entrenar_modelo_nn_fila_completa in H as (Hcols & r0 & Hr0 & Hcomp).
  destruct (escenarios_nn1_Ok df r0 Hcols Hr0 Hcomp) as (esc & Hesc & Hnames & Hall).
  exists esc. split; [done|]. split; [done|].
  intros e He. destruct (Hall e He) as (Hd & Hc & _). by split.
Qed.

Lemma length_enumerate_desde {V} (l : list V) (n : Z) :
  length (enumerate_desde n l) = length l.
Proof. revert n. induction l as [|x l IH]; intros n; simpl; [done|]. by rewrite IH. Qed.

(** A training run that returns has a label mapping with at least one
    entry. *)
Lemma entrenar_modelo_nn_clases (env : Entorno) (df : DataFrame valor)
    (target_col : string) (predictors numeric_features categorical_features : list string)
    (model_id dir_reports : string) (t t' : list evento) (info : InfoModelo) :
  entrenar_modelo_nn env df target_col predictors numeric_features
    categorical_features model_id dir_reports t = (Ok info, t') →
  ∃ cats, cats ≠ [] ∧ class_mapping info = enumerate cats.
Proof.
  intros H. apply entrenar_modelo_nn_Ok in H as (_ & Hcm & Hsplit & _).
  apply train_test_split_no_vacio in Hsplit.
  set (data_sub := dropna (target_col :: predictors)
                     (seleccionar (target_col :: predictors) df)) in *.
  exists (categorias (columna data_sub target_col)). split; [|exact Hcm].
  destruct (columna data_sub target_col) as [|v vs] eqn:Hcol.
  { exfalso. apply Hsplit. unfold codificar_target. by rewrite Hcol. }
  assert (Hv : v ∈ categorias (v :: vs)).
  { apply categorias_elem. split; [by left|]. intros ->.
    apply (dropna_sin_nan (target_col :: predictors)
             (seleccionar (target_col :: predictors) df) target_col); [by left|].
    fold data_sub. rewrite Hcol. by left. }
  intros Hnil. rewrite Hnil in Hv. by apply elem_of_nil in Hv.
Qed.

(** The rows of the training split are rows of the dataset, restricted to
    the predictors, none of them missing. *)
Lemma entrenar_modelo_nn_filas_train (env : Entorno) (df : DataFrame valor)
    (target_col : string) (predictors numeric_features categorical_features : list string)
    (model_id dir_reports : string) (t t' : list evento) (info : InfoModelo)
    (r : gmap string valor) :
  entrenar_modelo_nn env df target_col predictors numeric_features
    categorical_features model_id dir_reports t = (Ok info, t') →
  r ∈ filas (X_train info) →
  ∃ r0, r0 ∈ filas df ∧
        ∀ p, p ∈ predictors → celda r p = celda r0 p ∧ celda r0 p ≠ VNaN.
Proof.
  intros H Hr. apply entrenar_modelo_nn_Ok in H as (_ & _ & Hsplit & _).
  apply train_test_split_Ok in Hsplit as (Hrows & _ & _).
  specialize (Hrows r (or_introl Hr)). unfold seleccionar, dropna in Hrows.
  cbn [filas] in Hrows.
  apply list_elem_of_fmap in Hrows as (r1 & -> & Hr1).
  apply list_elem_of_filter in Hr1 as [Hall Hr1].
  apply list_elem_of_fmap in Hr1 as (r0 & -> & Hr0).
  exists r0. split; [done|]. intros p Hp.
  assert (Hcel1 : celda (filter (λ kv, kv.1 ∈ target_col :: predictors) r0) p = celda r0 p).
  { unfold celda. rewrite map_lookup_filter.
    destruct (r0 !! p); simpl; [|done]. rewrite option_guard_True; [done|]. by right. }
  assert (Hcel2 : celda (filter (λ kv, kv.1 ∈ predictors)
                     (filter (λ kv, kv.1 ∈ target_col :: predictors) r0)) p = celda r0 p).
  { rewrite <- Hcel1. unfold celda. rewrite (map_lookup_filter _ (filter _ r0)).
    destruct (filter _ r0 !! p); simpl; [|done]. by rewrite option_guard_True. }
  split; [exact Hcel2|]. intros Hnan.
  rewrite forallb_forall in Hall. specialize (Hall p).
  rewrite <- list_elem_of_In in Hall. specialize (Hall ltac:(by right)).
  rewrite Hcel1, Hnan in Hall. done.
Qed.

(** Fitting a preprocessor that has columns needs one row at least. *)
Lemma fit_no_vacio (ct : ColumnTransformer) (X : DataFrame valor)
    (pp : ColumnTransformerAj) :
  fit ct X = Ok pp → columnas_requeridas ct ≠ [] → filas X ≠ [].
Proof.
  unfold fit. destruct (faltan_en _ X); [|done].
  case_decide as Hvac; [done|]. intros _ Hcols Hnil. by apply Hvac.
Qed.

Lemma sin_textos (vs : list valor) :
  (∀ v, v ∈ vs → es_str v = false) → existsb es_str vs = false.
Proof.
  intros Hvs. apply not_true_is_false. intros Hex.
  apply existsb_exists in Hex as (v & Hv & Hs). apply list_elem_of_In in Hv.
  by rewrite (Hvs v Hv) in Hs.
Qed.

(** Two non-empty selections of non-missing values of a column that holds
    only texts, or no text, are of the same kind. *)
Lemma misma_clase (vs1 vs2 col : list valor) :
  vs1 ≠ [] → vs2 ≠ [] →
  (∀ v, v ∈ vs1 → v ∈ col ∧ v ≠ VNaN) →
  (∀ v, v ∈ vs2 → v ∈ col ∧ v ≠ VNaN) →
  (∀ v, v ∈ col → v ≠ VNaN → es_str v = true) ∨ (∀ v, v ∈ col → es_str v = false) →
  existsb es_str vs1 = existsb es_str vs2.
Proof.
  intros H1 H2 Hin1 Hin2 [Htxt|Hnum].
  - assert (Hex : ∀ vs, vs ≠ [] → (∀ v, v ∈ vs → v ∈ col ∧ v ≠ VNaN) →
                        existsb es_str vs = true).
    { intros [|v vs] Hne Hin; [done|]. simpl.
      destruct (Hin v ltac:(by left)) as [Hv Hnan]. by rewrite (Htxt v Hv Hnan). }
    by rewrite !Hex.
  - rewrite !sin_textos; [done|..]; intros v Hv; apply Hnum; first [by apply Hin1|by apply Hin2].
Qed.

(** X16. The first model end to end (section 3 of the script).  Take a
    dataset in which each of PCV2, PCV3, PCV5 and AREA holds, missing values
    apart, only texts or no text at all, and cluster_k4 holds no text (the
    scenarios give it the integers 1, 2 and 3).  When the training of the
    model returns, the split has kept every class in the training rows, the
    network returns one output row per input row and the disk accepts the
    table, the three scenarios are built and scored without error, and the
    run ends with the fourth artifact written after the three of training,
    the predictions table having three rows. *)
Theorem modelo_nn1_completo (env : Entorno) (df : DataFrame valor)
    (t t1 : list evento) (info : InfoModelo) :
  entrenar_modelo_nn env df target_nn1 predictors_nn1 numeric_nn1 categorical_nn1
    "nn1_indice_calidad_vivienda_cat" DIR_REPORTS t = (Ok info, t1) →
  (∀ c, c ∈ ["PCV2"; "PCV3"; "PCV5"; "AREA"] →
        (∀ v, v ∈ columna df c → v ≠ VNaN → es_str v = true) ∨
        (∀ v, v ∈ columna df c → es_str v = false)) →
  (∀ v, v ∈ columna df "cluster_k4" → es_str v = false) →
  length (remove_dups (y_train info)) = length (class_mapping info) →
  (∀ Xp, length (inferencia (model info) Xp) = length Xp) →
  disco env (ruta DIR_REPORTS ("nn1_indice_calidad_vivienda_cat"
                               +:+ "_predicciones_escenarios.csv")) = true →
  ∃ df_out,
    modelo_nn1 env df t =
      (Ok tt, t1 ++ [Llamada "transform"; Llamada "model.predict";
                     Escritura (ruta DIR_REPORTS ("nn1_indice_calidad_vivienda_cat"
                                                  +:+ "_predicciones_escenarios.csv"))
                       (Tabla df_out)]) ∧
    length (filas df_out) = 3 ∧
    escritos (modelo_nn1 env df t).2 =
      escritos t ++ artefactos "nn1_indice_calidad_vivienda_cat".
Proof.
  intros H Hhom Hk4 Hclases Hinf Hdisco.
  pose proof H as H0.
  apply entrenar_modelo_nn_Ok in H0 as (_ & _ & _ & Hred & (Xp & _ & _ & _ & Hfit & _) & Ht1).
  apply fit_transform_Ok in Hfit as [Hfit _].
  destruct (entrenar_modelo_nn_clases _ _ _ _ _ _ _ _ _ _ _ H) as (cats & Hcats & Hcm).
  pose proof H as H1.
  apply entrenar_modelo_nn_fila_completa in H1 as (Hcols & r0 & Hr0 & Hcomp).
  destruct (escenarios_nn1_Ok df r0 Hcols Hr0 Hcomp) as (esc & Hesc & Hnames & Hall).
  assert (Hlen : length esc = 3).
  { apply (f_equal length) in Hnames. rewrite length_map in Hnames. exact Hnames. }
  assert (Hescne : esc ≠ []).
  { intros ->. simpl in Hlen. lia. }
  assert (Htrain : ∀ c v, c ∈ predictors_nn1 → v ∈ columna (X_train info) c →
                          v ∈ columna df c ∧ v ≠ VNaN).
  { intros c v Hc Hv. unfold columna in Hv.
    apply list_elem_of_fmap in Hv as (r & -> & Hr).
    destruct (entrenar_modelo_nn_filas_train _ _ _ _ _ _ _ _ _ _ _ r H Hr)
      as (r1 & Hr1 & Hcel).
    destruct (Hcel c Hc) as [-> Hnan]. split; [|done].
    unfold columna. apply list_elem_of_fmap. by exists r1. }
  assert (Htrne : ∀ c, columna (X_train info) c ≠ []).
  { intros c Hnil. apply (fit_no_vacio _ _ _ Hfit); [done|].
    unfold columna in Hnil. by destruct (filas (X_train info)). }
  destruct (predecir_escenarios_Ok env info numeric_nn1 categorical_nn1 predictors_nn1
              (X_train info) esc "nn1_indice_calidad_vivienda_cat" DIR_REPORTS t1)
    as (df_out & Hpred & Hrows); try done.
  - intros c Hc. unfold numeric_nn1, categorical_nn1 in Hc. simpl in Hc.
    rewrite !elem_of_cons, elem_of_nil in Hc.
    repeat (destruct Hc as [->|Hc]; [by apply (bool_decide_unpack _); vm_compute|]).
    done.
  - by apply (bool_decide_unpack _); vm_compute.
  - intros e c He Hc. by apply (Hall e He).
  - intros c Hc.
    assert (Hcp : c ∈ predictors_nn1).
    { unfold categorical_nn1 in Hc. rewrite !elem_of_cons, elem_of_nil in Hc.
      repeat (destruct Hc as [->|Hc]; [by apply (bool_decide_unpack _); vm_compute|]).
      done. }
    destruct (decide (c = "cluster_k4")) as [->|Hnk].
    + rewrite !sin_textos; [done|..].
      * intros v Hv. apply Hk4. by apply (Htrain "cluster_k4" v Hcp Hv).
      * intros v Hv. apply list_elem_of_fmap in Hv as (e & -> & He).
        by apply (Hall e He).
    + assert (Hc4 : c ∈ ["PCV2"; "PCV3"; "PCV5"; "AREA"]).
      { unfold categorical_nn1 in Hc. rewrite !elem_of_cons, elem_of_nil in Hc.
        rewrite !elem_of_cons, elem_of_nil. tauto. }
      apply (misma_clase _ _ (columna df c));
        [| | |intros v Hv; by apply Htrain|by apply Hhom].
      * by destruct esc.
      * apply Htrne.
      * intros v Hv. apply list_elem_of_fmap in Hv as (e & -> & He).
        destruct (Hall e He) as (_ & Hval & _).
        destruct (Hval c Hc4) as (v & -> & Hv & Hnan). done.
  - rewrite Hred, unidades_salida_construir, Hclases, Hcm.
    unfold enumerate. rewrite length_enumerate_desde.
    destruct (decide (length cats = 2)) as [|Hn2]; [by left|].
    destruct (decide (length cats = 1)) as [->|Hn1]; [by left|].
    right. split.
    + destruct cats; [done|simpl; lia].
    + apply (enumerate_desde_Forall cats 0).
  - exists df_out.
    assert (Hrun : modelo_nn1 env df t =
              (Ok tt, t1 ++ [Llamada "transform"; Llamada "model.predict";
                             Escritura (ruta DIR_REPORTS ("nn1_indice_calidad_vivienda_cat"
                                                          +:+ "_predicciones_escenarios.csv"))
                               (Tabla df_out)])).
    { unfold modelo_nn1, mbind. rewrite H. unfold lift. by rewrite Hesc. }
    split; [exact Hrun|]. split; [lia|].
    rewrite Hrun. cbn [snd]. rewrite Ht1, !escritos_app. simpl.
    by rewrite <- app_assoc.
Qed.

Lemma entrenamiento_nn1_ejemplo_Ok :
  ∃ info t',
    entrenar_modelo_nn entorno_ejemplo df_nn1_ejemplo target_nn1 predictors_nn1
      numeric_nn1 categorical_nn1 "nn1_indice_calidad_vivienda_cat" DIR_REPORTS []
    = (Ok info, t').
Proof. eexists _, _. vm_compute. reflexivity. Defined.

Lemma escenarios_nn1_completos_witness :
  ∃ escenarios,
    escenarios_nn1 df_nn1_ejemplo = Ok escenarios ∧
    map fst escenarios =
      ["esc_1_materiales_muy_precarios_sin_servicios";
       "esc_2_materiales_intermedios_con_algunos_servicios";
       "esc_3_materiales_buenos_con_todos_los_servicios"] ∧
    ∀ e, e ∈ escenarios →
      (∀ p, is_Some (e.2 !! p) ↔ p ∈ predictors_nn1) ∧
      (∀ c, c ∈ ["PCV2"; "PCV3"; "PCV5"; "AREA"] →
            ∃ v, e.2 !! c = Some v ∧ v ∈ columna df_nn1_ejemplo c ∧ v ≠ VNaN).
Proof.
  destruct entrenamiento_nn1_ejemplo_Ok as (info & t' & H).
  exact (escenarios_nn1_completos entorno_ejemplo df_nn1_ejemplo [] t' info H).
Defined.

Lemma modelo_nn1_completo_witness :
  ∃ df_out t1,
    modelo_nn1 entorno_ejemplo df_nn1_ejemplo [] =
      (Ok tt, t1 ++ [Llamada "transform"; Llamada "model.predict";
                     Escritura (ruta DIR_REPORTS ("nn1_indice_calidad_vivienda_cat"
                                                  +:+ "_predicciones_escenarios.csv"))
                       (Tabla df_out)]) ∧
    length (filas df_out) = 3 ∧
    escritos (modelo_nn1 entorno_ejemplo df_nn1_ejemplo []).2 =
      escritos [] ++ artefactos "nn1_indice_calidad_vivienda_cat".
Proof.
  destruct entrenamiento_nn1_ejemplo_Ok as (info & t1 & H).
  destruct (modelo_nn1_completo entorno_ejemplo df_nn1_ejemplo [] t1 info H)
    as (df_out & Hrun); [| | | | |by exists df_out, t1].
  - intros c Hc. left. revert c Hc.
    apply (Forall_forall
             (λ c, ∀ v, v ∈ columna df_nn1_ejemplo c → v ≠ VNaN → es_str v = true)).
    repeat (constructor;
            [apply (Forall_forall (λ v, v ≠ VNaN → es_str v = true));
             vm_compute; by repeat constructor|]).
    constructor.
  - apply (Forall_forall (λ v, es_str v = false)). vm_compute. by repeat constructor.
  - vm_compute in H. injection H as <- _. reflexivity.
  - vm_compute in H. injection H as <- _. intros Xp.
    induction Xp as [|x Xp IH]; [reflexivity|]. simpl in *. by rewrite IH.
  - reflexivity.
Defined.

(** ** The scenarios of the third model *)

Lemma categoria_en_fuera (df : DataFrame valor) (c : string) (i : Z) :
  (Z.of_nat (length (categorias (columna df c))) ≤ i)%Z →
  ∃ e, categoria_en df c i = Err e.
Proof.
  intros Hi. unfold categoria_en, categorias_de. case_decide; [|eauto].
  cbn [res_bind].
  destruct (indice_fuera (categorias (columna df c)) i) as [msg ->]; [lia|eauto].
Qed.

Lemma escenarios_nn3_falla (df : DataFrame valor) (est : Estadisticas) :
  length (categorias (columna df "PCV2")) < 2 ∨
  length (categorias (columna df "PCV3")) < 2 ∨
  length (categorias (columna df "PCV5")) < 2 ∨
  length (categorias (columna df "DEPARTAMENTO")) < 6 →
  ∃ e, escenarios_nn3 df est = Err e.
Proof.
  intros Hpocas. unfold escenarios_nn3.
  repeat match goal with
  | |- ∃ e, res_bind ?r _ = Err e =>
      let E := fresh "E" in
      destruct r as [?|?] eqn:E; cbn [res_bind]; [|eauto]
  end.
  exfalso.
  destruct Hpocas as [H|[H|[H|H]]].
  - destruct (categoria_en_fuera df "PCV2" 1) as [e He]; [lia|congruence].
  - destruct (categoria_en_fuera df "PCV3" 1) as [e He]; [lia|congruence].
  - destruct (categoria_en_fuera df "PCV5" 1) as [e He]; [lia|congruence].
  - destruct (categoria_en_fuera df "DEPARTAMENTO" 5) as [e He]; [lia|congruence].
Qed.

(** X17. The scenarios of the third model read the second category of PCV2,
    PCV3 and PCV5 and the sixth category of DEPARTAMENTO without a guard:
    on a dataset with fewer categories in one of these columns the dict of
    scenarios cannot be built, and the section of the third model, once its
    training has returned, ends in that error with the three training
    artifacts written, scenario scoring never called and no predictions
    table. *)
Theorem modelo_nn3_pocas_categorias (env : Entorno) (df : DataFrame valor)
    (est : Estadisticas) (t t1 : list evento) (info : InfoModelo) :
  length (categorias (columna df "PCV2")) < 2 ∨
  length (categorias (columna df "PCV3")) < 2 ∨
  length (categorias (columna df "PCV5")) < 2 ∨
  length (categorias (columna df "DEPARTAMENTO")) < 6 →
  entrenar_modelo_nn env df target_nn3 predictors_nn3 numeric_nn3 categorical_nn3
    "nn3_agua_mejorada" DIR_REPORTS t = (Ok info, t1) →
  ∃ e,
    escenarios_nn3 df est = Err e ∧
    modelo_nn3 env df est t = (Err e, t1) ∧
    escritos t1 = escritos t ++ take 3 (artefactos "nn3_agua_mejorada").
Proof.
  intros Hpocas H.
  destruct (escenarios_nn3_falla df est Hpocas) as [e He].
  exists e. split; [done|]. split.
  - unfold modelo_nn3, mbind. rewrite H. unfold lift. by rewrite He.
  - apply entrenar_modelo_nn_Ok in H as (_ & _ & _ & _ & _ & ->).
    rewrite escritos_app. reflexivity.
Qed.

Lemma entrenamiento_nn3_ejemplo_Ok :
  ∃ info t1,
    entrenar_modelo_nn entorno_ejemplo df_nn3_ejemplo target_nn3 predictors_nn3
      numeric_nn3 categorical_nn3 "nn3_agua_mejorada" DIR_REPORTS []
    = (Ok info, t1).
Proof. eexists _, _. vm_compute. reflexivity. Defined.

Lemma modelo_nn3_pocas_categorias_witness :
  ∃ e t1,
    escenarios_nn3 df_nn3_ejemplo estadisticas_ejemplo = Err e ∧
    modelo_nn3 entorno_ejemplo df_nn3_ejemplo estadisticas_ejemplo [] = (Err e, t1) ∧
    escritos t1 = escritos [] ++ take 3 (artefactos "nn3_agua_mejorada").
Proof.
  destruct entrenamiento_nn3_ejemplo_Ok as (info & t1 & H).
  destruct (modelo_nn3_pocas_categorias entorno_ejemplo df_nn3_ejemplo
              estadisticas_ejemplo [] t1 info) as (e & He); [|exact H|by exists e, t1].
  right. right. right. apply Nat.ltb_lt. vm_compute. reflexivity.
Defined.
